(** * StayRTR: the refresh pipeline and start-up code of cmd/stayrtr/stayrtr.go

    A shallow embedding of the functions of [cmd/stayrtr/stayrtr.go]:
    [isValidPrefixLength], [processData], [updateFromNewState], [updateFile],
    [updateSlurm], [routineUpdate], [exporter], the SSH public-key callback
    and the command-line prelude of [run].

    The packages the file imports ([lib], [prefixfile], [utils]) and Go's
    standard library are not part of the embedded source.  Their small, fixed
    functions ([net.IP.To4], [net.IPMask.Size], [strings.HasPrefix], ...) are
    written out; the others (parsers, SHA-256, JSON decoding, the SLURM
    filter) are fields of the class [Externals], so every theorem holds for
    any implementation of them. *)

From Stdlib Require Import ZArith List String Ascii Bool Lia DecimalString Permutation.
From stdpp Require Import base gmap strings list.

Local Open Scope string_scope.
Local Open Scope list_scope.
Local Open Scope Z_scope.

(** ** Go values *)

(** Go's [error] values, as far as this file makes or inspects them. *)
Inductive error : Type :=
| IdenticalFile (File : string)      (* type IdenticalFile struct { File string } *)
| errors_New (msg : string)          (* errors.New(msg) *)
| StaleFile (buildtime : Z)          (* errors.New(Sprintf("VRP JSON file is older than 24 hours: %v", buildtime)) *)
| LibError (msg : string).           (* an error made by an imported package *)

(** A Go result pair [(value, error)] of which exactly one is meaningful. *)
Inductive result (A : Type) : Type :=
| Ok (a : A)
| Err (e : error).
Arguments Ok {A} a.
Arguments Err {A} e.

(** A Go slice whose nil-ness the program can observe: [None] is [nil]. *)
Definition slice (A : Type) : Type := option (list A).

Definition elems {A} (s : slice A) : list A :=
  match s with
  | None => []
  | Some l => l
  end.

(** [len(s)] *)
Definition len {A} (s : slice A) : Z := Z.of_nat (length (elems s)).

(** [append(a, b...)]: with nothing to add the first slice comes back as it
    is (a nil slice stays nil). *)
Definition append {A} (a b : slice A) : slice A :=
  match elems b with
  | [] => a
  | _ :: _ => Some (elems a ++ elems b)
  end.

Definition uint8 (n : Z) : Z := n mod 256.

(** The value an [int64] holds after an operation whose exact result is [n]:
    Go's signed arithmetic wraps around. *)
Definition int64 (n : Z) : Z := (n + 2 ^ 63) mod 2 ^ 64 - 2 ^ 63.

(** ** Package net *)

Module net.

Definition IP : Type := list Z.
Definition IPMask : Type := list Z.

Record IPNet : Type := { IP_ : IP; Mask : IPMask }.

Definition IPv4len : nat := 4.
Definition IPv6len : nat := 16.

Definition isZeros (p : list Z) : bool := forallb (Z.eqb 0) p.

(** [func (ip IP) To4() IP]; [None] is the nil result. *)
Definition To4 (ip : IP) : option IP :=
  if Nat.eqb (length ip) IPv4len then Some ip
  else if Nat.eqb (length ip) IPv6len
          && isZeros (firstn 10 ip)
          && Z.eqb (nth 10 ip 0) 255
          && Z.eqb (nth 11 ip 0) 255
       then Some (skipn 12 ip)
       else None.

(** [ip.To4() != nil] *)
Definition To4_not_nil (ip : IP) : bool :=
  match To4 ip with
  | Some _ => true
  | None => false
  end.

(** [ip.To16() != nil] *)
Definition To16_not_nil (ip : IP) : bool :=
  Nat.eqb (length ip) IPv4len || Nat.eqb (length ip) IPv6len.

(** The inner loop of [simpleMaskLength]:
    [for v&0x80 != 0 { n++; v <<= 1 }] on a [uint8]; at most eight rounds. *)
Fixpoint leadingOnes (fuel : nat) (v n : Z) : Z * Z :=
  match fuel with
  | O => (v, n)
  | S fuel' =>
      if Z.eqb (Z.land v 128) 0 then (v, n)
      else leadingOnes fuel' (uint8 (Z.shiftl v 1)) (n + 1)
  end.

(** [simpleMaskLength]: the number of leading one bits of a mask made of ones
    followed by zeros, and [-1] for any other mask. *)
Fixpoint simpleMaskLength_from (mask : IPMask) (n : Z) : Z :=
  match mask with
  | [] => n
  | v :: rest =>
      if Z.eqb v 255 then simpleMaskLength_from rest (n + 8)
      else
        let '(v', n') := leadingOnes 8 v n in
        if negb (Z.eqb v' 0) then -1
        else if forallb (Z.eqb 0) rest then n' else -1
  end.

Definition simpleMaskLength (mask : IPMask) : Z := simpleMaskLength_from mask 0.

(** [func (m IPMask) Size() (ones, bits int)] *)
Definition Size (m : IPMask) : Z * Z :=
  let ones := simpleMaskLength m in
  let bits := Z.of_nat (length m) * 8 in
  if Z.eqb ones (-1) then (0, 0) else (ones, bits).

End net.

(** ** Packages prefixfile and lib: the records this file builds and reads *)

(** The [asn] member of a JSON entry: a string or a number. *)
Inductive asn_json : Type :=
| asn_string (s : string)
| asn_number (n : Z).

(** [prefixfile.VRPJson]: one entry of the upstream document. *)
Record VRPJson : Type := {
  Prefix : string;
  ASN : asn_json;
  Length : Z                           (* uint8 *)
}.

(** [prefixfile.MetaData] and [prefixfile.VRPList]. *)
Record MetaData : Type := { Counts : Z; Buildtime : string }.
Record VRPList : Type := { Metadata : MetaData; Data : slice VRPJson }.

(** [rtr.VRP], with the fields [processData] sets. *)
Record VRP : Type := {
  VRP_Prefix : net.IPNet;
  VRP_ASN : Z;                         (* uint32 *)
  MaxLen : Z                           (* uint8 *)
}.

(** [time.Time] as nanoseconds since the zero Time. *)
Definition Time : Type := Z.
Definition IsZero (t : Time) : bool := Z.eqb t 0.
Definition Second : Z := 1000000000.
Definition Hour : Z := 3600 * Second.
Definition Add (t : Time) (d : Z) : Time := t + d.
Definition After (t u : Time) : bool := Z.ltb u t.

(** What the imported packages and the standard library compute for this
    file.  [SlurmConfig] is [prefixfile.SlurmConfig]. *)
Class Externals : Type := {
  GetPrefix2 : VRPJson -> result net.IPNet;
  GetASN2 : VRPJson -> result Z;
  IPNet_String : net.IPNet -> string;
  SlurmConfig : Type;
  FilterOnVRPs : SlurmConfig -> slice VRPJson -> slice VRPJson * slice VRPJson;
  AssertVRPs : SlurmConfig -> slice VRPJson;
  DecodeJSONSlurm : list Z -> result SlurmConfig;
  json_Decode : list Z -> VRPList * option error;
  sha256_Sum256 : list Z -> list Z;
  time_Parse_RFC3339 : string -> result Time
}.

(** ** processData *)

(** [%d] *)
Definition fmt_d (n : Z) : string := NilZero.string_of_int (Z.to_int n).

Definition isValidPrefixLength (prefix : net.IPNet) (maxLength : Z) : bool :=
  let '(plen, max) := net.Size (net.Mask prefix) in
  if Z.eqb plen 0 || Z.ltb maxLength (uint8 plen) || Z.ltb (uint8 max) maxLength
  then false
  else true.

(** The variables of [processData] that live across loop rounds. *)
Record loopState : Type := {
  filterDuplicates : gmap string bool;
  vrplist : list VRP;
  countv4 : Z;
  countv6 : Z
}.

Section ProcessData.
Context `{E : Externals}.

(** [key := fmt.Sprintf("%s,%d,%d", prefix, asn, v.Length)] *)
Definition key (prefix : net.IPNet) (asn len : Z) : string :=
  IPNet_String prefix ++ "," ++ fmt_d asn ++ "," ++ fmt_d len.

(** [if prefix.IP.To4() != nil { countv4++ } else { countv6++ }] *)
Definition count_family (prefix : net.IPNet) (st : loopState) : loopState :=
  if net.To4_not_nil (net.IP_ prefix)
  then {| filterDuplicates := filterDuplicates st; vrplist := vrplist st;
          countv4 := countv4 st + 1; countv6 := countv6 st |}
  else {| filterDuplicates := filterDuplicates st; vrplist := vrplist st;
          countv4 := countv4 st; countv6 := countv6 st + 1 |}.

(** One round of the loop of [processData]; each [continue] returns the
    state reached so far. *)
Definition processData_round (st : loopState) (v : VRPJson) : loopState :=
  match GetPrefix2 v with
  | Err _ => st
  | Ok prefix =>
      match GetASN2 v with
      | Err _ => st
      | Ok asn =>
          if negb (isValidPrefixLength prefix (Length v)) then st
          else
            let st := count_family prefix st in
            let key := key prefix asn (Length v) in
            match filterDuplicates st !! key with
            | Some _ => st
            | None =>
                {| filterDuplicates := <[key := true]> (filterDuplicates st);
                   vrplist := vrplist st ++ [ {| VRP_Prefix := prefix; VRP_ASN := asn;
                                                 MaxLen := Length v |} ];
                   countv4 := countv4 st; countv6 := countv6 st |}
            end
      end
  end.

Definition processData_init : loopState :=
  {| filterDuplicates := ∅; vrplist := []; countv4 := 0; countv6 := 0 |}.

(** [processData] returns the slice, the total, the IPv4 and the IPv6 count. *)
Definition processData (vrplistjson : list VRPJson) : list VRP * Z * Z * Z :=
  let st := fold_left processData_round vrplistjson processData_init in
  (vrplist st, countv4 st + countv6 st, countv4 st, countv6 st).

End ProcessData.

(** ** The refresh state and what the program does to its collaborators *)

(** Calls that leave this file: the RTR server ([s.server]), the Prometheus
    collectors and the timer of the refresh loop.  Log lines are left out. *)
Inductive Event : Type :=
| AddVRPs (vrps : list VRP)                                (* s.server.AddVRPs(vrps) *)
| NotifyClientsLatest                                      (* s.server.NotifyClientsLatest() *)
| GaugeSet (metric : string) (labels : list string) (value : Z)
                                                           (* <gauge>.WithLabelValues(labels...).Set(value) *)
| CounterInc (metric : string) (labels : list string)      (* <counter>.WithLabelValues(labels...).Inc() *)
| NewTimer (d : Z).                                        (* time.NewTimer(d) *)

(** [t.UnixNano()], an [int64]: the zero Time lies 62135596800 seconds before
    1970, and the count of nanoseconds wraps around for a time outside the
    years 1678 to 2262. *)
Definition UnixNano (t : Time) : Z := int64 (t - 62135596800 * Second).

(** [func (m *metricsEvent) UpdateMetrics(...)] *)
Definition UpdateMetrics (numIPv4 numIPv6 numIPv4filtered numIPv6filtered : Z)
    (changed refreshed : Time) (file : string) : list Event :=
  [ GaugeSet "rpki_vrps" ["ipv4"; "filtered"; file] numIPv4filtered;
    GaugeSet "rpki_vrps" ["ipv4"; "unfiltered"; file] numIPv4;
    GaugeSet "rpki_vrps" ["ipv6"; "filtered"; file] numIPv6filtered;
    GaugeSet "rpki_vrps" ["ipv6"; "unfiltered"; file] numIPv6;
    GaugeSet "rpki_change" [file] (Z.quot (UnixNano changed) 1000000000) ].

(** The loop over [vrps] at the end of [updateFromNewState]:
    [countv4_dup] and [countv6_dup]. *)
Definition count_dup (vrps : list VRP) : Z * Z :=
  fold_left
    (fun '(countv4_dup, countv6_dup) vrp =>
       if net.To4_not_nil (net.IP_ (VRP_Prefix vrp)) then (countv4_dup + 1, countv6_dup)
       else if net.To16_not_nil (net.IP_ (VRP_Prefix vrp)) then (countv4_dup, countv6_dup + 1)
       else (countv4_dup, countv6_dup))
    vrps (0, 0).

(** [bytes.Compare(a, b)] *)
Fixpoint bytes_Compare (a b : list Z) : Z :=
  match a, b with
  | [], [] => 0
  | [], _ :: _ => -1
  | _ :: _, [] => 1
  | x :: a', y :: b' =>
      if Z.ltb x y then -1 else if Z.ltb y x then 1 else bytes_Compare a' b'
  end.

(** What [s.fetchConfig.FetchFile(file)] returned:
    [data, code, lastrefresh, err]. *)
Record FetchResult : Type := {
  fetch_data : list Z;
  fetch_code : Z;
  fetch_lastrefresh : bool;
  fetch_err : option error
}.

Section Refresh.
Context `{E : Externals}.

(** [type state struct].  [lastdata] points to a list from [run] on;
    [metricsEvent] records whether that pointer is non-nil; the server, the
    fetcher and the lock are reached through [Event]s and arguments. *)
Record state : Type := {
  lastdata : VRPList;
  lasthash : option (list Z);
  lastchange : Time;
  lastts : Time;
  sendNotifs : bool;
  useSerial : Z;
  metricsEvent : bool;
  exported : VRPList;
  slurm : option SlurmConfig;
  checktime : bool
}.

Definition set_exported (s : state) (x : VRPList) : state :=
  {| lastdata := lastdata s; lasthash := lasthash s; lastchange := lastchange s;
     lastts := lastts s; sendNotifs := sendNotifs s; useSerial := useSerial s;
     metricsEvent := metricsEvent s; exported := x; slurm := slurm s;
     checktime := checktime s |}.

Definition set_lastts (s : state) (t : Time) : state :=
  {| lastdata := lastdata s; lasthash := lasthash s; lastchange := lastchange s;
     lastts := t; sendNotifs := sendNotifs s; useSerial := useSerial s;
     metricsEvent := metricsEvent s; exported := exported s; slurm := slurm s;
     checktime := checktime s |}.

Definition set_slurm (s : state) (sl : option SlurmConfig) : state :=
  {| lastdata := lastdata s; lasthash := lasthash s; lastchange := lastchange s;
     lastts := lastts s; sendNotifs := sendNotifs s; useSerial := useSerial s;
     metricsEvent := metricsEvent s; exported := exported s; slurm := sl;
     checktime := checktime s |}.

(** [s.lasthash = hsum; s.lastchange = t; s.lastdata = d] *)
Definition set_last (s : state) (hsum : list Z) (t : Time) (d : VRPList) : state :=
  {| lastdata := d; lasthash := Some hsum; lastchange := t;
     lastts := lastts s; sendNotifs := sendNotifs s; useSerial := useSerial s;
     metricsEvent := metricsEvent s; exported := exported s; slurm := slurm s;
     checktime := checktime s |}.

(** [func (s *state) updateFromNewState() error].  [now] is what
    [time.Now().UTC()] reads; [CacheBin] is the flag of that name.  The result
    is the state afterwards, the calls made, and the error returned. *)
Definition updateFromNewState (CacheBin : string) (now : Time) (s : state)
    : state * list Event * option error :=
  let vrpsjson := Data (lastdata s) in
  match vrpsjson with
  | None => (s, [], None)
  | Some _ =>
      let stale : option error :=
        if checktime s then
          match time_Parse_RFC3339 (Buildtime (Metadata (lastdata s))) with
          | Err err => Some err
          | Ok buildtime =>
              let notafter := Add buildtime (Hour * 24) in
              if After now notafter then Some (StaleFile buildtime) else None
          end
        else None in
      match stale with
      | Some err => (s, [], Some err)
      | None =>
          let vrpsjson :=
            match slurm s with
            | Some sl =>
                let '(kept, removed) := FilterOnVRPs sl vrpsjson in
                let asserted := AssertVRPs sl in
                append kept asserted
            | None => vrpsjson
            end in
          let '(vrps, count, countv4, countv6) := processData (elems vrpsjson) in
          let notify := if sendNotifs s then [NotifyClientsLatest] else [] in
          let s' :=
            set_exported s
              {| Metadata := {| Counts := len vrpsjson;
                                Buildtime := Buildtime (Metadata (lastdata s)) |};
                 Data := vrpsjson |} in
          let metrics :=
            if metricsEvent s then
              let '(countv4_dup, countv6_dup) := count_dup vrps in
              UpdateMetrics countv4 countv6 countv4_dup countv6_dup
                (lastchange s) (lastts s) CacheBin
            else [] in
          (s', [AddVRPs vrps] ++ notify ++ metrics, None)
      end
  end.

(** [newSHA256] and [decodeJSON] *)
Definition newSHA256 (data : list Z) : list Z := sha256_Sum256 data.
Definition decodeJSON (data : list Z) : VRPList * option error := json_Decode data.

(** The two metric updates that follow a fetch in [updateFile] and
    [updateSlurm]. *)
Definition fetch_metrics (file : string) (fetched : FetchResult) (s : state) : list Event :=
  (if fetch_lastrefresh fetched
   then [GaugeSet "rpki_refresh" [file] (Z.quot (UnixNano (lastts s)) 1000000000)]
   else [])
  ++ (if negb (Z.eqb (fetch_code fetched) (-1))
      then [CounterInc "refresh_requests_total" [file; fmt_d (fetch_code fetched)]]
      else []).

(** [func (s *state) updateFile(file string) (bool, error)].  [now1] and
    [now2] are the two readings of [time.Now().UTC()], [fetched] is what
    [FetchFile] returned. *)
Definition updateFile (file : string) (now1 now2 : Time) (fetched : FetchResult)
    (s : state) : state * list Event * (bool * option error) :=
  let s := set_lastts s now1 in
  match fetch_err fetched with
  | Some err => (s, [], (false, Some err))
  | None =>
      let evs := fetch_metrics file fetched s in
      let hsum := newSHA256 (fetch_data fetched) in
      let identical :=
        match lasthash s with
        | Some h => Z.eqb (bytes_Compare h hsum) 0
        | None => false
        end in
      if identical then (s, evs, (false, Some (IdenticalFile file)))
      else
        let '(vrplistjson, err) := decodeJSON (fetch_data fetched) in
        match err with
        | Some err => (s, evs, (false, Some err))
        | None => (set_last s hsum now2 vrplistjson, evs, (true, None))
        end
  end.

(** [func (s *state) updateSlurm(file string) (bool, error)] *)
Definition updateSlurm (file : string) (fetched : FetchResult) (s : state)
    : state * list Event * (bool * option error) :=
  match fetch_err fetched with
  | Some err => (s, [], (false, Some err))
  | None =>
      let evs := fetch_metrics file fetched s in
      match DecodeJSONSlurm (fetch_data fetched) with
      | Err err => (s, evs, (false, Some err))
      | Ok slurm => (set_slurm s (Some slurm), evs, (true, None))
      end
  end.

(** What one round of the refresh loop takes from outside: the two fetches
    and the clock readings. *)
Record Tick : Type := {
  tick_slurm : FetchResult;
  tick_cache : FetchResult;
  tick_ts : Time;
  tick_change : Time;
  tick_now : Time
}.

(** The timer a round of [routineUpdate] starts with:
    [time.Duration(30) * time.Second] or
    [time.Duration(interval) * time.Second], a product of [int64]s. *)
Definition delay (interval : Z) (s : state) : Z :=
  if IsZero (lastchange s) then int64 (30 * Second) else int64 (interval * Second).

(** What a round of the loop did: the timer it set, whether [updateFile]
    reported an update, and the calls made. *)
Record Round : Type := {
  round_delay : Z;
  cacheUpdated : bool;
  round_events : list Event
}.

(** One round of the [for] loop of [routineUpdate], after the wait on the
    timer or the signal. *)
Definition routineUpdate_round (CacheBin file : string) (interval : Z) (slurmFile : string)
    (t : Tick) (s : state) : state * Round :=
  let d := delay interval s in
  let '(s, ev1, slurmNotPresentOrUpdated) :=
    if negb (String.eqb slurmFile "") then
      let '(s', ev, (updated, _)) := updateSlurm slurmFile (tick_slurm t) s in
      (s', ev, updated)
    else (s, [], false) in
  let '(s, ev2, (cacheUpdated, _)) :=
    updateFile file (tick_ts t) (tick_change t) (tick_cache t) s in
  let '(s, ev3) :=
    if cacheUpdated || slurmNotPresentOrUpdated then
      let '(s', ev, _) := updateFromNewState CacheBin (tick_now t) s in (s', ev)
    else (s, []) in
  (s, {| round_delay := d; cacheUpdated := cacheUpdated;
         round_events := [NewTimer d] ++ ev1 ++ ev2 ++ ev3 |}).

(** [func (s *state) routineUpdate(file string, interval int, slurmFile string)]:
    the loop never ends; [ticks] gives as many rounds as it has entries. *)
Fixpoint routineUpdate (CacheBin file : string) (interval : Z) (slurmFile : string)
    (ticks : list Tick) (s : state) : state * list Round :=
  match ticks with
  | [] => (s, [])
  | t :: ticks' =>
      let '(s', r) := routineUpdate_round CacheBin file interval slurmFile t s in
      let '(s'', rs) := routineUpdate CacheBin file interval slurmFile ticks' s' in
      (s'', r :: rs)
  end.

(** The state [run] builds, with [lastdata: &prefixfile.VRPList{}]. *)
Definition initial_state (me SendNotifs TimeCheck : bool) : state :=
  {| lastdata := {| Metadata := {| Counts := 0; Buildtime := "" |}; Data := None |};
     lasthash := None; lastchange := 0; lastts := 0;
     sendNotifs := SendNotifs; useSerial := 0; metricsEvent := me;
     exported := {| Metadata := {| Counts := 0; Buildtime := "" |}; Data := None |};
     slurm := None; checktime := TimeCheck |}.

(** The first synchronisation in [run]: [updateFile], [updateSlurm] when a
    SLURM file is configured, then [updateFromNewState].  The result carries
    what [updateFile] returned and the calls made. *)
Definition run_startup (CacheBin Slurm : string) (t : Tick) (s : state)
    : state * bool * list Event :=
  let '(s, ev1, (cacheUpdated, _)) :=
    updateFile CacheBin (tick_ts t) (tick_change t) (tick_cache t) s in
  let '(s, ev2) :=
    if negb (String.eqb Slurm "") then
      let '(s', ev, _) := updateSlurm Slurm (tick_slurm t) s in (s', ev)
    else (s, []) in
  let '(s, ev3, _) := updateFromNewState CacheBin (tick_now t) s in
  (s, cacheUpdated, ev1 ++ ev2 ++ ev3).

(** The refresh work of [run]: the state it builds, the first
    synchronisation, and the rounds of [routineUpdate] that [ticks] covers.
    [slurmFile] is cleared for the loop when [SlurmRefresh] is off. *)
Definition run_refresh (CacheBin Slurm : string) (SlurmRefresh : bool) (RefreshInterval : Z)
    (me SendNotifs TimeCheck : bool) (t0 : Tick) (ticks : list Tick)
    : state * bool * list Event * list Round :=
  let '(s, cacheUpdated, evs) :=
    run_startup CacheBin Slurm t0 (initial_state me SendNotifs TimeCheck) in
  let slurmFile := if negb SlurmRefresh then "" else Slurm in
  let '(s, rounds) := routineUpdate CacheBin CacheBin RefreshInterval slurmFile ticks s in
  (s, cacheUpdated, evs, rounds).

(** [func (s *state) exporter(wr, r)]: the value handed to the JSON encoder. *)
Definition exporter (s : state) : VRPList := exported s.

End Refresh.

(** ** The SSH public-key callback *)

(** [ssh.PublicKey], by what the callback asks of it. *)
Record PublicKey : Type := { Type_ : string; Marshal : list Z }.

(** [ssh.Permissions] *)
Record Permissions : Type := {
  CriticalOptions : gmap string string;
  Extensions : gmap string string
}.

Definition encodeStd : list ascii :=
  list_ascii_of_string "ABCDEFGHIJKLMNOPQRSTUVWXYZabcdefghijklmnopqrstuvwxyz0123456789+/".

Definition b64 (n : Z) : ascii := nth (Z.to_nat (Z.land n 63)) encodeStd "A"%char.

(** [base64.RawStdEncoding.EncodeToString]: three bytes give four characters,
    a rest of one or two bytes gives two or three, without padding. *)
Fixpoint EncodeToString (src : list Z) : string :=
  match src with
  | [] => ""
  | [a] =>
      let val := Z.shiftl a 16 in
      String (b64 (Z.shiftr val 18)) (String (b64 (Z.shiftr val 12)) "")
  | [a; b] =>
      let val := Z.lor (Z.shiftl a 16) (Z.shiftl b 8) in
      String (b64 (Z.shiftr val 18)) (String (b64 (Z.shiftr val 12))
        (String (b64 (Z.shiftr val 6)) ""))
  | a :: b :: c :: rest =>
      let val := Z.lor (Z.lor (Z.shiftl a 16) (Z.shiftl b 8)) c in
      String (b64 (Z.shiftr val 18)) (String (b64 (Z.shiftr val 12))
        (String (b64 (Z.shiftr val 6)) (String (b64 val) (EncodeToString rest))))
  end.

(** [strings.HasPrefix(s, prefix)] *)
Definition HasPrefix (s prefix : string) : bool := String.prefix prefix s.

Definition newline : string := String (ascii_of_nat 10) "".

(** [strings.Split(s, sep)] for a separator of one character. *)
Fixpoint Split (s : string) (sep : ascii) : list string :=
  match s with
  | EmptyString => [""]
  | String c rest =>
      if Ascii.eqb c sep then "" :: Split rest sep
      else
        match Split rest sep with
        | [] => [String c ""]
        | k :: ks => String c k :: ks
        end
  end.

(** The loop over [sshClientKeys]: the value of [noKeys] when it ends. *)
Fixpoint noKeys_after (want : string) (sshClientKeys : list string) : bool :=
  match sshClientKeys with
  | [] => false
  | k :: rest =>
      if String.eqb k "" then noKeys_after want rest
      else if HasPrefix k want then true
      else noKeys_after want rest
  end.

Definition granted : Permissions := {| CriticalOptions := ∅; Extensions := ∅ |}.

(** [sshConfig.PublicKeyCallback], closed over the flag
    [SSHAuthKeysBypass] and the lines [sshClientKeys]. *)
Definition PublicKeyCallback (SSHAuthKeysBypass : bool) (sshClientKeys : list string)
    (key : PublicKey) : result Permissions :=
  let keyBase64 := EncodeToString (Marshal key) in
  if negb SSHAuthKeysBypass then
    let noKeys := noKeys_after (Type_ key ++ " " ++ keyBase64)%string sshClientKeys in
    if negb noKeys then Err (errors_New "Key not found")
    else Ok granted
  else Ok granted.

(** ** The command-line prelude of run *)

Definition quote : string := String (ascii_of_nat 34) "".

(** [strings.Join(elems, sep)] *)
Definition Join (l : list string) (sep : string) : string := String.concat sep l.

(** [AppVersion = "StayRTR " + version + " " + buildinfos]; both variables are
    empty in the source and may be set when the program is linked. *)
Definition AppVersion (version buildinfos : string) : string :=
  "StayRTR " ++ version ++ " " ++ buildinfos.

(** The first lines of [run], after [flag.Parse()] returned: what is written
    to standard output and, when the process ends there, the status given to
    [os.Exit].  [None] means [run] goes on to set up the server.
    [flag_Args] is [flag.Args()], [Version] the flag of that name. *)
Definition run_flags (os_Args0 AppVersion : string) (flag_Args : list string)
    (Version : bool) : list string * option Z :=
  if Z.ltb 0 (Z.of_nat (length flag_Args)) then
    ([(os_Args0 ++ ": illegal positional argument(s) provided (" ++ quote
        ++ Join flag_Args " " ++ quote ++ ") - did you mean to provide a flag?"
        ++ newline)%string],
     Some 2)
  else if Version then ([(AppVersion ++ newline)%string], Some 0)
  else ([], None).

(** ** Further start-up code of run: password authentication and the server
    configuration *)

(** [[]byte(s)] *)
Definition bytes_of_string (s : string) : list Z :=
  map (fun c => Z.of_nat (nat_of_ascii c)) (list_ascii_of_string s).

(** [bytes.Equal(a, b)] *)
Definition bytes_Equal (a b : list Z) : bool := bool_decide (a = b).

(** The password the callback compares with: the flag [ssh.auth.password],
    and the environment variable [STAYRTR_SSH_PASSWORD] when the flag is
    blank ([getenv] is what [os.Getenv] returns, empty when unset). *)
Definition ssh_password (SSHAuthPassword getenv : string) : string :=
  let password := SSHAuthPassword in
  if String.eqb password "" then getenv else password.

(** [sshConfig.PasswordCallback], closed over the flag [SSHAuthUser] and
    [password]; [user] is [conn.User()]. *)
Definition PasswordCallback (SSHAuthUser password : string) (user : string)
    (suppliedPassword : list Z) : result Permissions :=
  if negb (String.eqb user SSHAuthUser)
     || negb (bytes_Equal suppliedPassword (bytes_of_string password))
  then Err (errors_New "Wrong user or password")
  else Ok granted.

Definition uint32 (n : Z) : Z := n mod 4294967296.

(** [protoverToLib]; the two values are the constants
    [rtr.PROTOCOL_VERSION_0] and [rtr.PROTOCOL_VERSION_1] of the library. *)
Definition protoverToLib (PROTOCOL_VERSION_0 PROTOCOL_VERSION_1 : Z) : gmap Z Z :=
  <[0 := PROTOCOL_VERSION_0]> (<[1 := PROTOCOL_VERSION_1]> ∅).

(** Indexing a Go map of [uint8]: a missing key gives zero. *)
Definition map_index (m : gmap Z Z) (k : Z) : Z := default 0 (m !! k).

(** [rtr.ServerConfiguration], without its logger. *)
Record ServerConfiguration : Type := {
  ProtocolVersion : Z;                 (* uint8 *)
  SessId : Z;
  KeepDifference : Z;
  LogVerbose : bool;
  RefreshInterval : Z;                 (* uint32 *)
  RetryInterval : Z;                   (* uint32 *)
  ExpireInterval : Z                   (* uint32 *)
}.

(** [sc := rtr.ServerConfiguration{...}] in [run], from the flags. *)
Definition sc (PROTOCOL_VERSION_0 PROTOCOL_VERSION_1 : Z)
    (RTRVersion SessionID : Z) (LogVerbose : bool) (RefreshRTR RetryRTR ExpireRTR : Z)
    : ServerConfiguration :=
  {| ProtocolVersion := map_index (protoverToLib PROTOCOL_VERSION_0 PROTOCOL_VERSION_1) RTRVersion;
     SessId := SessionID;
     KeepDifference := 3;
     LogVerbose := LogVerbose;
     RefreshInterval := uint32 RefreshRTR;
     RetryInterval := uint32 RetryRTR;
     ExpireInterval := uint32 ExpireRTR |}.

(** ** Specification vocabulary *)

Section Vocabulary.
Context `{E : Externals}.

(** The VRP an entry stands for when it passes the three checks of
    [processData], and [None] when one of them rejects it. *)
Definition ingest (v : VRPJson) : option VRP :=
  match GetPrefix2 v, GetASN2 v with
  | Ok prefix, Ok asn =>
      if isValidPrefixLength prefix (Length v)
      then Some {| VRP_Prefix := prefix; VRP_ASN := asn; MaxLen := Length v |}
      else None
  | _, _ => None
  end.

Definition vrp_key (vrp : VRP) : string :=
  key (VRP_Prefix vrp) (VRP_ASN vrp) (MaxLen vrp).

Definition is_v4 (vrp : VRP) : bool := net.To4_not_nil (net.IP_ (VRP_Prefix vrp)).

(** The time check of [updateFromNewState] rejects the document: its
    buildtime does not parse, or lies more than 24 hours before [now]. *)
Definition stale_or_unparsable (now : Time) (s : state) : Prop :=
  match time_Parse_RFC3339 (Buildtime (Metadata (lastdata s))) with
  | Err _ => True
  | Ok buildtime => buildtime + 24 * Hour < now
  end.

(** The list [updateFromNewState] works on once SLURM has been applied. *)
Definition post_slurm (s : state) : slice VRPJson :=
  match slurm s with
  | Some sl => append (FilterOnVRPs sl (Data (lastdata s))).1 (AssertVRPs sl)
  | None => Data (lastdata s)
  end.

(** The gauges [updateFromNewState] sets at the end of an install. *)
Definition install_metrics (CacheBin : string) (s : state) : list Event :=
  if metricsEvent s then
    let r := processData (elems (post_slurm s)) in
    UpdateMetrics r.1.2 r.2 (count_dup r.1.1.1).1 (count_dup r.1.1.1).2
      (lastchange s) (lastts s) CacheBin
  else [].

(** A decoded list is never there without the time of its change. *)
Definition change_recorded (s : state) : Prop :=
  Data (lastdata s) <> None -> lastchange s <> 0.

End Vocabulary.

(** The call installs a VRP set in the server. *)
Definition installs (e : Event) : bool :=
  match e with
  | AddVRPs _ => true
  | _ => false
  end.

(** The call reaches the RTR server: an install or a notification. *)
Definition calls_server (e : Event) : bool :=
  match e with
  | AddVRPs _ | NotifyClientsLatest => true
  | _ => false
  end.

(** The prefix length of a prefix: the leading ones of its mask. *)
Definition network_length (p : net.IPNet) : Z := (net.Size (net.Mask p)).1.

(** The width of the mask of a prefix: 32 for a mask of four bytes, 128 for
    any other (an IPv6 mask has sixteen). *)
Definition mask_width (p : net.IPNet) : Z :=
  if Nat.eqb (length (net.Mask p)) net.IPv4len then 32 else 128.

(** The width of the address family of a prefix, the family being the one
    [processData] counts the prefix in: IPv4 when [prefix.IP.To4()] is not
    nil, IPv6 otherwise. *)
Definition family_width (p : net.IPNet) : Z :=
  if net.To4_not_nil (net.IP_ p) then 32 else 128.

(** A prefix as a CIDR parser makes it: a mask of four or of sixteen bytes. *)
Definition well_formed (p : net.IPNet) : Prop :=
  length (net.Mask p) = net.IPv4len \/ length (net.Mask p) = net.IPv6len.

(** The bound of the data model on a prefix and a maximum length:
    0 < network_length <= max_length <= width of the family. *)
Definition within_bounds (p : net.IPNet) (max_length : Z) : Prop :=
  0 < network_length p /\ network_length p <= max_length /\ max_length <= family_width p.

(** The same bound with the width of the mask in place of that of the
    family. *)
Definition within_mask (p : net.IPNet) (max_length : Z) : Prop :=
  0 < network_length p /\ network_length p <= max_length /\ max_length <= mask_width p.

(** The address and the mask of the prefix are of one family: the address is
    counted as IPv4 exactly when the mask has four bytes. *)
Definition one_family (p : net.IPNet) : Prop := family_width p = mask_width p.

(** An entry that is not ingested: its prefix or its ASN does not parse, or
    its prefix and maximum length break the bound taken on the mask. *)
Definition rejected `{E : Externals} (v : VRPJson) : Prop :=
  match GetPrefix2 v with
  | Err _ => True
  | Ok p => (exists e, GetASN2 v = Err e) \/ ~ within_mask p (Length v)
  end.

(** The first entry of every key, in the order of the list: [seen] holds the
    keys met so far. *)
Fixpoint first_by_key `{E : Externals} (seen : list string) (l : list VRP) : list VRP :=
  match l with
  | [] => []
  | vrp :: rest =>
      if bool_decide (vrp_key vrp ∈ seen) then first_by_key seen rest
      else vrp :: first_by_key (vrp_key vrp :: seen) rest
  end.

(** The mask of [len] bytes that starts with [ones] one bits and has zero
    bits after them. *)
Fixpoint contiguous_mask (len : nat) (ones : Z) : net.IPMask :=
  match len with
  | O => []
  | S len' =>
      if Z.leb 8 ones then 255 :: contiguous_mask len' (ones - 8)
      else (256 - 2 ^ (8 - ones)) :: contiguous_mask len' 0
  end.

(** Every element is a byte. *)
Definition all_bytes (l : list Z) : Prop := Forall (fun b => 0 <= b < 256) l.

(** [sub] occurs in [s]. *)
Definition contains (s sub : string) : Prop :=
  exists pre post : string, s = (pre ++ sub ++ post)%string.

(** The character [c] occurs in [s]; a string of one line has no line feed. *)
Fixpoint has_char (c : ascii) (s : string) : bool :=
  match s with
  | EmptyString => false
  | String a rest => Ascii.eqb a c || has_char c rest
  end.

Definition single_line (s : string) : Prop := has_char (ascii_of_nat 10) s = false.

(** ** A stand-in for the imported packages

    Small executable functions in place of [Externals], used to run the
    definitions above on concrete inputs.  Prefixes are IPv4 only; a time is
    written as its number of seconds; a document is a list of bytes
    [flag :: minutes :: roas], where [flag = 0] leaves the list of entries
    nil and each byte [n] of [roas] stands for [10.0.n.0/24, AS1, 24]. *)
Module Sample.

Fixpoint parseDec_from (s : string) (acc : Z) : option Z :=
  match s with
  | EmptyString => Some acc
  | String c rest =>
      let d := Z.of_nat (nat_of_ascii c) - 48 in
      if Z.leb 0 d && Z.leb d 9 then parseDec_from rest (10 * acc + d) else None
  end.

Definition parseDec (s : string) : option Z :=
  match s with
  | EmptyString => None
  | _ => parseDec_from s 0
  end.

Definition CIDRMask4 (ones : Z) : list Z :=
  map (fun i => 256 - 2 ^ (8 - Z.max 0 (Z.min 8 (ones - 8 * i)))) [0; 1; 2; 3].

Definition bad_prefix : error := LibError "Could not decode prefix".

Definition ParseCIDR4 (s : string) : result net.IPNet :=
  match Split s "/"%char with
  | [addr; bits] =>
      match map parseDec (Split addr "."%char), parseDec bits with
      | [Some a; Some b; Some c; Some d], Some n =>
          if forallb (fun x => Z.leb x 255) [a; b; c; d] && Z.leb n 32 then
            match CIDRMask4 n with
            | [m0; m1; m2; m3] =>
                Ok {| net.IP_ := [Z.land a m0; Z.land b m1; Z.land c m2; Z.land d m3];
                      net.Mask := [m0; m1; m2; m3] |}
            | _ => Err bad_prefix
            end
          else Err bad_prefix
      | _, _ => Err bad_prefix
      end
  | _ => Err bad_prefix
  end.

Fixpoint TrimLeft_AS (s : string) : string :=
  match s with
  | String c rest =>
      if existsb (Ascii.eqb c) ["a"; "A"; "s"; "S"]%char then TrimLeft_AS rest else s
  | EmptyString => s
  end.

Definition ParseASN (a : asn_json) : result Z :=
  let n := match a with
           | asn_string s => parseDec (TrimLeft_AS s)
           | asn_number n => Some n
           end in
  match n with
  | Some n => if Z.leb 0 n && Z.ltb n 4294967296 then Ok n
              else Err (LibError "Could not decode ASN")
  | None => Err (LibError "Could not decode ASN")
  end.

Definition String_ (p : net.IPNet) : string :=
  (Join (map fmt_d (net.IP_ p)) "." ++ "/" ++ fmt_d (net.Size (net.Mask p)).1)%string.

(** A SLURM policy: prefixes to drop and entries to add. *)
Record Slurm : Type := { drop : list string; add : list VRPJson }.

Definition Filter (sl : Slurm) (vrps : slice VRPJson) : slice VRPJson * slice VRPJson :=
  let dropped (v : VRPJson) := existsb (String.eqb (Prefix v)) (drop sl) in
  (Some (List.filter (fun v => negb (dropped v)) (elems vrps)),
   Some (List.filter dropped (elems vrps))).

Definition entry (n : Z) : VRPJson :=
  {| Prefix := ("10.0." ++ fmt_d n ++ ".0/24")%string; ASN := asn_string "AS1"; Length := 24 |}.

Definition Decode (data : list Z) : VRPList * option error :=
  match data with
  | flag :: minutes :: roas =>
      ({| Metadata := {| Counts := Z.of_nat (length roas);
                         Buildtime := fmt_d (60 * minutes) |};
          Data := if Z.eqb flag 0 then None else Some (map entry roas) |}, None)
  | _ => ({| Metadata := {| Counts := 0; Buildtime := "" |}; Data := None |},
          Some (LibError "unexpected end of JSON input"))
  end.

Definition ParseTime (s : string) : result Time :=
  match parseDec s with
  | Some secs => Ok (secs * Second)
  | None => Err (LibError "cannot parse time")
  end.

Definition externals : Externals := {|
  GetPrefix2 v := ParseCIDR4 (Prefix v);
  GetASN2 v := ParseASN (ASN v);
  IPNet_String := String_;
  SlurmConfig := Slurm;
  FilterOnVRPs := Filter;
  AssertVRPs sl := Some (add sl);
  DecodeJSONSlurm _ := Ok {| drop := []; add := [] |};
  json_Decode := Decode;
  sha256_Sum256 data := data;
  time_Parse_RFC3339 := ParseTime
|}.

(** What [net.ParseCIDR] makes of the IPv4-mapped text
    "::ffff:10.0.0.0/104": an address of sixteen bytes under a mask of
    sixteen bytes. *)
Definition mapped_10 : net.IPNet :=
  {| net.IP_ := [0; 0; 0; 0; 0; 0; 0; 0; 0; 0; 255; 255; 10; 0; 0; 0];
     net.Mask := [255; 255; 255; 255; 255; 255; 255; 255; 255; 255; 255; 255; 255; 0; 0; 0] |}.

Definition ParseCIDR (s : string) : result net.IPNet :=
  if String.eqb s "::ffff:10.0.0.0/104" then Ok mapped_10 else ParseCIDR4 s.

(** [IPNet.String] for a prefix whose address [To4] reads as IPv4: the four
    bytes of the address, and the length of the mask without its first
    twelve bytes when it has sixteen. *)
Definition String_mapped (p : net.IPNet) : string :=
  match net.To4 (net.IP_ p) with
  | Some ip =>
      let m := if Nat.eqb (length (net.Mask p)) net.IPv6len
               then skipn 12 (net.Mask p) else net.Mask p in
      (Join (map fmt_d ip) "." ++ "/" ++ fmt_d (net.simpleMaskLength m))%string
  | None => String_ p
  end.

(** A SLURM document as a list of bytes: each byte [n] drops the prefix of
    [entry n]; the empty document does not decode. *)
Definition DecodeSlurm (data : list Z) : result Slurm :=
  match data with
  | [] => Err (LibError "unexpected end of JSON input")
  | _ => Ok {| drop := map (fun n => Prefix (entry n)) data; add := [] |}
  end.

(** A second stand-in, which also reads the IPv4-mapped text and SLURM
    documents. *)
Definition externals_wide : Externals := {|
  GetPrefix2 v := ParseCIDR (Prefix v);
  GetASN2 v := ParseASN (ASN v);
  IPNet_String := String_mapped;
  SlurmConfig := Slurm;
  FilterOnVRPs := Filter;
  AssertVRPs sl := Some (add sl);
  DecodeJSONSlurm := DecodeSlurm;
  json_Decode := Decode;
  sha256_Sum256 data := data;
  time_Parse_RFC3339 := ParseTime
|}.

(** A fetch that succeeded with [data], and a round whose cache fetch is
    [data] and whose clock reads [now] throughout. *)
Definition fetched (data : list Z) : FetchResult :=
  {| fetch_data := data; fetch_code := 200; fetch_lastrefresh := true; fetch_err := None |}.

Definition tick (data : list Z) (now : Time) : Tick :=
  {| tick_slurm := fetched []; tick_cache := fetched data;
     tick_ts := now; tick_change := now; tick_now := now |}.

End Sample.

(** * Properties *)

(** Membership in a list that is written out. *)
Ltac elem_of_list := rewrite ?elem_of_cons, ?elem_of_nil; tauto.

(** ** Masks and prefix lengths *)

Example Size_of_masks :
  net.Size [255; 255; 255; 0] = (24, 32)
  /\ net.Size [255; 255; 254; 0] = (23, 32)
  /\ net.Size [255; 255; 253; 0] = (0, 0)
  /\ net.Size [0; 0; 0; 0] = (0, 32)
  /\ net.Size [255; 255; 255; 255; 128; 0; 0; 0; 0; 0; 0; 0; 0; 0; 0; 0] = (33, 128).
Proof. by vm_compute. Qed.

Example To4_of_addresses :
  net.To4 [10; 0; 0; 0] = Some [10; 0; 0; 0]
  /\ net.To4 [0; 0; 0; 0; 0; 0; 0; 0; 0; 0; 255; 255; 10; 0; 0; 0] = Some [10; 0; 0; 0]
  /\ net.To4 [32; 1; 13; 184; 0; 0; 0; 0; 0; 0; 0; 0; 0; 0; 0; 0] = None.
Proof. by vm_compute. Qed.

Example isValidPrefixLength_of_10_0_0_0_24 :
  let p := {| net.IP_ := [10; 0; 0; 0]; net.Mask := [255; 255; 255; 0] |} in
  isValidPrefixLength p 24 = true /\ isValidPrefixLength p 32 = true
  /\ isValidPrefixLength p 23 = false /\ isValidPrefixLength p 33 = false
  /\ isValidPrefixLength {| net.IP_ := [0; 0; 0; 0]; net.Mask := [0; 0; 0; 0] |} 0 = false.
Proof. by vm_compute. Qed.

Lemma leadingOnes_bound (fuel : nat) (v n : Z) :
  n <= (net.leadingOnes fuel v n).2 <= n + Z.of_nat fuel.
Proof.
  revert v n. induction fuel as [|fuel IH]; intros v n; cbn [net.leadingOnes].
  - simpl. lia.
  - destruct (Z.land v 128 =? 0).
    + simpl. lia.
    + specialize (IH (uint8 (Z.shiftl v 1)) (n + 1)). lia.
Qed.

Lemma simpleMaskLength_from_bound (mask : net.IPMask) (n : Z) :
  net.simpleMaskLength_from mask n = -1
  \/ n <= net.simpleMaskLength_from mask n <= n + 8 * Z.of_nat (length mask).
Proof.
  revert n. induction mask as [|v rest IH]; intros n; cbn [net.simpleMaskLength_from length].
  - right. lia.
  - destruct (v =? 255).
    + destruct (IH (n + 8)) as [->|Hb]; [by left | right; lia].
    + pose proof (leadingOnes_bound 8 v n) as Hl.
      destruct (net.leadingOnes 8 v n) as [v' n']. cbn [snd] in Hl.
      destruct (negb (v' =? 0)); [by left |].
      destruct (forallb (Z.eqb 0) rest); [right; lia | by left].
Qed.

(** [Size] gives either [(0, 0)] or a count of ones within the mask's bits. *)
Lemma Size_bound (m : net.IPMask) :
  net.Size m = (0, 0)
  \/ (0 <= (net.Size m).1 <= (net.Size m).2
      /\ (net.Size m).2 = Z.of_nat (length m) * 8).
Proof.
  unfold net.Size, net.simpleMaskLength.
  destruct (simpleMaskLength_from_bound m 0) as [->|Hb]; [by left |].
  destruct (net.simpleMaskLength_from m 0 =? -1); [by left |].
  right. cbn [fst snd]. lia.
Qed.

(** [isValidPrefixLength] decides the bound taken on the mask, for a prefix
    whose mask has four or sixteen bytes: a non-zero prefix length, at most
    the maximum length, which is at most the width of the mask. *)
Lemma isValidPrefixLength_bound (p : net.IPNet) (maxLength : Z) :
  well_formed p ->
  isValidPrefixLength p maxLength = true <-> within_mask p maxLength.
Proof.
  intros Hfam. unfold well_formed in Hfam.
  unfold isValidPrefixLength, within_mask, network_length, mask_width.
  destruct (Size_bound (net.Mask p)) as [Hz|[Hb Hbits]].
  - rewrite Hz. cbn. split; [done | lia].
  - destruct (net.Size (net.Mask p)) as [plen max]. cbn [fst snd] in *.
    assert (Hu : uint8 plen = plen /\ uint8 max = max
                 /\ max = if Nat.eqb (length (net.Mask p)) net.IPv4len then 32 else 128).
    { unfold uint8, net.IPv4len, net.IPv6len in *.
      destruct Hfam as [Hf|Hf]; rewrite Hf in *; cbn [Nat.eqb];
        rewrite !Z.mod_small by lia; lia. }
    destruct Hu as (-> & -> & <-).
    destruct (Z.eqb_spec plen 0), (Z.ltb_spec maxLength plen), (Z.ltb_spec max maxLength);
      cbn; split; (done || lia).
Qed.

(** ** The loop of processData *)

Section ProcessDataFacts.
Context `{E : Externals}.

(** A round either skips a rejected entry or counts the accepted one and
    appends it unless its key was seen. *)
Lemma processData_round_ingest (st : loopState) (v : VRPJson) :
  processData_round st v =
  match ingest v with
  | None => st
  | Some vrp =>
      let st' := count_family (VRP_Prefix vrp) st in
      match filterDuplicates st !! vrp_key vrp with
      | Some _ => st'
      | None =>
          {| filterDuplicates := <[vrp_key vrp := true]> (filterDuplicates st);
             vrplist := vrplist st ++ [vrp];
             countv4 := countv4 st'; countv6 := countv6 st' |}
      end
  end.
Proof.
  unfold processData_round, ingest.
  destruct (GetPrefix2 v) as [prefix|]; [|done].
  destruct (GetASN2 v) as [asn|]; [|done].
  destruct (isValidPrefixLength prefix (Length v)); [|done].
  cbn [negb VRP_Prefix]. unfold vrp_key. cbn [VRP_Prefix VRP_ASN MaxLen].
  unfold count_family.
  destruct (net.To4_not_nil (net.IP_ prefix)); cbn [filterDuplicates vrplist countv4 countv6];
    by destruct (filterDuplicates st !! key prefix asn (Length v)).
Qed.

(** The loop invariant: [st] is the state after the entries [l]. *)
Record processed (l : list VRPJson) (st : loopState) : Prop := {
  seen_keys : forall k, is_Some (filterDuplicates st !! k) <-> k ∈ vrp_key <$> vrplist st;
  keys_nodup : NoDup (vrp_key <$> vrplist st);
  kept_valid : forall vrp, vrp ∈ vrplist st -> vrp ∈ omap ingest l;
  valid_kept : forall vrp, vrp ∈ omap ingest l -> vrp_key vrp ∈ vrp_key <$> vrplist st;
  count4 : countv4 st = Z.of_nat (length (List.filter is_v4 (omap ingest l)));
  count6 : countv6 st
           = Z.of_nat (length (List.filter (fun vrp => negb (is_v4 vrp)) (omap ingest l)))
}.

Lemma processed_init : processed [] processData_init.
Proof.
  split; cbn; try done.
  - intros k. rewrite lookup_empty. split; [by intros [? ?] | by intros ?%elem_of_nil].
  - constructor.
  - by intros vrp ?%elem_of_nil.
Qed.

Lemma count_family_v4 (vrp : VRP) (st : loopState) :
  countv4 (count_family (VRP_Prefix vrp) st)
  = countv4 st + Z.of_nat (length (List.filter is_v4 [vrp])).
Proof.
  unfold count_family, is_v4. cbn [List.filter].
  destruct (net.To4_not_nil (net.IP_ (VRP_Prefix vrp))); cbn; lia.
Qed.

Lemma count_family_v6 (vrp : VRP) (st : loopState) :
  countv6 (count_family (VRP_Prefix vrp) st)
  = countv6 st + Z.of_nat (length (List.filter (fun vrp => negb (is_v4 vrp)) [vrp])).
Proof.
  unfold count_family, is_v4. cbn [List.filter].
  destruct (net.To4_not_nil (net.IP_ (VRP_Prefix vrp))); cbn; lia.
Qed.

Lemma count_family_frame (p : net.IPNet) (st : loopState) :
  filterDuplicates (count_family p st) = filterDuplicates st
  /\ vrplist (count_family p st) = vrplist st.
Proof. unfold count_family. by destruct (net.To4_not_nil (net.IP_ p)). Qed.

Lemma processed_round (l : list VRPJson) (st : loopState) (v : VRPJson) :
  processed l st -> processed (l ++ [v]) (processData_round st v).
Proof.
  intros [Hseen Hnodup Hkept Hvalid H4 H6].
  rewrite processData_round_ingest.
  assert (Hl : omap ingest (l ++ [v]) = omap ingest l ++ from_option (fun x => [x]) [] (ingest v)).
  { rewrite omap_app. cbn. by destruct (ingest v). }
  destruct (ingest v) as [vrp|] eqn:Hv; cbn [from_option] in Hl.
  2:{ rewrite app_nil_r in Hl. split; rewrite ?Hl; done. }
  cbn zeta.
  destruct (count_family_frame (VRP_Prefix vrp) st) as [Hfd Hvl].
  pose proof (count_family_v4 vrp st) as Hc4.
  pose proof (count_family_v6 vrp st) as Hc6.
  assert (Hcount4 : countv4 (count_family (VRP_Prefix vrp) st)
                    = Z.of_nat (length (List.filter is_v4 (omap ingest (l ++ [v]))))).
  { rewrite Hl, List.filter_app, List.length_app, Hc4, H4. lia. }
  assert (Hcount6 : countv6 (count_family (VRP_Prefix vrp) st)
                    = Z.of_nat (length (List.filter (fun vrp => negb (is_v4 vrp))
                                                     (omap ingest (l ++ [v]))))).
  { rewrite Hl, List.filter_app, List.length_app, Hc6, H6. lia. }
  destruct (filterDuplicates st !! vrp_key vrp) as [b|] eqn:Hlook.
  - (* the key was seen: only the counters move *)
    split; rewrite ?Hfd, ?Hvl; try done.
    + intros x Hx. rewrite Hl. apply elem_of_app. left. by apply Hkept.
    + intros x. rewrite Hl, elem_of_app, list_elem_of_singleton.
      intros [Hx| ->]; [by apply Hvalid |].
      apply Hseen. by exists b.
  - (* a new key: the entry is appended *)
    assert (Hfresh : vrp_key vrp ∉ vrp_key <$> vrplist st).
    { intros Hin. apply Hseen in Hin as [? Hin]. congruence. }
    split; cbn [filterDuplicates vrplist countv4 countv6]; try done.
    + intros k. rewrite fmap_app, elem_of_app. cbn [fmap list_fmap].
      rewrite list_elem_of_singleton, <- Hseen.
      destruct (decide (vrp_key vrp = k)) as [->|Hne].
      * rewrite lookup_insert_eq. split; [by right | by eexists].
      * rewrite lookup_insert_ne by done. split; [by left | by intros [?|?]].
    + rewrite fmap_app. apply NoDup_app. split_and!; [done | | apply NoDup_singleton].
      intros k Hk. cbn. rewrite list_elem_of_singleton. by intros ->.
    + intros x. rewrite Hl, !elem_of_app, list_elem_of_singleton.
      intros [Hx| ->]; [left; by apply Hkept | by right].
    + intros x. rewrite Hl, fmap_app, !elem_of_app, list_elem_of_singleton.
      intros [Hx| ->]; [left; by apply Hvalid |].
      right. cbn. by apply list_elem_of_singleton.
Qed.

Lemma processed_fold (l : list VRPJson) :
  processed l (fold_left processData_round l processData_init).
Proof.
  induction l as [|v l IH] using rev_ind.
  - apply processed_init.
  - rewrite fold_left_app. cbn [fold_left]. by apply processed_round.
Qed.

End ProcessDataFacts.

Lemma filter_length_Permutation {A} (f : A -> bool) (l1 l2 : list A) :
  l1 ≡ₚ l2 -> length (List.filter f l1) = length (List.filter f l2).
Proof.
  induction 1 as [|x l1 l2 _ IH|x y l|l1 l2 l3 _ IH1 _ IH2]; cbn [List.filter].
  - done.
  - destruct (f x); cbn [length]; by rewrite IH.
  - by destruct (f x), (f y).
  - by rewrite IH1.
Qed.

(** Keys built from one prefix and one ASN differ when the lengths do. *)
Lemma key_length_ne `{E : Externals} (p : net.IPNet) :
  key p 1 24 <> key p 1 25.
Proof.
  unfold key. intros Heq. apply String.app_inj in Heq. by vm_compute in Heq.
Qed.

(** ** C1 *)

(** C1. [processData] returns a list without duplicates: no identity triple
    (prefix, asn, max_length), and no key, occurs twice, every accepted entry
    is represented by the entry of its key, and only accepted entries occur.
    The IPv4 and IPv6 totals count every accepted entry, duplicates included,
    and the first total is their sum.  For an input made of two entries for
    10.0.0.0/24, AS1, 24 and one for 10.0.0.0/24, AS1, 25, in any order, the
    output has two VRPs, the IPv4 total is 3 and the IPv4 count over the
    output is 2. *)
Theorem C1_processData_dedup `{E : Externals} (l : list VRPJson) :
  let '(vrps, count, countv4, countv6) := processData l in
  (NoDup vrps
   /\ NoDup (vrp_key <$> vrps)
   /\ (forall vrp, vrp ∈ vrps -> vrp ∈ omap ingest l)
   /\ (forall vrp, vrp ∈ omap ingest l -> exists out, out ∈ vrps /\ vrp_key out = vrp_key vrp))
  /\ (countv4 = Z.of_nat (length (List.filter is_v4 (omap ingest l)))
      /\ countv6 = Z.of_nat (length (List.filter (fun vrp => negb (is_v4 vrp)) (omap ingest l)))
      /\ count = Z.of_nat (length (omap ingest l)))
  /\ (forall e1 e2 e3 : VRPJson,
        let p := {| net.IP_ := [10; 0; 0; 0]; net.Mask := [255; 255; 255; 0] |} in
        (forall e, e ∈ [e1; e2; e3] -> GetPrefix2 e = Ok p /\ GetASN2 e = Ok 1) ->
        Length e1 = 24 -> Length e2 = 24 -> Length e3 = 25 ->
        l ≡ₚ [e1; e2; e3] ->
        length vrps = 2%nat /\ count = 3 /\ countv4 = 3 /\ countv6 = 0
        /\ (count_dup vrps).1 = 2).
Proof.
  unfold processData.
  destruct (processed_fold l) as [Hseen Hnodup Hkept Hvalid H4 H6].
  set (st := fold_left processData_round l processData_init) in *.
  assert (Hnd : NoDup (vrplist st)) by (by apply (NoDup_fmap_1 vrp_key)).
  assert (Hrep : forall vrp, vrp ∈ omap ingest l ->
                 exists out, out ∈ vrplist st /\ vrp_key out = vrp_key vrp).
  { intros vrp Hin. apply Hvalid in Hin. apply list_elem_of_fmap in Hin as (out & Hk & Hout).
    by exists out. }
  assert (Hsum : countv4 st + countv6 st = Z.of_nat (length (omap ingest l))).
  { rewrite H4, H6. clear. induction (omap ingest l) as [|x xs IH]; [done |].
    cbn [List.filter length]. destruct (is_v4 x); cbn [negb length]; lia. }
  split_and!; try done.
  intros e1 e2 e3 Hparse Hl1 Hl2 Hl3 Hperm.
  set (p := {| net.IP_ := [10; 0; 0; 0]; net.Mask := [255; 255; 255; 0] |}) in *.
  set (v24 := {| VRP_Prefix := p; VRP_ASN := 1; MaxLen := 24 |}).
  set (v25 := {| VRP_Prefix := p; VRP_ASN := 1; MaxLen := 25 |}).
  assert (Hin : omap ingest l ≡ₚ [v24; v24; v25]).
  { rewrite Hperm. cbn [omap list_omap]. unfold ingest.
    destruct (Hparse e1) as [-> ->]; [elem_of_list |].
    destruct (Hparse e2) as [-> ->]; [elem_of_list |].
    destruct (Hparse e3) as [-> ->]; [elem_of_list |].
    by rewrite Hl1, Hl2, Hl3. }
  assert (Hne : vrp_key v24 <> vrp_key v25) by apply key_length_ne.
  assert (Hout : vrplist st ≡ₚ [v24; v25]).
  { apply NoDup_Permutation; [done | |].
    - apply NoDup_cons. split; [|apply NoDup_singleton].
      rewrite list_elem_of_singleton. intros Heq. by rewrite Heq in Hne.
    - intros x. split.
      + intros Hx%Hkept. rewrite Hin in Hx. revert Hx. elem_of_list.
      + intros Hx.
        assert (Hx' : x ∈ omap ingest l) by (rewrite Hin; revert Hx; elem_of_list).
        destruct (Hrep x Hx') as (out & Hout & Hk).
        assert (Ho : out ∈ [v24; v24; v25]) by (rewrite <- Hin; by apply Hkept).
        assert (out = x) as <-; [|done].
        revert Hx Ho. rewrite !elem_of_cons, !elem_of_nil.
        intros [->|[->|[]]] [->|[->|[->|[]]]]; congruence. }
  assert (H3 : length (omap ingest l) = 3%nat) by (by rewrite Hin).
  split_and!.
  - by rewrite Hout.
  - lia.
  - by rewrite H4, (filter_length_Permutation _ _ _ Hin).
  - by rewrite H6, (filter_length_Permutation _ _ _ Hin).
  - symmetry in Hout. by apply Permutation_length_2_inv in Hout as [-> | ->].
Qed.

(** The concrete inputs of the C1 example. *)
Lemma C1_processData_dedup_witness :
  let a := {| Prefix := "10.0.0.0/24"; ASN := asn_string "AS1"; Length := 24 |} in
  let b := {| Prefix := "10.0.0.0/24"; ASN := asn_number 1; Length := 25 |} in
  let r := processData (E := Sample.externals) [a; b; a] in
  length r.1.1.1 = 2%nat /\ r.1.1.2 = 3 /\ r.1.2 = 3 /\ r.2 = 0 /\ (count_dup r.1.1.1).1 = 2.
Proof.
  intros a b r.
  generalize (C1_processData_dedup (E := Sample.externals) [a; b; a]).
  fold r. destruct r as [[[vrps count] c4] c6]. intros (_ & _ & Hex).
  apply (Hex a a b); try reflexivity.
  - intros e. rewrite !elem_of_cons, elem_of_nil.
    intros [->|[->|[->|[]]]]; split; reflexivity.
  - apply perm_skip, perm_swap.
Defined.

(** ** C2 *)

Lemma rejected_ingest `{E : Externals} (v : VRPJson) :
  (forall p, GetPrefix2 v = Ok p -> well_formed p) ->
  rejected v -> ingest v = None.
Proof.
  unfold rejected, ingest. intros Hwf Hrej.
  destruct (GetPrefix2 v) as [p|]; [|done].
  destruct Hrej as [[e ->]|Hb]; [done |].
  destruct (GetASN2 v); [|done].
  destruct (isValidPrefixLength p (Length v)) eqn:Hv; [|done].
  apply isValidPrefixLength_bound in Hv; [done | by apply Hwf].
Qed.

Lemma within_mask_one_family (p : net.IPNet) (max_length : Z) :
  one_family p -> within_mask p max_length -> within_bounds p max_length.
Proof. unfold one_family, within_mask, within_bounds. by intros ->. Qed.

(** C2 fails on an IPv4-mapped prefix.  The entry "::ffff:10.0.0.0/104" with
    maximum length 104 parses to an address of sixteen bytes that [To4]
    reads as IPv4, under a mask of sixteen bytes: [isValidPrefixLength]
    compares the maximum length with the 128 bits of the mask, while
    [processData] counts the entry as IPv4 and its key prints it as
    10.0.0.0/8.  The VRP is returned with a maximum length of 104, above the
    32 of its family. *)
Lemma C2_ipv4_mapped_prefix_exceeds_32 :
  let v := {| Prefix := "::ffff:10.0.0.0/104"; ASN := asn_string "AS1"; Length := 104 |} in
  let r := processData (E := Sample.externals_wide) [v] in
  exists vrp,
    r = ([vrp], 1, 1, 0)
    /\ VRP_Prefix vrp = Sample.mapped_10 /\ MaxLen vrp = 104
    /\ well_formed (VRP_Prefix vrp)
    /\ is_v4 vrp = true /\ family_width (VRP_Prefix vrp) = 32
    /\ ~ within_bounds (VRP_Prefix vrp) (MaxLen vrp)
    /\ vrp_key (E := Sample.externals_wide) vrp = "10.0.0.0/8,1,104".
Proof.
  cbv zeta. eexists. split; [vm_compute; reflexivity |].
  split_and!; try (vm_compute; reflexivity).
  - by right.
  - intros (_ & _ & Hle). vm_compute in Hle. by apply Hle.
Qed.

(** X22. Provided the prefix parser returns prefixes whose mask has four or
    sixteen bytes, every VRP in the list returned by [processData] has
    0 < network_length <= max_length <= width of its mask (32 for a mask of
    four bytes, 128 for one of sixteen), which is the width of its family
    when the address and the mask are of one family, and is made from an
    input entry whose prefix and ASN parsed; an entry that breaks the bound
    on the mask, or whose prefix or ASN does not parse, leaves the loop state
    as it was, so that removing it from the input changes nothing in the
    result. *)
Theorem X22_processData_mask_bounds `{E : Externals} (l : list VRPJson)
    (Hwf : forall v p, v ∈ l -> GetPrefix2 v = Ok p -> well_formed p) :
  let '(vrps, _, _, _) := processData l in
  (forall vrp, vrp ∈ vrps ->
     within_mask (VRP_Prefix vrp) (MaxLen vrp)
     /\ (one_family (VRP_Prefix vrp) -> within_bounds (VRP_Prefix vrp) (MaxLen vrp))
     /\ exists v, v ∈ l /\ GetPrefix2 v = Ok (VRP_Prefix vrp)
                 /\ GetASN2 v = Ok (VRP_ASN vrp) /\ Length v = MaxLen vrp)
  /\ (forall v, v ∈ l -> rejected v ->
        (forall st, processData_round st v = st)
        /\ forall l1 l2, l = l1 ++ v :: l2 -> processData l = processData (l1 ++ l2)).
Proof.
  unfold processData.
  destruct (processed_fold l) as [_ _ Hkept _ _ _].
  split.
  - intros vrp Hin. apply Hkept, list_elem_of_omap in Hin as (v & Hv & Hing).
    unfold ingest in Hing.
    destruct (GetPrefix2 v) as [p|] eqn:Hp; [|done].
    destruct (GetASN2 v) as [asn|] eqn:Ha; [|done].
    destruct (isValidPrefixLength p (Length v)) eqn:Hvalid; [|done].
    injection Hing as <-. cbn [VRP_Prefix VRP_ASN MaxLen].
    assert (Hmask : within_mask p (Length v)).
    { apply isValidPrefixLength_bound; [by apply (Hwf v) | done]. }
    split_and!; [done | | by exists v].
    intros Hone. by apply within_mask_one_family.
  - intros v Hv Hrej.
    assert (Hskip : forall st, processData_round st v = st).
    { intros st. rewrite processData_round_ingest, rejected_ingest; [done | | done].
      intros p. by apply Hwf. }
    split; [done |].
    intros l1 l2 ->. rewrite !fold_left_app. cbn [fold_left]. by rewrite Hskip.
Qed.

(** The sample parser on three entries: one accepted, one whose maximum
    length is below the prefix length, one whose prefix does not parse. *)
Lemma X22_processData_mask_bounds_witness :
  let ok := {| Prefix := "10.0.0.0/24"; ASN := asn_string "AS1"; Length := 24 |} in
  let short := {| Prefix := "10.0.0.0/24"; ASN := asn_string "AS1"; Length := 16 |} in
  let bad := {| Prefix := "10.0.0.0"; ASN := asn_string "AS1"; Length := 24 |} in
  let l := [short; ok; bad] in
  (forall vrp, vrp ∈ (processData (E := Sample.externals) l).1.1.1 ->
     within_mask (VRP_Prefix vrp) (MaxLen vrp))
  /\ processData (E := Sample.externals) l = processData (E := Sample.externals) [ok; bad].
Proof.
  intros ok short bad l.
  assert (Hwf : forall v p, v ∈ l -> GetPrefix2 (Externals := Sample.externals) v = Ok p
                            -> well_formed p).
  { intros v p. unfold l. rewrite !elem_of_cons, elem_of_nil.
    intros [->|[->|[->|[]]]]; vm_compute; intros [= <-] || discriminate.
    all: vm_compute; auto. }
  generalize (X22_processData_mask_bounds (E := Sample.externals) l Hwf).
  destruct (processData l) as [[[vrps count] c4] c6] eqn:Hr.
  intros [Hb Hrej]. split.
  - intros vrp Hin. by apply Hb.
  - destruct (Hrej short) as [_ Hdrop].
    + unfold l. elem_of_list.
    + vm_compute. right. intros (_ & Hle & _). by apply Hle.
    + by apply (Hdrop [] [ok; bad]).
Defined.

(** ** updateFromNewState *)

Section UpdateFromNewStateFacts.
Context `{E : Externals}.

(** Without a decoded list the function returns at once. *)
Lemma updateFromNewState_nil (CacheBin : string) (now : Time) (s : state) :
  Data (lastdata s) = None ->
  updateFromNewState CacheBin now s = (s, [], None).
Proof. unfold updateFromNewState. by intros ->. Qed.

(** A rejected buildtime ends the call before anything is touched. *)
Lemma updateFromNewState_stale (CacheBin : string) (now : Time) (s : state) :
  Data (lastdata s) <> None ->
  checktime s = true ->
  stale_or_unparsable now s ->
  exists err, updateFromNewState CacheBin now s = (s, [], Some err).
Proof.
  unfold updateFromNewState, stale_or_unparsable. intros Hdata -> Hstale.
  destruct (Data (lastdata s)) as [d|]; [|done].
  destruct (time_Parse_RFC3339 (Buildtime (Metadata (lastdata s)))) as [buildtime|err].
  - unfold After, Add. replace (Hour * 24) with (24 * Hour) by lia.
    apply Z.ltb_lt in Hstale as ->. by eexists.
  - by eexists.
Qed.

(** Past both guards the list after SLURM is processed, handed to the server
    and exported. *)
Lemma updateFromNewState_installs (CacheBin : string) (now : Time) (s : state) :
  Data (lastdata s) <> None ->
  checktime s = false \/ ~ stale_or_unparsable now s ->
  exists rest,
    updateFromNewState CacheBin now s
    = (set_exported s
         {| Metadata := {| Counts := len (post_slurm s);
                           Buildtime := Buildtime (Metadata (lastdata s)) |};
            Data := post_slurm s |},
       AddVRPs (processData (elems (post_slurm s))).1.1.1 :: rest,
       None).
Proof.
  unfold updateFromNewState, stale_or_unparsable, post_slurm. intros Hdata Hfresh.
  destruct (Data (lastdata s)) as [d|] eqn:Hd; [|done].
  assert (Hcheck :
    (if checktime s then
       match time_Parse_RFC3339 (Buildtime (Metadata (lastdata s))) with
       | Ok buildtime =>
           if After now (Add buildtime (Hour * 24)) then Some (StaleFile buildtime) else None
       | Err err => Some err
       end
     else None) = None).
  { destruct (checktime s); [|done].
    destruct Hfresh as [?|Hfresh]; [done |].
    destruct (time_Parse_RFC3339 (Buildtime (Metadata (lastdata s)))) as [buildtime|err];
      [|by destruct Hfresh].
    unfold After, Add. replace (Hour * 24) with (24 * Hour) by lia.
    by apply Z.ltb_nlt in Hfresh as ->. }
  rewrite Hcheck.
  set (post := match slurm s with
               | Some sl => append (FilterOnVRPs sl (Some d)).1 (AssertVRPs sl)
               | None => Some d
               end).
  assert (Hpost :
    match slurm s with
    | Some sl => let '(kept, _) := FilterOnVRPs sl (Some d) in append kept (AssertVRPs sl)
    | None => Some d
    end = post).
  { unfold post. destruct (slurm s) as [sl|]; [|done]. by destruct (FilterOnVRPs sl (Some d)). }
  rewrite Hpost.
  destruct (processData (elems post)) as [[[vrps count] c4] c6]. cbn [fst].
  by eexists.
Qed.

(** The three ways a call can go. *)
Lemma updateFromNewState_cases (CacheBin : string) (now : Time) (s : state) :
  Data (lastdata s) = None
  \/ (Data (lastdata s) <> None /\ checktime s = true /\ stale_or_unparsable now s)
  \/ (Data (lastdata s) <> None /\ (checktime s = false \/ ~ stale_or_unparsable now s)).
Proof.
  destruct (Data (lastdata s)); [|by left]. right.
  destruct (checktime s); [|right; split; [done | by left]].
  unfold stale_or_unparsable.
  destruct (time_Parse_RFC3339 (Buildtime (Metadata (lastdata s)))) as [buildtime|err].
  - destruct (Z.lt_ge_cases (buildtime + 24 * Hour) now).
    + by left.
    + right. split; [done | right; lia].
  - by left.
Qed.

Lemma updateFromNewState_lastchange (CacheBin : string) (now : Time) (s : state) :
  lastchange (updateFromNewState CacheBin now s).1.1 = lastchange s.
Proof.
  destruct (updateFromNewState_cases CacheBin now s) as [Hn|[(Hd & Hc & Hs)|[Hd Hf]]].
  - by rewrite updateFromNewState_nil.
  - by destruct (updateFromNewState_stale CacheBin now s Hd Hc Hs) as [err ->].
  - by destruct (updateFromNewState_installs CacheBin now s Hd Hf) as [rest ->].
Qed.

End UpdateFromNewStateFacts.

(** ** C3 *)

(** C3. With a SLURM configuration loaded, a call of [updateFromNewState]
    that gets past its guards (a decoded list, and the time check off or
    passed) filters first and asserts afterwards: the list it processes for
    the server and the list it exports are both the entries kept by
    [FilterOnVRPs] on the fetched list followed by those of [AssertVRPs];
    the filter is applied to the fetched list only, and every asserted entry
    is in the exported list whatever the filter is.  A call stopped by a
    guard processes and exports nothing. *)
Theorem C3_slurm_filter_then_assert `{E : Externals} (CacheBin : string) (now : Time)
    (s : state) (sl : SlurmConfig) :
  slurm s = Some sl ->
  let kept := (FilterOnVRPs sl (Data (lastdata s))).1 in
  let asserted := AssertVRPs sl in
  let '(s', evs, err) := updateFromNewState CacheBin now s in
  (Data (lastdata s) <> None ->
   checktime s = false \/ ~ stale_or_unparsable now s ->
   err = None
   /\ Data (exported s') = append kept asserted
   /\ (exists rest,
         evs = AddVRPs (processData (elems (append kept asserted))).1.1.1 :: rest)
   /\ (forall a, a ∈ elems asserted -> a ∈ elems (Data (exported s'))))
  /\ (~ (Data (lastdata s) <> None /\ (checktime s = false \/ ~ stale_or_unparsable now s)) ->
      s' = s /\ evs = []).
Proof.
  intros Hsl kept asserted.
  assert (Hpost : post_slurm s = append kept asserted) by (unfold post_slurm; by rewrite Hsl).
  destruct (updateFromNewState_cases CacheBin now s) as [Hn|[(Hd & Hc & Hs)|[Hd Hf]]].
  - rewrite updateFromNewState_nil by done. split; [done | by intros _].
  - destruct (updateFromNewState_stale CacheBin now s Hd Hc Hs) as [err ->].
    split; [|by intros _].
    intros _ [Hoff|Hfresh]; [congruence | done].
  - destruct (updateFromNewState_installs CacheBin now s Hd Hf) as [rest ->].
    rewrite Hpost. split; [|intros Hno; by destruct Hno].
    intros _ _. cbn [exported set_exported Data]. split_and!; [done | done | by exists rest |].
    intros a Ha. unfold append. unfold asserted in *.
    destruct (elems (AssertVRPs sl)) as [|x xs] eqn:Hx; [by apply elem_of_nil in Ha |].
    cbn [elems]. apply elem_of_app. by right.
Qed.

(** A policy that drops 10.0.1.0/24 and adds 10.0.9.0/24, on the list
    10.0.1.0/24, 10.0.2.0/24. *)
Lemma C3_slurm_filter_then_assert_witness :
  let doc := {| Metadata := {| Counts := 2; Buildtime := "60" |};
                Data := Some [Sample.entry 1; Sample.entry 2] |} in
  let sl : SlurmConfig (Externals := Sample.externals) :=
    {| Sample.drop := ["10.0.1.0/24"; "10.0.9.0/24"]; Sample.add := [Sample.entry 9] |} in
  let s := {| lastdata := doc; lasthash := None; lastchange := 1; lastts := 1;
              sendNotifs := true; useSerial := 0; metricsEvent := false;
              exported := doc; slurm := Some sl; checktime := false |} in
  let r := updateFromNewState "cache" 1 s in
  Data (exported r.1.1) = Some [Sample.entry 2; Sample.entry 9]
  /\ exists rest,
       r.1.2 = AddVRPs (processData (E := Sample.externals)
                          [Sample.entry 2; Sample.entry 9]).1.1.1 :: rest.
Proof.
  intros doc sl s r.
  generalize (C3_slurm_filter_then_assert (E := Sample.externals) "cache" 1 s sl eq_refl).
  cbv zeta. fold r. destruct r as [[s' evs] err].
  intros [Hdone _].
  destruct Hdone as (_ & Hexp & Hev & _); [done | by left |].
  split; [exact Hexp | exact Hev].
Defined.

(** ** C4 *)

(** C4, as stated, fails on a fetched document whose list is nil.  The sample
    document [0; 1] decodes to a nil list with buildtime 60 s; [updateFile]
    stores it, and 25 hours later, with [checktime] on, [updateFromNewState]
    returns nil, not an error. *)
Lemma C4_stale_without_list_counterexample :
  let now := 60 * Second + 25 * Hour in
  let s := (updateFile (E := Sample.externals) "cache" now now (Sample.fetched [0; 1])
              (initial_state true true true)).1.1 in
  (checktime s = true
   /\ Buildtime (Metadata (lastdata s)) = "60"
   /\ Data (lastdata s) = None
   /\ stale_or_unparsable now s)
  /\ updateFromNewState "cache" now s = (s, [], None)
  /\ ~ exists err, updateFromNewState "cache" now s = (s, [], Some err).
Proof.
  cbv zeta. split_and!; try reflexivity.
  intros [err Herr]. rewrite updateFromNewState_nil in Herr by reflexivity. discriminate.
Qed.

(** C4 (amended). If [checktime] is on, the decoded list is not nil, and the
    buildtime of the document does not parse as RFC 3339 or lies more than 24
    hours back, [updateFromNewState] returns an error and nothing else
    happens: the state, with the exported JSON, is unchanged, and no call is
    made (no VRPs added to the server, hence no new serial, and no
    notification). *)
Theorem C4_stale_document_rejected `{E : Externals} (CacheBin : string) (now : Time)
    (s : state) :
  checktime s = true ->
  Data (lastdata s) <> None ->
  stale_or_unparsable now s ->
  exists err, updateFromNewState CacheBin now s = (s, [], Some err).
Proof. intros Hcheck Hdata Hstale. by apply updateFromNewState_stale. Qed.

(** The sample document [1; 1; 7]: one entry, buildtime 60 s, read 25 hours
    later. *)
Lemma C4_stale_document_rejected_witness :
  let now := 60 * Second + 25 * Hour in
  let s := (updateFile (E := Sample.externals) "cache" now now (Sample.fetched [1; 1; 7])
              (initial_state true true true)).1.1 in
  Data (lastdata s) = Some [Sample.entry 7]
  /\ exists err, updateFromNewState "cache" now s = (s, [], Some err).
Proof.
  intros now s. split; [reflexivity |].
  apply (C4_stale_document_rejected (E := Sample.externals)).
  - reflexivity.
  - discriminate.
  - vm_compute. reflexivity.
Defined.

(** ** C7 *)

(** C7, as stated, fails after a document whose list is nil.  The first
    document [1; 1; 7] is installed and exported; the second, [0; 2], decodes
    to a nil list with another buildtime.  [updateFromNewState] then returns
    nil, and the exported value is still that of the first document. *)
Lemma C7_export_after_nil_list_counterexample :
  let now := 120 * Second in
  let s := (run_refresh (E := Sample.externals) "cache" "" true 600 true true true
              (Sample.tick [1; 1; 7] now) [Sample.tick [0; 2] now]).1.1.1 in
  updateFromNewState "cache" now s = (s, [], None)
  /\ (Counts (Metadata (exporter s)) = 1 /\ len (post_slurm s) = 0)
  /\ (Buildtime (Metadata (exporter s)) = "60" /\ Buildtime (Metadata (lastdata s)) = "120")
  /\ (Data (exporter s) = Some [Sample.entry 7] /\ post_slurm s = None)
  /\ exporter s <> {| Metadata := {| Counts := len (post_slurm s);
                                     Buildtime := Buildtime (Metadata (lastdata s)) |};
                      Data := post_slurm s |}.
Proof.
  cbv zeta. split; [apply updateFromNewState_nil; vm_compute; reflexivity |].
  split_and!; try (vm_compute; reflexivity).
  intros Heq. apply (f_equal (fun x => Counts (Metadata x))) in Heq.
  vm_compute in Heq. discriminate.
Qed.

(** C7 (amended). After every run of [updateFromNewState] that starts from a
    list that is not nil and returns nil, the exported value has
    [metadata.counts] equal to the length of the list after SLURM (kept
    entries followed by asserted ones, before validation and deduplication),
    [metadata.buildtime] copied from the fetched document, and that list as
    its data; the export handler hands exactly this stored value to the
    encoder. *)
Theorem C7_exported_value `{E : Externals} (CacheBin : string) (now : Time)
    (s s' : state) (evs : list Event) :
  Data (lastdata s) <> None ->
  updateFromNewState CacheBin now s = (s', evs, None) ->
  exported s' = {| Metadata := {| Counts := len (post_slurm s);
                                  Buildtime := Buildtime (Metadata (lastdata s)) |};
                   Data := post_slurm s |}
  /\ exporter s' = exported s'
  /\ (forall sl, slurm s = Some sl ->
        post_slurm s = append (FilterOnVRPs sl (Data (lastdata s))).1 (AssertVRPs sl))
  /\ (slurm s = None -> post_slurm s = Data (lastdata s)).
Proof.
  intros Hdata Hrun.
  assert (Hpost : forall sl, slurm s = Some sl ->
            post_slurm s = append (FilterOnVRPs sl (Data (lastdata s))).1 (AssertVRPs sl)).
  { intros sl Hsl. unfold post_slurm. by rewrite Hsl. }
  assert (Hnone : slurm s = None -> post_slurm s = Data (lastdata s)).
  { intros Hsl. unfold post_slurm. by rewrite Hsl. }
  destruct (updateFromNewState_cases CacheBin now s) as [Hn|[(Hd & Hc & Hs)|[Hd Hf]]].
  - done.
  - destruct (updateFromNewState_stale CacheBin now s Hd Hc Hs) as [err Herr]. congruence.
  - destruct (updateFromNewState_installs CacheBin now s Hd Hf) as [rest Hinst].
    rewrite Hinst in Hrun. injection Hrun as <- _. done.
Qed.

(** The sample document [1; 1; 7; 7], read within the day: two entries for
    the same VRP are both exported and counted. *)
Lemma C7_exported_value_witness :
  let now := 120 * Second in
  let s := (updateFile (E := Sample.externals) "cache" now now (Sample.fetched [1; 1; 7; 7])
              (initial_state true true true)).1.1 in
  let r := updateFromNewState "cache" now s in
  r.2 = None
  /\ exporter r.1.1 = {| Metadata := {| Counts := 2; Buildtime := "60" |};
                         Data := Some [Sample.entry 7; Sample.entry 7] |}.
Proof.
  intros now s r.
  assert (Herr : r.2 = None) by (vm_compute; reflexivity).
  destruct r as [[s' evs] err] eqn:Hr. cbn [snd] in Herr.
  split; [exact Herr |].
  subst err.
  destruct (C7_exported_value (E := Sample.externals) "cache" now s s' evs) as (Hexp & Hexporter & _).
  - discriminate.
  - exact Hr.
  - cbn [fst]. rewrite Hexporter, Hexp. reflexivity.
Defined.

(** ** updateFile *)

Lemma bytes_Compare_eq (a b : list Z) : bytes_Compare a b = 0 <-> a = b.
Proof.
  revert b. induction a as [|x a IH]; intros [|y b]; cbn [bytes_Compare].
  - split; reflexivity.
  - split; intros H; [lia | discriminate].
  - split; intros H; [lia | discriminate].
  - destruct (Z.ltb_spec x y); [split; intros H'; [lia | injection H' as -> ->; lia] |].
    destruct (Z.ltb_spec y x); [split; intros H'; [lia | injection H' as -> ->; lia] |].
    rewrite IH. assert (x = y) as -> by lia.
    split; [by intros -> | by intros [= ->]].
Qed.

(** ** C5 *)

(** C5. [updateFile] returns an error in three cases: the fetch failed, the
    SHA-256 sum of the body equals the previous sum (the error is
    [IdenticalFile]), or the body does not decode.  Whenever it returns an
    error it returns false, and [lastdata], [lasthash] and [lastchange] are
    as before; when it returns no error it returns true, the fetch, the
    comparison of sums and the decoding all succeeded, and the three fields
    hold the decoded document, the new sum and the time of the change. *)
Theorem C5_updateFile_keeps_state_on_error `{E : Externals} (file : string)
    (now1 now2 : Time) (fetched : FetchResult) (s : state) :
  let hsum := newSHA256 (fetch_data fetched) in
  let decoded := decodeJSON (fetch_data fetched) in
  let '(s', evs, (updated, err)) := updateFile file now1 now2 fetched s in
  ((forall e, fetch_err fetched = Some e -> err = Some e)
   /\ (fetch_err fetched = None -> lasthash s = Some hsum -> err = Some (IdenticalFile file))
   /\ (forall e, fetch_err fetched = None -> lasthash s <> Some hsum ->
         decoded.2 = Some e -> err = Some e))
  /\ (err <> None ->
      updated = false
      /\ lastdata s' = lastdata s /\ lasthash s' = lasthash s /\ lastchange s' = lastchange s)
  /\ (err = None ->
      updated = true
      /\ (fetch_err fetched = None /\ lasthash s <> Some hsum /\ decoded.2 = None)
      /\ lastdata s' = decoded.1 /\ lasthash s' = Some hsum /\ lastchange s' = now2).
Proof.
  unfold updateFile. cbv zeta.
  destruct (fetch_err fetched) as [e|] eqn:Hfetch.
  { split_and!; done. }
  cbn [lasthash set_lastts].
  set (hsum := newSHA256 (fetch_data fetched)).
  assert (Hcmp : match lasthash s with
                 | Some h => bytes_Compare h hsum =? 0
                 | None => false
                 end = true <-> lasthash s = Some hsum).
  { destruct (lasthash s) as [h|]; [|done].
    rewrite Z.eqb_eq, bytes_Compare_eq. split; [by intros -> | by intros [= ->]]. }
  destruct (match lasthash s with
            | Some h => bytes_Compare h hsum =? 0
            | None => false
            end) eqn:Hid.
  { assert (Hsame : lasthash s = Some hsum) by (by apply Hcmp).
    split_and!; try done. }
  assert (Hdiff : lasthash s <> Some hsum).
  { intros Hsame. apply Hcmp in Hsame. congruence. }
  destruct (decodeJSON (fetch_data fetched)) as [vrplistjson [e|]] eqn:Hdec; cbn [fst snd].
  - split_and!; done.
  - split_and!; done.
Qed.

(** The sample document fetched twice in a row: the second call ends with
    [IdenticalFile] and keeps what the first one stored. *)
Lemma C5_updateFile_keeps_state_on_error_witness :
  let s := (updateFile (E := Sample.externals) "cache" 5 6 (Sample.fetched [1; 1; 7])
              (initial_state true true true)).1.1 in
  let r := updateFile (E := Sample.externals) "cache" 8 9 (Sample.fetched [1; 1; 7]) s in
  r.2 = (false, Some (IdenticalFile "cache"))
  /\ lastdata r.1.1 = lastdata s /\ lasthash r.1.1 = lasthash s
  /\ lastchange r.1.1 = 6 /\ lastts r.1.1 = 8.
Proof.
  intros s r.
  assert (Hts : lastts r.1.1 = 8) by (vm_compute; reflexivity).
  generalize (C5_updateFile_keeps_state_on_error (E := Sample.externals)
                "cache" 8 9 (Sample.fetched [1; 1; 7]) s).
  cbv zeta. fold r. destruct r as [[s' evs] [updated err]].
  intros ((_ & Hident & _) & Herr & _).
  assert (Hsome : err = Some (IdenticalFile "cache")) by (by apply Hident).
  destruct Herr as (-> & Hd & Hh & Hc); [by rewrite Hsome |].
  cbn [fst snd] in *. rewrite Hsome, Hd, Hh, Hc.
  split_and!; try reflexivity. exact Hts.
Defined.

(** ** The refresh loop *)

Section RoutineUpdateFacts.
Context `{E : Externals}.

(** [updateFile] moves [lastchange] exactly when it reports an update. *)
Lemma updateFile_lastchange (file : string) (now1 now2 : Time) (fetched : FetchResult)
    (s : state) :
  lastchange (updateFile file now1 now2 fetched s).1.1
  = if (updateFile file now1 now2 fetched s).2.1 then now2 else lastchange s.
Proof.
  unfold updateFile.
  destruct (fetch_err fetched); [done |].
  destruct (match lasthash (set_lastts s now1) with
            | Some h => bytes_Compare h (newSHA256 (fetch_data fetched)) =? 0
            | None => false
            end); [done |].
  by destruct (decodeJSON (fetch_data fetched)) as [vrplistjson [err|]].
Qed.

Lemma updateSlurm_lastchange (file : string) (fetched : FetchResult) (s : state) :
  lastchange (updateSlurm file fetched s).1.1 = lastchange s.
Proof.
  unfold updateSlurm.
  destruct (fetch_err fetched); [done |].
  by destruct (DecodeJSONSlurm (fetch_data fetched)).
Qed.

(** A round sets its timer from [lastchange] as it finds it, and leaves
    [lastchange] at the time of the change when the cache was updated. *)
Lemma routineUpdate_round_lastchange (CacheBin file : string) (interval : Z)
    (slurmFile : string) (t : Tick) (s : state) :
  let r := routineUpdate_round CacheBin file interval slurmFile t s in
  round_delay r.2 = delay interval s
  /\ lastchange r.1 = if cacheUpdated r.2 then tick_change t else lastchange s.
Proof.
  unfold routineUpdate_round. cbv zeta.
  set (s1 := if negb (slurmFile =? "")%string
             then let '(s', ev, (updated, _)) := updateSlurm slurmFile (tick_slurm t) s in
                  (s', ev, updated)
             else (s, [], false)).
  assert (H1 : lastchange s1.1.1 = lastchange s).
  { unfold s1. destruct (negb (slurmFile =? "")%string); [|done].
    pose proof (updateSlurm_lastchange slurmFile (tick_slurm t) s) as Hs.
    by destruct (updateSlurm slurmFile (tick_slurm t) s) as [[s' ev] [updated err]]. }
  destruct s1 as [[s1 ev1] slurmNotPresentOrUpdated]. cbn [fst] in H1.
  pose proof (updateFile_lastchange file (tick_ts t) (tick_change t) (tick_cache t) s1) as H2.
  destruct (updateFile file (tick_ts t) (tick_change t) (tick_cache t) s1)
    as [[s2 ev2] [updated err]].
  cbn [fst snd] in H2.
  destruct (updated || slurmNotPresentOrUpdated).
  - pose proof (updateFromNewState_lastchange CacheBin (tick_now t) s2) as H3.
    destruct (updateFromNewState CacheBin (tick_now t) s2) as [[s3 ev3] err3].
    cbn [fst snd round_delay cacheUpdated] in *. split; [done |].
    by rewrite H3, H2, H1.
  - cbn [fst snd round_delay cacheUpdated]. split; [done |]. by rewrite H2, H1.
Qed.

(** The timers of the loop: 30 seconds while [lastchange] is zero, which it is
    until a round updates the cache, and the interval from then on. *)
Lemma routineUpdate_delays (CacheBin file : string) (interval : Z) (slurmFile : string)
    (ticks : list Tick) (s : state) :
  (forall t, t ∈ ticks -> tick_change t <> 0) ->
  forall (k : nat) (r : Round),
    (routineUpdate CacheBin file interval slurmFile ticks s).2 !! k = Some r ->
    round_delay r
    = if IsZero (lastchange s)
         && negb (existsb cacheUpdated
                    (take k (routineUpdate CacheBin file interval slurmFile ticks s).2))
      then 30 * Second else int64 (interval * Second).
Proof.
  revert s. induction ticks as [|t ticks IH]; intros s Hclock k r; cbn [routineUpdate].
  - cbn [snd]. by rewrite lookup_nil.
  - destruct (routineUpdate_round_lastchange CacheBin file interval slurmFile t s)
      as [Hdelay Hchange].
    destruct (routineUpdate_round CacheBin file interval slurmFile t s) as [s' r0].
    specialize (IH s').
    destruct (routineUpdate CacheBin file interval slurmFile ticks s') as [s'' rs].
    cbn [fst snd] in *.
    destruct k as [|k]; cbn [lookup list_lookup take existsb].
    + intros [= <-]. rewrite Hdelay. unfold delay.
      change (int64 (30 * Second)) with (30 * Second). by rewrite andb_true_r.
    + intros Hr. rewrite (IH ltac:(intros t' Ht'; apply Hclock; by right) k r Hr).
      rewrite Hchange.
      destruct (cacheUpdated r0); cbn [orb negb].
      * assert (IsZero (tick_change t) = false) as ->.
        { apply Z.eqb_neq, Hclock. by left. }
        by rewrite andb_false_r.
      * done.
Qed.

(** Which calls can install: only [updateFromNewState], and only with a list. *)
Lemma fetch_metrics_no_install (file : string) (fetched : FetchResult) (s : state) :
  existsb installs (fetch_metrics file fetched s) = false.
Proof.
  unfold fetch_metrics.
  by destruct (fetch_lastrefresh fetched), (negb (fetch_code fetched =? -1)).
Qed.

Lemma updateFile_no_install (file : string) (now1 now2 : Time) (fetched : FetchResult)
    (s : state) :
  existsb installs (updateFile file now1 now2 fetched s).1.2 = false.
Proof.
  unfold updateFile.
  destruct (fetch_err fetched); [done |].
  destruct (match lasthash (set_lastts s now1) with
            | Some h => bytes_Compare h (newSHA256 (fetch_data fetched)) =? 0
            | None => false
            end); [apply fetch_metrics_no_install |].
  destruct (decodeJSON (fetch_data fetched)) as [vrplistjson [err|]];
    apply fetch_metrics_no_install.
Qed.

Lemma updateSlurm_no_install (file : string) (fetched : FetchResult) (s : state) :
  existsb installs (updateSlurm file fetched s).1.2 = false.
Proof.
  unfold updateSlurm.
  destruct (fetch_err fetched); [done |].
  destruct (DecodeJSONSlurm (fetch_data fetched)); apply fetch_metrics_no_install.
Qed.

Lemma updateFromNewState_install_data (CacheBin : string) (now : Time) (s : state) :
  existsb installs (updateFromNewState CacheBin now s).1.2 = true ->
  Data (lastdata s) <> None.
Proof.
  destruct (updateFromNewState_cases CacheBin now s) as [Hn|[(Hd & Hc & Hs)|[Hd Hf]]];
    [|done..].
  by rewrite updateFromNewState_nil.
Qed.

Lemma updateFromNewState_lastdata (CacheBin : string) (now : Time) (s : state) :
  lastdata (updateFromNewState CacheBin now s).1.1 = lastdata s.
Proof.
  destruct (updateFromNewState_cases CacheBin now s) as [Hn|[(Hd & Hc & Hs)|[Hd Hf]]].
  - by rewrite updateFromNewState_nil.
  - by destruct (updateFromNewState_stale CacheBin now s Hd Hc Hs) as [err ->].
  - by destruct (updateFromNewState_installs CacheBin now s Hd Hf) as [rest ->].
Qed.

(** [change_recorded] is kept by the three updates when the clock does not
    read the zero Time. *)
Lemma updateFile_change_recorded (file : string) (now1 now2 : Time) (fetched : FetchResult)
    (s : state) :
  now2 <> 0 -> change_recorded s ->
  change_recorded (updateFile file now1 now2 fetched s).1.1.
Proof.
  intros Hnow Hs. unfold updateFile.
  destruct (fetch_err fetched); [done |].
  destruct (match lasthash (set_lastts s now1) with
            | Some h => bytes_Compare h (newSHA256 (fetch_data fetched)) =? 0
            | None => false
            end); [done |].
  destruct (decodeJSON (fetch_data fetched)) as [vrplistjson [err|]]; [done |].
  by intros _.
Qed.

Lemma updateSlurm_change_recorded (file : string) (fetched : FetchResult) (s : state) :
  change_recorded s -> change_recorded (updateSlurm file fetched s).1.1.
Proof.
  intros Hs. unfold updateSlurm.
  destruct (fetch_err fetched); [done |].
  by destruct (DecodeJSONSlurm (fetch_data fetched)).
Qed.

Lemma updateFromNewState_change_recorded (CacheBin : string) (now : Time) (s : state) :
  change_recorded s -> change_recorded (updateFromNewState CacheBin now s).1.1.
Proof.
  unfold change_recorded.
  by rewrite updateFromNewState_lastdata, updateFromNewState_lastchange.
Qed.

(** A round that installs leaves a non-zero [lastchange]. *)
Lemma routineUpdate_round_install (CacheBin file : string) (interval : Z)
    (slurmFile : string) (t : Tick) (s : state) :
  tick_change t <> 0 -> change_recorded s ->
  let r := routineUpdate_round CacheBin file interval slurmFile t s in
  change_recorded r.1
  /\ (existsb installs (round_events r.2) = true -> lastchange r.1 <> 0).
Proof.
  intros Hclock Hs. unfold routineUpdate_round. cbv zeta.
  set (s1 := if negb (slurmFile =? "")%string
             then let '(s', ev, (updated, _)) := updateSlurm slurmFile (tick_slurm t) s in
                  (s', ev, updated)
             else (s, [], false)).
  assert (H1 : change_recorded s1.1.1 /\ existsb installs s1.1.2 = false).
  { unfold s1. destruct (negb (slurmFile =? "")%string); [|done].
    pose proof (updateSlurm_change_recorded slurmFile (tick_slurm t) s Hs) as Hrec.
    pose proof (updateSlurm_no_install slurmFile (tick_slurm t) s) as Hno.
    by destruct (updateSlurm slurmFile (tick_slurm t) s) as [[s' ev] [updated err]]. }
  destruct s1 as [[s1 ev1] slurmNotPresentOrUpdated]. cbn [fst snd] in H1.
  destruct H1 as [Hrec1 Hno1].
  pose proof (updateFile_change_recorded file (tick_ts t) (tick_change t) (tick_cache t) s1
                Hclock Hrec1) as Hrec2.
  pose proof (updateFile_no_install file (tick_ts t) (tick_change t) (tick_cache t) s1) as Hno2.
  destruct (updateFile file (tick_ts t) (tick_change t) (tick_cache t) s1)
    as [[s2 ev2] [updated err]].
  cbn [fst snd] in Hrec2, Hno2.
  destruct (updated || slurmNotPresentOrUpdated).
  - pose proof (updateFromNewState_change_recorded CacheBin (tick_now t) s2 Hrec2) as Hrec3.
    pose proof (updateFromNewState_install_data CacheBin (tick_now t) s2) as Hdata.
    pose proof (updateFromNewState_lastchange CacheBin (tick_now t) s2) as Hch.
    destruct (updateFromNewState CacheBin (tick_now t) s2) as [[s3 ev3] err3].
    cbn [fst snd round_events] in *. split; [done |].
    rewrite !existsb_app, Hno1, Hno2. cbn [existsb installs orb].
    intros Hinst. rewrite Hch. by apply Hrec2, Hdata.
  - cbn [fst snd round_events]. split; [done |].
    rewrite !existsb_app, Hno1, Hno2. by cbn.
Qed.

(** Once a round has installed, the loop no longer finds [lastchange] zero. *)
Lemma routineUpdate_installs (CacheBin file : string) (interval : Z) (slurmFile : string)
    (ticks : list Tick) (s : state) :
  (forall t, t ∈ ticks -> tick_change t <> 0) ->
  change_recorded s ->
  forall k : nat,
    existsb installs
      (concat (map round_events
                 (take k (routineUpdate CacheBin file interval slurmFile ticks s).2))) = true ->
    IsZero (lastchange s)
    && negb (existsb cacheUpdated
               (take k (routineUpdate CacheBin file interval slurmFile ticks s).2)) = false.
Proof.
  revert s. induction ticks as [|t ticks IH]; intros s Hclock Hs k; cbn [routineUpdate].
  - cbn [snd]. by rewrite take_nil.
  - destruct (routineUpdate_round_lastchange CacheBin file interval slurmFile t s)
      as [_ Hchange].
    destruct (routineUpdate_round_install CacheBin file interval slurmFile t s)
      as [Hrec Hinst]; [apply Hclock; by left | done |].
    destruct (routineUpdate_round CacheBin file interval slurmFile t s) as [s' r0].
    specialize (IH s' ltac:(intros t' Ht'; apply Hclock; by right) Hrec).
    destruct (routineUpdate CacheBin file interval slurmFile ticks s') as [s'' rs].
    cbn [fst snd] in *.
    destruct k as [|k]; [done |].
    cbn [take map concat existsb]. rewrite existsb_app.
    intros Hany.
    assert (Hs' : IsZero (lastchange s') && negb (existsb cacheUpdated (take k rs)) = false).
    { destruct (existsb installs (round_events r0)) eqn:Hr0.
      - unfold IsZero. by apply Z.eqb_neq in Hinst as ->.
      - by apply IH. }
    rewrite Hchange in Hs'.
    destruct (cacheUpdated r0); cbn [orb negb]; [by rewrite andb_false_r | done].
Qed.

(** The first synchronisation: [lastchange] moves with the cache update, and
    an install leaves it non-zero. *)
Lemma run_startup_lastchange (CacheBin Slurm : string) (t : Tick) (s : state) :
  tick_change t <> 0 -> change_recorded s ->
  let r := run_startup CacheBin Slurm t s in
  change_recorded r.1.1
  /\ lastchange r.1.1 = (if r.1.2 then tick_change t else lastchange s)
  /\ (existsb installs r.2 = true -> lastchange r.1.1 <> 0).
Proof.
  intros Hclock Hs. unfold run_startup. cbv zeta.
  pose proof (updateFile_lastchange CacheBin (tick_ts t) (tick_change t) (tick_cache t) s)
    as Hch1.
  pose proof (updateFile_change_recorded CacheBin (tick_ts t) (tick_change t) (tick_cache t) s
                Hclock Hs) as Hrec1.
  pose proof (updateFile_no_install CacheBin (tick_ts t) (tick_change t) (tick_cache t) s)
    as Hno1.
  destruct (updateFile CacheBin (tick_ts t) (tick_change t) (tick_cache t) s)
    as [[s1 ev1] [updated err1]].
  cbn [fst snd] in Hch1, Hrec1, Hno1.
  set (s2 := if negb (Slurm =? "")%string
             then let '(s', ev, _) := updateSlurm Slurm (tick_slurm t) s1 in (s', ev)
             else (s1, [])).
  assert (H2 : change_recorded s2.1 /\ lastchange s2.1 = lastchange s1
               /\ existsb installs s2.2 = false).
  { unfold s2. destruct (negb (Slurm =? "")%string); [|done].
    pose proof (updateSlurm_change_recorded Slurm (tick_slurm t) s1 Hrec1) as Hrec.
    pose proof (updateSlurm_lastchange Slurm (tick_slurm t) s1) as Hch.
    pose proof (updateSlurm_no_install Slurm (tick_slurm t) s1) as Hno.
    by destruct (updateSlurm Slurm (tick_slurm t) s1) as [[s' ev] res]. }
  destruct s2 as [s2 ev2]. cbn [fst snd] in H2. destruct H2 as (Hrec2 & Hch2 & Hno2).
  pose proof (updateFromNewState_change_recorded CacheBin (tick_now t) s2 Hrec2) as Hrec3.
  pose proof (updateFromNewState_install_data CacheBin (tick_now t) s2) as Hdata.
  pose proof (updateFromNewState_lastchange CacheBin (tick_now t) s2) as Hch3.
  destruct (updateFromNewState CacheBin (tick_now t) s2) as [[s3 ev3] err3].
  cbn [fst snd] in *. split_and!; [done | by rewrite Hch3, Hch2 |].
  rewrite !existsb_app, Hno1, Hno2. cbn [orb].
  intros Hinst. rewrite Hch3. by apply Hrec2, Hdata.
Qed.

(** A failed [updateFile] and any [updateSlurm] leave the decoded document and
    the exported value alone, and neither reaches the server. *)
Lemma fetch_metrics_no_server_call (file : string) (fetched : FetchResult) (s : state) :
  existsb calls_server (fetch_metrics file fetched s) = false.
Proof.
  unfold fetch_metrics.
  by destruct (fetch_lastrefresh fetched), (negb (fetch_code fetched =? -1)).
Qed.

Lemma updateFile_not_updated (file : string) (now1 now2 : Time) (fetched : FetchResult)
    (s : state) :
  let r := updateFile file now1 now2 fetched s in
  existsb calls_server r.1.2 = false
  /\ exported r.1.1 = exported s
  /\ (r.2.1 = false -> lastdata r.1.1 = lastdata s).
Proof.
  unfold updateFile. cbv zeta.
  destruct (fetch_err fetched); [done |].
  destruct (match lasthash (set_lastts s now1) with
            | Some h => bytes_Compare h (newSHA256 (fetch_data fetched)) =? 0
            | None => false
            end); [cbn [fst snd]; by rewrite fetch_metrics_no_server_call |].
  destruct (decodeJSON (fetch_data fetched)) as [vrplistjson [err|]];
    cbn [fst snd]; by rewrite fetch_metrics_no_server_call.
Qed.

Lemma updateSlurm_frame (file : string) (fetched : FetchResult) (s : state) :
  let r := updateSlurm file fetched s in
  existsb calls_server r.1.2 = false
  /\ exported r.1.1 = exported s
  /\ lastdata r.1.1 = lastdata s.
Proof.
  unfold updateSlurm. cbv zeta.
  destruct (fetch_err fetched); [done |].
  destruct (DecodeJSONSlurm (fetch_data fetched));
    cbn [fst snd]; by rewrite fetch_metrics_no_server_call.
Qed.

End RoutineUpdateFacts.

(** ** C10 *)

(** C10. While [lastdata.Data] is nil, [updateFromNewState] returns nil and
    changes nothing: the state, and with it the exported JSON, is the same,
    and no call reaches the server or the metrics.  Hence a cold start whose
    first [updateFile] reports no update installs nothing: the first
    synchronisation of [run] makes no call to the server and leaves the
    exported value empty. *)
Theorem C10_no_data_no_install `{E : Externals} (CacheBin : string) (now : Time) (s : state) :
  (Data (lastdata s) = None ->
   updateFromNewState CacheBin now s = (s, [], None))
  /\ (forall (Slurm : string) (t : Tick) (me SendNotifs TimeCheck : bool),
        let '(s', updated, evs) :=
          run_startup CacheBin Slurm t (initial_state me SendNotifs TimeCheck) in
        updated = false ->
        existsb calls_server evs = false
        /\ exported s' = exported (initial_state me SendNotifs TimeCheck)).
Proof.
  split; [apply updateFromNewState_nil |].
  intros Slurm t me SendNotifs TimeCheck. unfold run_startup.
  set (s0 := initial_state me SendNotifs TimeCheck).
  destruct (updateFile_not_updated CacheBin (tick_ts t) (tick_change t) (tick_cache t) s0)
    as (Hev1 & Hexp1 & Hdata1).
  destruct (updateFile CacheBin (tick_ts t) (tick_change t) (tick_cache t) s0)
    as [[s1 ev1] [updated err1]].
  cbn [fst snd] in Hev1, Hexp1, Hdata1.
  set (s2 := if negb (Slurm =? "")%string
             then let '(s', ev, _) := updateSlurm Slurm (tick_slurm t) s1 in (s', ev)
             else (s1, [])).
  assert (H2 : existsb calls_server s2.2 = false /\ exported s2.1 = exported s1
               /\ lastdata s2.1 = lastdata s1).
  { unfold s2. destruct (negb (Slurm =? "")%string); [|done].
    pose proof (updateSlurm_frame Slurm (tick_slurm t) s1) as Hs.
    by destruct (updateSlurm Slurm (tick_slurm t) s1) as [[s' ev] res]. }
  destruct s2 as [s2 ev2]. cbn [fst snd] in H2. destruct H2 as (Hev2 & Hexp2 & Hdata2).
  destruct (updateFromNewState CacheBin (tick_now t) s2) as [[s3 ev3] err3] eqn:Hrun.
  intros ->.
  rewrite updateFromNewState_nil in Hrun by (by rewrite Hdata2, Hdata1).
  injection Hrun as <- <- _.
  rewrite !existsb_app, Hev1, Hev2, Hexp2, Hexp1. done.
Qed.

(** The state [run] starts from, before any document was fetched. *)
Lemma C10_no_data_no_install_witness :
  updateFromNewState (E := Sample.externals) "cache" 5 (initial_state true true true)
  = (initial_state true true true, [], None).
Proof.
  apply (proj1 (C10_no_data_no_install (E := Sample.externals) "cache" 5
                  (initial_state true true true))).
  reflexivity.
Defined.

(** ** C6 *)

(** C6 fails when the first document is fetched and decoded but refused.
    The sample document [1; 1; 7] has buildtime 60 s and is read 25 hours
    later with [checktime] on: [updateFile] records the change, the first
    synchronisation installs nothing, and the first round of the loop,
    which installs nothing either, has waited for the configured 600
    seconds, not for 30. *)
Lemma C6_wait_after_refused_document :
  let now := 60 * Second + 25 * Hour in
  let r := run_refresh (E := Sample.externals) "cache" "" true 600 true true true
             (Sample.tick [1; 1; 7] now) [Sample.tick [1; 1; 7] (now + 600 * Second)] in
  r.1.1.2 = true
  /\ existsb installs r.1.2 = false
  /\ map round_delay r.2 = [600 * Second]
  /\ 600 * Second <> 30 * Second
  /\ existsb installs (concat (map round_events r.2)) = false.
Proof. cbv zeta. split_and!; try (vm_compute; reflexivity). vm_compute. discriminate. Qed.

(** A product that fits an [int64] is not changed by the wrap-around. *)
Lemma int64_small (n : Z) : - 2 ^ 63 <= n < 2 ^ 63 -> int64 n = n.
Proof. intros Hn. unfold int64. rewrite Z.mod_small; lia. Qed.

(** X23. The timer of a round follows [lastchange], not the install: it is
    set to 30 seconds as long as [updateFile] has never reported an update
    (neither in the first synchronisation of [run] nor in an earlier round),
    and to the refresh interval times one second, as an [int64] holds it,
    from the first such update on, whether or not an install followed it.
    So, unless that product is itself 30 seconds, the wait is 30 seconds if
    and only if no cache update has been reported yet; and once an install
    has succeeded the wait is the interval.  An interval whose product with
    10^9 fits an [int64] is waited for as it is.  The clock is taken never to
    read the zero Time. *)
Theorem X23_wait_follows_cache_update `{E : Externals} (CacheBin Slurm : string)
    (SlurmRefresh : bool) (RefreshInterval : Z) (me SendNotifs TimeCheck : bool)
    (t0 : Tick) (ticks : list Tick) :
  (forall t, t ∈ t0 :: ticks -> tick_change t <> 0) ->
  let '(s, cacheUpdated0, evs0, rounds) :=
    run_refresh CacheBin Slurm SlurmRefresh RefreshInterval me SendNotifs TimeCheck t0 ticks in
  let interval := int64 (RefreshInterval * Second) in
  (- 2 ^ 63 <= RefreshInterval * Second < 2 ^ 63 -> interval = RefreshInterval * Second)
  /\ forall (k : nat) (r : Round),
       rounds !! k = Some r ->
       let updated_before := cacheUpdated0 || existsb cacheUpdated (take k rounds) in
       let installed_before :=
         existsb installs (evs0 ++ concat (map round_events (take k rounds))) in
       round_delay r = (if updated_before then interval else 30 * Second)
       /\ (interval <> 30 * Second -> round_delay r = 30 * Second <-> updated_before = false)
       /\ (installed_before = true -> round_delay r = interval).
Proof.
  intros Hclock. unfold run_refresh.
  assert (Hinit : change_recorded (initial_state me SendNotifs TimeCheck)).
  { intros Hdata. by cbn in Hdata. }
  destruct (run_startup_lastchange CacheBin Slurm t0 (initial_state me SendNotifs TimeCheck)
              ltac:(apply Hclock; by left) Hinit) as (Hrec & Hch & Hinst).
  destruct (run_startup CacheBin Slurm t0 (initial_state me SendNotifs TimeCheck))
    as [[s3 cacheUpdated0] evs0].
  cbn [fst snd] in Hrec, Hch, Hinst.
  set (slurmFile := if negb SlurmRefresh then "" else Slurm).
  pose proof (routineUpdate_delays CacheBin CacheBin RefreshInterval slurmFile ticks s3
                ltac:(intros t Ht; apply Hclock; by right)) as Hloop.
  pose proof (routineUpdate_installs CacheBin CacheBin RefreshInterval slurmFile ticks s3
                ltac:(intros t Ht; apply Hclock; by right) Hrec) as Hloopinst.
  destruct (routineUpdate CacheBin CacheBin RefreshInterval slurmFile ticks s3) as [s4 rounds].
  cbn [snd] in Hloop, Hloopinst.
  cbv zeta. split; [apply int64_small |].
  intros k r Hr.
  assert (Hzero : IsZero (lastchange s3) = negb cacheUpdated0).
  { rewrite Hch. destruct cacheUpdated0; [|done].
    apply Z.eqb_neq, Hclock. by left. }
  assert (Hdelay : round_delay r
                   = if cacheUpdated0 || existsb cacheUpdated (take k rounds)
                     then int64 (RefreshInterval * Second) else 30 * Second).
  { rewrite (Hloop k r Hr), Hzero.
    by destruct cacheUpdated0, (existsb cacheUpdated (take k rounds)). }
  split_and!; [done | |].
  - intros Hne. rewrite Hdelay.
    destruct (cacheUpdated0 || existsb cacheUpdated (take k rounds)); [|done].
    split; [done | done].
  - rewrite existsb_app. intros Hany. rewrite Hdelay.
    assert (cacheUpdated0 || existsb cacheUpdated (take k rounds) = true) as ->; [|done].
    destruct (existsb installs evs0) eqn:H0.
    + specialize (Hinst eq_refl). apply Z.eqb_neq in Hinst.
      fold (IsZero (lastchange s3)) in Hinst.
      rewrite Hzero in Hinst. by destruct cacheUpdated0.
    + specialize (Hloopinst k Hany). rewrite Hzero in Hloopinst.
      by destruct cacheUpdated0, (existsb cacheUpdated (take k rounds)).
Qed.

(** Three rounds on the sample: no document at first, then a stale one, then
    the same again.  The timers are 30 s, 30 s and 600 s. *)
Lemma X23_wait_follows_cache_update_witness :
  let now := 60 * Second + 25 * Hour in
  let r := run_refresh (E := Sample.externals) "cache" "" true 600 true true true
             (Sample.tick [] now)
             [Sample.tick [] now; Sample.tick [1; 1; 7] now; Sample.tick [1; 1; 7] now] in
  map round_delay r.2 = [30 * Second; 30 * Second; 600 * Second]
  /\ forall k d, r.2 !! k = Some d ->
       round_delay d = (if r.1.1.2 || existsb cacheUpdated (take k r.2)
                        then 600 * Second else 30 * Second)
       /\ (round_delay d = 30 * Second <-> r.1.1.2 || existsb cacheUpdated (take k r.2) = false).
Proof.
  intros now r. split; [vm_compute; reflexivity |].
  assert (Hclock : forall t, t ∈ [Sample.tick [] now; Sample.tick [] now;
                                  Sample.tick [1; 1; 7] now; Sample.tick [1; 1; 7] now]
                             -> tick_change t <> 0).
  { intros t. rewrite !elem_of_cons, elem_of_nil. intros [->|[->|[->|[->|[]]]]]; by vm_compute. }
  generalize (X23_wait_follows_cache_update (E := Sample.externals) "cache" "" true 600
                true true true (Sample.tick [] now) _ Hclock).
  fold r. destruct r as [[[s c0] evs0] rounds]. cbn [fst snd].
  change (int64 (600 * Second)) with (600 * Second).
  intros [_ H] k d Hd. destruct (H k d Hd) as (Hdelay & Hiff & _).
  split; [exact Hdelay | apply Hiff; discriminate].
Defined.

(** ** Strings *)

Example EncodeToString_of_bytes :
  EncodeToString [77; 97; 110] = "TWFu" /\ EncodeToString [77; 97] = "TWE"
  /\ EncodeToString [77] = "TQ" /\ EncodeToString [255; 255; 255; 255] = "/////w".
Proof. by vm_compute. Qed.

Example Split_lines :
  Split ("a" ++ newline ++ newline ++ "b" ++ newline) (ascii_of_nat 10) = ["a"; ""; "b"; ""]
  /\ Split "" (ascii_of_nat 10) = [""].
Proof. by vm_compute. Qed.

Lemma append_assoc (a b c : string) : ((a ++ b) ++ c = a ++ (b ++ c))%string.
Proof.
  induction a as [|x a IH]; [reflexivity |].
  change (String x ((a ++ b) ++ c) = String x (a ++ (b ++ c)))%string. by f_equal.
Qed.

Lemma append_nil_r (a : string) : (a ++ "")%string = a.
Proof.
  induction a as [|x a IH]; [reflexivity |].
  change (String x (a ++ "") = String x a)%string. by f_equal.
Qed.

Lemma HasPrefix_spec (s prefix : string) :
  HasPrefix s prefix = true <-> exists rest, s = (prefix ++ rest)%string.
Proof.
  unfold HasPrefix. revert s.
  induction prefix as [|a prefix IH]; intros s.
  - split; [intros _; exists s; reflexivity | intros _; by destruct s].
  - destruct s as [|b s].
    + split; [discriminate | intros [rest Hrest]; discriminate].
    + change (String.prefix (String a prefix) (String b s))
        with (if ascii_dec a b then String.prefix prefix s else false).
      destruct (ascii_dec a b) as [->|Hne].
      * rewrite IH. split; intros [rest Hrest]; exists rest.
        -- by rewrite Hrest.
        -- by injection Hrest.
      * split; [discriminate | intros [rest Hrest]; by injection Hrest].
Qed.

Lemma contains_refl (s : string) : contains s s.
Proof. exists "", "". change (s = s ++ "")%string. by rewrite append_nil_r. Qed.

Lemma contains_append (pre s post sub : string) :
  contains s sub -> contains (pre ++ s ++ post)%string sub.
Proof.
  intros (a & b & ->). exists (pre ++ a)%string, (b ++ post)%string.
  by rewrite !append_assoc.
Qed.

Lemma contains_app_r (pre s sub : string) :
  contains s sub -> contains (pre ++ s)%string sub.
Proof.
  intros H. apply (contains_append pre s "") in H. by rewrite append_nil_r in H.
Qed.

Lemma contains_app_l (s post sub : string) :
  contains s sub -> contains (s ++ post)%string sub.
Proof. intros H. by apply (contains_append "" s post) in H. Qed.

(** [Join] keeps every element in its result. *)
Lemma Join_contains (l : list string) (sep a : string) :
  a ∈ l -> contains (Join l sep) a.
Proof.
  unfold Join. induction l as [|x l IH]; [by intros ?%elem_of_nil |].
  rewrite elem_of_cons. intros [->|Hin].
  - destruct l as [|y l]; [apply contains_refl |].
    exists "", (sep ++ String.concat sep (y :: l))%string. reflexivity.
  - destruct l as [|y l]; [by apply elem_of_nil in Hin |].
    specialize (IH Hin).
    apply (contains_append (x ++ sep) _ "") in IH.
    rewrite append_nil_r, append_assoc in IH. exact IH.
Qed.

(** ** C8 *)

Lemma noKeys_after_spec (want : string) (sshClientKeys : list string) :
  noKeys_after want sshClientKeys = true
  <-> exists k, k ∈ sshClientKeys /\ k <> "" /\ exists rest, k = (want ++ rest)%string.
Proof.
  induction sshClientKeys as [|k ks IH]; cbn [noKeys_after].
  - split; [done | by intros (k & ?%elem_of_nil & _)].
  - destruct (String.eqb_spec k "") as [->|Hne].
    + rewrite IH. split.
      * intros (k & Hin & Hk). exists k. split; [by right | done].
      * intros (k & [->|Hin]%elem_of_cons & Hk & Hrest); [done | by exists k].
    + destruct (HasPrefix k want) eqn:Hp.
      * split; [|done]. intros _. exists k. apply HasPrefix_spec in Hp.
        split; [by left | done].
      * rewrite IH. split.
        -- intros (k' & Hin & Hk). exists k'. split; [by right | done].
        -- intros (k' & [->|Hin]%elem_of_cons & Hk & Hrest); [|by exists k'].
           apply HasPrefix_spec in Hrest. congruence.
Qed.

(** C8. With public-key authentication on and the bypass off, the callback
    accepts the offered key exactly when some non-empty line of the list of
    authorized keys starts with the key's type, a space and the unpadded
    base64 of the key; when no line does, it returns the error "Key not
    found", which rejects the connection.  With the bypass on, every key is
    accepted. *)
Theorem C8_public_key_callback (sshClientKeys : list string) (key : PublicKey) :
  let want := (Type_ key ++ " " ++ EncodeToString (Marshal key))%string in
  let matched :=
    exists k, k ∈ sshClientKeys /\ k <> "" /\ exists rest, k = (want ++ rest)%string in
  ((exists p, PublicKeyCallback false sshClientKeys key = Ok p) <-> matched)
  /\ ((matched /\ PublicKeyCallback false sshClientKeys key = Ok granted)
      \/ (~ matched
          /\ PublicKeyCallback false sshClientKeys key = Err (errors_New "Key not found")))
  /\ PublicKeyCallback true sshClientKeys key = Ok granted.
Proof.
  intros want matched. unfold PublicKeyCallback. cbn [negb]. fold want.
  pose proof (noKeys_after_spec want sshClientKeys) as Hspec. fold matched in Hspec.
  destruct (noKeys_after want sshClientKeys); cbn [negb].
  - assert (matched) by (by apply Hspec).
    split_and!; [split; [done | by exists granted] | by left | done].
  - assert (~ matched) by (intros Hm; apply Hspec in Hm; done).
    split_and!; [split; [by intros [p ?] | done] | by right | done].
Qed.

(** An authorized-keys text of three lines, the second one empty: the key
    whose bytes encode to TWFu is on the third line; it is in no line of
    the one-line text. *)
Lemma C8_public_key_callback_witness :
  let nl := ascii_of_nat 10 in
  let key := {| Type_ := "ssh-ed25519"; Marshal := [77; 97; 110] |} in
  let text := ("ssh-rsa QUJD admin" ++ newline ++ newline
               ++ "ssh-ed25519 TWFu router@example" ++ newline)%string in
  PublicKeyCallback false (Split text nl) key = Ok granted
  /\ PublicKeyCallback false (Split "ssh-rsa QUJD admin" nl) key
     = Err (errors_New "Key not found")
  /\ PublicKeyCallback true [] key = Ok granted.
Proof.
  intros nl key text. split_and!.
  - destruct (C8_public_key_callback (Split text nl) key) as (_ & [[_ Hok]|[Hno _]] & _).
    + exact Hok.
    + destruct Hno. exists "ssh-ed25519 TWFu router@example".
      split_and!; [|discriminate | by exists " router@example"].
      replace (Split text nl)
        with ["ssh-rsa QUJD admin"; ""; "ssh-ed25519 TWFu router@example"; ""]
        by (vm_compute; reflexivity).
      elem_of_list.
  - destruct (C8_public_key_callback (Split "ssh-rsa QUJD admin" nl) key)
      as (_ & [[Hm _]|[_ Herr]] & _).
    + destruct Hm as (k & Hk & _ & rest & Hrest).
      replace (Split "ssh-rsa QUJD admin" nl) with ["ssh-rsa QUJD admin"] in Hk
        by (vm_compute; reflexivity).
      apply list_elem_of_singleton in Hk as ->. discriminate.
    + exact Herr.
  - apply C8_public_key_callback.
Defined.

(** ** C9 *)

(** C9. When [flag.Parse] leaves at least one positional argument, [run]
    writes one line to standard output, which names the program and holds the
    arguments joined by spaces (so every offending argument occurs in it),
    and exits with status 2; nothing else is done before, whatever the other
    flags are. *)
Theorem C9_positional_arguments_exit_2 (os_Args0 AppVersion : string)
    (flag_Args : list string) (Version : bool) :
  flag_Args <> [] ->
  exists diagnostic,
    run_flags os_Args0 AppVersion flag_Args Version = ([diagnostic], Some 2)
    /\ diagnostic
       = (os_Args0 ++ ": illegal positional argument(s) provided (" ++ quote
            ++ Join flag_Args " " ++ quote ++ ") - did you mean to provide a flag?"
            ++ newline)%string
    /\ forall a, a ∈ flag_Args -> contains diagnostic a.
Proof.
  intros Hargs. unfold run_flags.
  destruct flag_Args as [|a0 rest]; [done |].
  cbn [length]. replace (0 <? Z.of_nat (S (length rest))) with true
    by (symmetry; apply Z.ltb_lt; lia).
  eexists. split_and!; [done | done |].
  intros a Ha.
  do 3 apply contains_app_r. apply contains_app_l. by apply Join_contains.
Qed.

(** Two stray arguments, with the version flag set as well. *)
Lemma C9_positional_arguments_exit_2_witness :
  run_flags "stayrtr" (AppVersion "" "") ["foo"; "bar"] true
  = ([("stayrtr: illegal positional argument(s) provided (" ++ quote ++ "foo bar" ++ quote
        ++ ") - did you mean to provide a flag?" ++ newline)%string],
     Some 2).
Proof.
  destruct (C9_positional_arguments_exit_2 "stayrtr" (AppVersion "" "") ["foo"; "bar"] true)
    as (d & -> & -> & _).
  - discriminate.
  - reflexivity.
Defined.

(** * Further properties *)

(** ** processData: order, composition and counters *)

(** Membership in lists built with [::] and [++]. *)
Ltac elem_of_app_cons :=
  repeat first [rewrite elem_of_app | rewrite elem_of_cons | rewrite elem_of_nil];
  intuition (subst; tauto || auto).

Section ProcessDataOrder.
Context `{E : Externals}.

Lemma first_by_key_ext (seen1 seen2 : list string) (l : list VRP) :
  (forall k, k ∈ seen1 <-> k ∈ seen2) ->
  first_by_key seen1 l = first_by_key seen2 l.
Proof.
  revert seen1 seen2. induction l as [|vrp l IH]; intros seen1 seen2 Hext; [done |].
  cbn [first_by_key].
  destruct (bool_decide_reflect (vrp_key vrp ∈ seen1)) as [H1|H1];
    destruct (bool_decide_reflect (vrp_key vrp ∈ seen2)) as [H2|H2].
  - by apply IH.
  - by apply Hext in H1.
  - by apply Hext in H2.
  - f_equal. apply IH. intros k. rewrite !elem_of_cons. by rewrite Hext.
Qed.

Lemma first_by_key_app (seen : list string) (l1 l2 : list VRP) :
  first_by_key seen (l1 ++ l2)
  = first_by_key seen l1 ++ first_by_key ((vrp_key <$> l1) ++ seen) l2.
Proof.
  revert seen. induction l1 as [|vrp l1 IH]; intros seen; [done |].
  cbn [app first_by_key fmap list_fmap].
  destruct (bool_decide_reflect (vrp_key vrp ∈ seen)) as [Hin|Hin].
  - rewrite IH. f_equal. apply first_by_key_ext. intros k.
    elem_of_app_cons.
  - cbn [app]. f_equal. rewrite IH. f_equal. apply first_by_key_ext. intros k.
    elem_of_app_cons.
Qed.

Lemma first_by_key_sublist (seen : list string) (l : list VRP) :
  first_by_key seen l `sublist_of` l.
Proof.
  revert seen. induction l as [|vrp l IH]; intros seen; cbn [first_by_key]; [done |].
  destruct (bool_decide (vrp_key vrp ∈ seen)).
  - by apply sublist_cons.
  - by apply sublist_skip.
Qed.

(** The keys of the first entries are the keys of all entries not yet seen. *)
Lemma first_by_key_keys (seen : list string) (l : list VRP) (k : string) :
  k ∈ vrp_key <$> first_by_key seen l <-> k ∈ vrp_key <$> l /\ k ∉ seen.
Proof.
  revert seen. induction l as [|vrp l IH]; intros seen; cbn [first_by_key fmap list_fmap].
  - rewrite elem_of_nil. tauto.
  - destruct (bool_decide_reflect (vrp_key vrp ∈ seen)) as [Hin|Hin].
    + rewrite IH. elem_of_app_cons.
    + cbn [fmap list_fmap]. rewrite elem_of_cons, IH.
      destruct (decide (k = vrp_key vrp)) as [->|Hne]; elem_of_app_cons.
Qed.

(** The loop appends to [vrplist] the first entry of every key it has not
    stored yet. *)
Lemma fold_first_by_key (l : list VRPJson) (st : loopState) (seen : list string) :
  (forall k, is_Some (filterDuplicates st !! k) <-> k ∈ seen) ->
  vrplist (fold_left processData_round l st)
  = vrplist st ++ first_by_key seen (omap ingest l).
Proof.
  revert st seen. induction l as [|v l IH]; intros st seen Hseen; cbn [fold_left].
  - cbn. by rewrite app_nil_r.
  - rewrite processData_round_ingest.
    replace (omap ingest (v :: l))
      with (from_option (fun x => [x]) [] (ingest v) ++ omap ingest l)
      by (cbn; by destruct (ingest v)).
    destruct (ingest v) as [vrp|]; cbn [from_option app]; [|by apply IH].
    cbn zeta. destruct (count_family_frame (VRP_Prefix vrp) st) as [Hfd Hvl].
    cbn [first_by_key].
    destruct (filterDuplicates st !! vrp_key vrp) as [b|] eqn:Hlook.
    + assert (Hin : vrp_key vrp ∈ seen) by (apply Hseen; by exists b).
      rewrite (bool_decide_eq_true_2 _ Hin).
      rewrite (IH _ seen); [by rewrite Hvl | by rewrite Hfd].
    + assert (Hin : vrp_key vrp ∉ seen).
      { intros Hin. apply Hseen in Hin as [? ?]. congruence. }
      rewrite (bool_decide_eq_false_2 _ Hin).
      rewrite (IH _ (vrp_key vrp :: seen)); cbn [vrplist filterDuplicates].
      * by rewrite <- app_assoc.
      * intros k. rewrite elem_of_cons, <- Hseen.
        destruct (decide (vrp_key vrp = k)) as [->|Hne].
        -- rewrite lookup_insert_eq. split; [by left | by eexists].
        -- rewrite lookup_insert_ne by done. split; [by right | intros [?|?]; by subst].
Qed.

Lemma processData_first_by_key (l : list VRPJson) :
  (processData l).1.1.1 = first_by_key [] (omap ingest l).
Proof.
  unfold processData. cbn [fst].
  rewrite (fold_first_by_key l processData_init []); [done |].
  intros k. cbn. rewrite lookup_empty, elem_of_nil. split; [by intros [? ?] | done].
Qed.

Lemma processData_counts (l : list VRPJson) :
  (processData l).1.2 = Z.of_nat (length (List.filter is_v4 (omap ingest l)))
  /\ (processData l).2
     = Z.of_nat (length (List.filter (fun vrp => negb (is_v4 vrp)) (omap ingest l)))
  /\ (processData l).1.1.2 = (processData l).1.2 + (processData l).2.
Proof.
  unfold processData. cbn [fst snd].
  by destruct (processed_fold l) as [_ _ _ _ H4 H6].
Qed.

End ProcessDataOrder.

Section ProcessDataExtras.
Context `{E : Externals}.

Lemma first_by_key_mono (seen1 seen2 : list string) (l : list VRP) :
  (forall k, k ∈ seen1 -> k ∈ seen2) ->
  first_by_key seen2 l `sublist_of` first_by_key seen1 l.
Proof.
  revert seen1 seen2. induction l as [|vrp l IH]; intros seen1 seen2 Hsub; [done |].
  cbn [first_by_key].
  destruct (bool_decide_reflect (vrp_key vrp ∈ seen1)) as [H1|H1];
    destruct (bool_decide_reflect (vrp_key vrp ∈ seen2)) as [H2|H2].
  - by apply IH.
  - by apply Hsub in H1.
  - apply sublist_cons, IH. intros k [->|Hk]%elem_of_cons; [done | by apply Hsub].
  - apply sublist_skip, IH. intros k [->|Hk]%elem_of_cons;
      [apply elem_of_cons; by left | apply elem_of_cons; right; by apply Hsub].
Qed.





End ProcessDataExtras.

(** X1. The list returned by [processData] keeps the accepted entries in
    input order and, of the accepted entries that share a key, only the
    first: it is the list of first occurrences of the accepted entries, a
    sublist of them, and an accepted entry whose key no earlier accepted
    entry has is in the output right after the output of the entries before
    it. *)
Theorem X1_processData_keeps_first_occurrences `{E : Externals} (l : list VRPJson) :
  let vrps := (processData l).1.1.1 in
  vrps = first_by_key [] (omap ingest l)
  /\ vrps `sublist_of` omap ingest l
  /\ (forall l1 v l2,
        omap ingest l = l1 ++ v :: l2 ->
        vrp_key v ∉ vrp_key <$> l1 ->
        exists rest, vrps = first_by_key [] l1 ++ v :: rest)
  /\ (forall l1 v l2,
        omap ingest l = l1 ++ v :: l2 ->
        vrp_key v ∈ vrp_key <$> l1 ->
        vrps = first_by_key [] (l1 ++ l2)).
Proof.
  cbv zeta. rewrite processData_first_by_key.
  split_and!; [done | apply first_by_key_sublist | |].
  - intros l1 v l2 -> Hfresh. rewrite first_by_key_app. cbn [first_by_key].
    rewrite bool_decide_eq_false_2 by (by rewrite app_nil_r). by eexists.
  - intros l1 v l2 -> Hseen. rewrite !first_by_key_app. cbn [first_by_key].
    by rewrite bool_decide_eq_true_2 by (by rewrite app_nil_r).
Qed.

(** The sample entries 7, 8, 7 again (its ASN written as a number), 8 again:
    the output is entry 7 then entry 8. *)
Lemma X1_processData_keeps_first_occurrences_witness :
  let again := {| Prefix := "10.0.7.0/24"; ASN := asn_number 1; Length := 24 |} in
  let l := [Sample.entry 7; Sample.entry 8; again; Sample.entry 8] in
  exists v7 v8,
    omap (ingest (E := Sample.externals)) l = [v7; v8; v7; v8]
    /\ (processData (E := Sample.externals) l).1.1.1 = [v7; v8].
Proof.
  intros again l.
  destruct (X1_processData_keeps_first_occurrences (E := Sample.externals) l)
    as (Hfirst & _).
  eexists _, _. split; [vm_compute; reflexivity |].
  rewrite Hfirst. vm_compute. reflexivity.
Defined.

(** X2. Processing a concatenation continues the processing of its first
    part: the output for [l1 ++ l2] is the output for [l1] followed by the
    first occurrences in [l2] of the keys the output for [l1] does not hold,
    these are a sublist of the output for [l2] alone, and each of the three
    counters is the sum of the counters of the two parts. *)
Theorem X2_processData_append `{E : Externals} (l1 l2 : list VRPJson) :
  let r1 := processData l1 in
  let r2 := processData l2 in
  let r := processData (l1 ++ l2) in
  let added := first_by_key (vrp_key <$> r1.1.1.1) (omap ingest l2) in
  r.1.1.1 = r1.1.1.1 ++ added
  /\ added `sublist_of` r2.1.1.1
  /\ r.1.1.2 = r1.1.1.2 + r2.1.1.2
  /\ r.1.2 = r1.1.2 + r2.1.2
  /\ r.2 = r1.2 + r2.2.
Proof.
  cbv zeta.
  destruct (processData_counts l1) as (H14 & H16 & H1).
  destruct (processData_counts l2) as (H24 & H26 & H2).
  destruct (processData_counts (l1 ++ l2)) as (H4 & H6 & H).
  rewrite omap_app, List.filter_app, List.length_app in H4, H6.
  rewrite !processData_first_by_key, omap_app, first_by_key_app, app_nil_r.
  split_and!.
  - f_equal. apply first_by_key_ext. intros k.
    rewrite first_by_key_keys. elem_of_app_cons.
  - apply first_by_key_mono. by intros k ?%elem_of_nil.
  - lia.
  - lia.
  - lia.
Qed.

(** X3. The counters of [processData], the number of entries it returns and
    the set of their keys do not depend on the order of the input. *)
Theorem X3_processData_order_independent `{E : Externals} (l l' : list VRPJson) :
  l ≡ₚ l' ->
  let r := processData l in
  let r' := processData l' in
  r.1.1.2 = r'.1.1.2 /\ r.1.2 = r'.1.2 /\ r.2 = r'.2
  /\ length r.1.1.1 = length r'.1.1.1
  /\ (forall k, k ∈ vrp_key <$> r.1.1.1 <-> k ∈ vrp_key <$> r'.1.1.1).
Proof.
  intros Hperm. cbv zeta.
  assert (Hin : omap ingest l ≡ₚ omap ingest l') by (by rewrite Hperm).
  destruct (processData_counts l) as (H4 & H6 & Hc).
  destruct (processData_counts l') as (H4' & H6' & Hc').
  assert (Hkeys : forall k, k ∈ vrp_key <$> (processData l).1.1.1
                            <-> k ∈ vrp_key <$> (processData l').1.1.1).
  { intros k. rewrite !processData_first_by_key, !first_by_key_keys. by rewrite Hin. }
  assert (Hlen : length (vrp_key <$> (processData l).1.1.1)
                 = length (vrp_key <$> (processData l').1.1.1)).
  { apply Permutation_length, NoDup_Permutation; [| |done].
    - unfold processData. cbn [fst]. by destruct (processed_fold l).
    - unfold processData. cbn [fst]. by destruct (processed_fold l'). }
  rewrite !length_fmap in Hlen.
  rewrite Hc, Hc', H4, H4', H6, H6'.
  rewrite !(filter_length_Permutation _ _ _ Hin).
  done.
Qed.

(** The sample entries 7, 8, 7 in two orders. *)
Lemma X3_processData_order_independent_witness :
  let l := [Sample.entry 7; Sample.entry 8; Sample.entry 7] in
  let l' := [Sample.entry 8; Sample.entry 7; Sample.entry 7] in
  (processData (E := Sample.externals) l).1.1.2 = (processData (E := Sample.externals) l').1.1.2
  /\ length (processData (E := Sample.externals) l).1.1.1
     = length (processData (E := Sample.externals) l').1.1.1.
Proof.
  intros l l'.
  destruct (X3_processData_order_independent (E := Sample.externals) l l')
    as (Hc & _ & _ & Hlen & _).
  - unfold l, l'. apply perm_swap.
  - split; [exact Hc | exact Hlen].
Defined.


(** ** isValidPrefixLength: the masks it accepts *)

Lemma leadingOnes_add (fuel : nat) (v n : Z) :
  net.leadingOnes fuel v n
  = ((net.leadingOnes fuel v 0).1, n + (net.leadingOnes fuel v 0).2).
Proof.
  revert v n. induction fuel as [|fuel IH]; intros v n; cbn [net.leadingOnes].
  - cbn [fst snd]. f_equal. lia.
  - destruct (Z.land v 128 =? 0).
    + cbn [fst snd]. f_equal. lia.
    + rewrite (IH _ (n + 1)), (IH _ (0 + 1)). cbn [fst snd]. f_equal. lia.
Qed.

(** A byte other than 255 that the loop shifts down to zero is a run of
    [k <= 7] one bits followed by zero bits. *)
Lemma leadingOnes_byte (v : Z) :
  0 <= v < 255 ->
  (net.leadingOnes 8 v 0).1 = 0 ->
  0 <= (net.leadingOnes 8 v 0).2 <= 7
  /\ v = 256 - 2 ^ (8 - (net.leadingOnes 8 v 0).2).
Proof.
  intros Hv Hz.
  assert (Htable :
    forallb (fun v => let r := net.leadingOnes 8 v 0 in
                      negb (r.1 =? 0)
                      || ((0 <=? r.2) && (r.2 <=? 7) && (v =? 256 - 2 ^ (8 - r.2))))
            (map Z.of_nat (seq 0 255)) = true) by (vm_compute; reflexivity).
  rewrite forallb_forall in Htable. specialize (Htable v).
  cbv zeta in Htable. rewrite Hz in Htable. cbn [Z.eqb negb orb] in Htable.
  assert (Hin : In v (map Z.of_nat (seq 0 255))).
  { rewrite <- (Z2Nat.id v) by lia. apply in_map, in_seq. lia. }
  apply Htable in Hin. apply andb_true_iff in Hin as [[H1 H2]%andb_true_iff H3].
  lia.
Qed.

Lemma leadingOnes_contiguous (k : Z) :
  0 <= k <= 7 -> net.leadingOnes 8 (256 - 2 ^ (8 - k)) 0 = (0, k).
Proof.
  intros Hk.
  assert (Hcases : k = 0 \/ k = 1 \/ k = 2 \/ k = 3 \/ k = 4 \/ k = 5 \/ k = 6 \/ k = 7)
    by lia.
  destruct Hcases as [->|[->|[->|[->|[->|[->|[->| ->]]]]]]]; vm_compute; reflexivity.
Qed.

Lemma zeros_contiguous (rest : net.IPMask) :
  forallb (Z.eqb 0) rest = true <-> rest = contiguous_mask (length rest) 0.
Proof.
  induction rest as [|v rest IH]; cbn [forallb length contiguous_mask]; [done |].
  change (8 <=? 0) with false. change (256 - 2 ^ (8 - 0)) with 0. cbv iota.
  rewrite andb_true_iff, IH, Z.eqb_eq. split.
  - intros [<- <-]. done.
  - intros [= <- <-]. done.
Qed.

(** [simpleMaskLength] answers with a count only for a mask of ones followed
    by zeros, and then with the number of its ones. *)
Lemma simpleMaskLength_from_contiguous (mask : net.IPMask) (n : Z) :
  all_bytes mask -> 0 <= n ->
  net.simpleMaskLength_from mask n <> -1 ->
  0 <= net.simpleMaskLength_from mask n - n <= 8 * Z.of_nat (length mask)
  /\ mask = contiguous_mask (length mask) (net.simpleMaskLength_from mask n - n).
Proof.
  intros Hbytes. revert n.
  induction Hbytes as [|v rest Hv _ IH]; intros n Hn;
    cbn [net.simpleMaskLength_from length contiguous_mask].
  - intros _. split; [lia |]. done.
  - destruct (Z.eqb_spec v 255) as [->|Hne].
    + intros Hr. destruct (IH (n + 8) ltac:(lia) Hr) as [Hb Hm].
      destruct (Z.leb_spec 8 (net.simpleMaskLength_from rest (n + 8) - n)); [| lia].
      split; [lia |]. f_equal.
      replace (net.simpleMaskLength_from rest (n + 8) - n - 8)
        with (net.simpleMaskLength_from rest (n + 8) - (n + 8)) by lia. done.
    + rewrite leadingOnes_add. cbv zeta.
      destruct (Z.eqb_spec (net.leadingOnes 8 v 0).1 0) as [Hz|Hnz]; cbn [negb];
        [| by intros []].
      destruct (forallb (Z.eqb 0) rest) eqn:Hzeros; [| by intros []].
      intros _. destruct (leadingOnes_byte v ltac:(lia) Hz) as [Hk Hveq].
      apply zeros_contiguous in Hzeros.
      replace (n + (net.leadingOnes 8 v 0).2 - n) with (net.leadingOnes 8 v 0).2 by lia.
      split; [lia |].
      destruct (Z.leb_spec 8 (net.leadingOnes 8 v 0).2); [lia |]. by f_equal.
Qed.

Lemma contiguous_mask_length (len : nat) (ones : Z) :
  length (contiguous_mask len ones) = len.
Proof.
  revert ones. induction len as [|len IH]; intros ones; cbn [contiguous_mask]; [done |].
  destruct (8 <=? ones); cbn [length]; by rewrite IH.
Qed.

Lemma simpleMaskLength_from_of_contiguous (len : nat) (ones n : Z) :
  0 <= ones <= 8 * Z.of_nat len ->
  net.simpleMaskLength_from (contiguous_mask len ones) n = n + ones.
Proof.
  revert ones n. induction len as [|len IH]; intros ones n Hones;
    cbn [contiguous_mask net.simpleMaskLength_from].
  - lia.
  - destruct (Z.leb_spec 8 ones) as [Hge|Hlt]; cbn [net.simpleMaskLength_from].
    + change (255 =? 255) with true. cbv iota. rewrite IH by lia. lia.
    + destruct (Z.eqb_spec (256 - 2 ^ (8 - ones)) 255) as [Heq|_].
      { assert (Hpow : 2 ^ (8 - ones) = 1) by lia.
        assert (2 ^ 1 <= 2 ^ (8 - ones)) by (apply Z.pow_le_mono_r; lia). lia. }
      rewrite leadingOnes_add, leadingOnes_contiguous by lia. cbn [fst snd].
      change (negb (0 =? 0)) with false. cbv iota.
      rewrite (proj2 (zeros_contiguous (contiguous_mask len 0)))
        by (by rewrite contiguous_mask_length).
      reflexivity.
Qed.

(** X5. For a prefix whose mask has four or sixteen bytes,
    [isValidPrefixLength] accepts exactly the masks of [n] one bits followed
    by zero bits with [0 < n <= maxLength <= width], the width being that of
    the mask (32 or 128): a mask with a hole, and the all-zero mask of a /0
    prefix, are refused whatever the maximum length. *)
Theorem X5_isValidPrefixLength_contiguous (p : net.IPNet) (maxLength : Z) :
  all_bytes (net.Mask p) ->
  well_formed p ->
  isValidPrefixLength p maxLength = true
  <-> exists n, net.Mask p = contiguous_mask (length (net.Mask p)) n
                /\ 0 < n <= maxLength /\ maxLength <= mask_width p.
Proof.
  intros Hbytes Hfam. rewrite (isValidPrefixLength_bound p maxLength Hfam).
  unfold within_mask, network_length, net.Size, net.simpleMaskLength.
  assert (Hwidth : mask_width p = 8 * Z.of_nat (length (net.Mask p))).
  { unfold mask_width. destruct Hfam as [->| ->]; reflexivity. }
  split.
  - intros (Hpos & Hle & Hmax).
    destruct (Z.eqb_spec (net.simpleMaskLength_from (net.Mask p) 0) (-1)) as [_|Hne];
      cbn [fst] in Hpos, Hle; [lia |].
    destruct (simpleMaskLength_from_contiguous (net.Mask p) 0 Hbytes ltac:(lia) Hne)
      as [_ Hm].
    rewrite Z.sub_0_r in Hm. eexists. split; [exact Hm |]. lia.
  - intros (n & Hm & Hn & Hmax).
    assert (Hones : net.simpleMaskLength_from (net.Mask p) 0 = n).
    { rewrite Hm, simpleMaskLength_from_of_contiguous by lia. lia. }
    rewrite Hones. destruct (Z.eqb_spec n (-1)); [lia |]. cbn [fst]. lia.
Qed.

(** 255.255.254.0 with maximum length 24 is accepted: it is the mask of 23
    ones. *)
Lemma X5_isValidPrefixLength_contiguous_witness :
  let p := {| net.IP_ := [10; 0; 2; 0]; net.Mask := [255; 255; 254; 0] |} in
  isValidPrefixLength p 24 = true
  /\ exists n, net.Mask p = contiguous_mask 4 n /\ 0 < n <= 24.
Proof.
  intros p. split; [reflexivity |].
  assert (Hbytes : all_bytes (net.Mask p)).
  { repeat constructor; cbn; lia. }
  assert (Hfam : well_formed p) by (by left).
  destruct (proj1 (X5_isValidPrefixLength_contiguous p 24 Hbytes Hfam) eq_refl)
    as (n & Hm & Hn & _).
  exists n. split; [exact Hm | exact Hn].
Defined.

(** ** updateFromNewState: calls, errors and what is exported *)

Section UpdateFromNewStateCalls.
Context `{E : Externals}.

(** Past both guards: the state, every call and the result. *)
Lemma updateFromNewState_past_guards (CacheBin : string) (now : Time) (s : state) :
  Data (lastdata s) <> None ->
  checktime s = false \/ ~ stale_or_unparsable now s ->
  updateFromNewState CacheBin now s
  = (set_exported s
       {| Metadata := {| Counts := len (post_slurm s);
                         Buildtime := Buildtime (Metadata (lastdata s)) |};
          Data := post_slurm s |},
     AddVRPs (processData (elems (post_slurm s))).1.1.1
       :: (if sendNotifs s then [NotifyClientsLatest] else [])
       ++ install_metrics CacheBin s,
     None).
Proof.
  unfold updateFromNewState, stale_or_unparsable, install_metrics, post_slurm.
  intros Hdata Hfresh.
  destruct (Data (lastdata s)) as [d|] eqn:Hd; [|done].
  assert (Hcheck :
    (if checktime s then
       match time_Parse_RFC3339 (Buildtime (Metadata (lastdata s))) with
       | Ok buildtime =>
           if After now (Add buildtime (Hour * 24)) then Some (StaleFile buildtime) else None
       | Err err => Some err
       end
     else None) = None).
  { destruct (checktime s); [|done].
    destruct Hfresh as [?|Hfresh]; [done |].
    destruct (time_Parse_RFC3339 (Buildtime (Metadata (lastdata s)))) as [buildtime|err];
      [|by destruct Hfresh].
    unfold After, Add. replace (Hour * 24) with (24 * Hour) by lia.
    by apply Z.ltb_nlt in Hfresh as ->. }
  rewrite Hcheck.
  set (post := match slurm s with
               | Some sl => append (FilterOnVRPs sl (Some d)).1 (AssertVRPs sl)
               | None => Some d
               end).
  assert (Hpost :
    match slurm s with
    | Some sl => let '(kept, _) := FilterOnVRPs sl (Some d) in append kept (AssertVRPs sl)
    | None => Some d
    end = post).
  { unfold post. destruct (slurm s) as [sl|]; [|done]. by destruct (FilterOnVRPs sl (Some d)). }
  rewrite Hpost.
  destruct (processData (elems post)) as [[[vrps count] c4] c6]. cbn [fst snd].
  destruct (metricsEvent s); [|done].
  by destruct (count_dup vrps).
Qed.

Lemma install_metrics_no_server_call (CacheBin : string) (s : state) :
  existsb calls_server (install_metrics CacheBin s) = false.
Proof. unfold install_metrics. by destruct (metricsEvent s). Qed.

Lemma notify_metrics_no_install (CacheBin : string) (s : state) :
  existsb installs ((if sendNotifs s then [NotifyClientsLatest] else [])
                    ++ install_metrics CacheBin s) = false.
Proof. unfold install_metrics. by destruct (sendNotifs s), (metricsEvent s). Qed.

Lemma set_exported_eta (s : state) : set_exported s (exported s) = s.
Proof. by destruct s. Qed.

Lemma length_omap_le {A B} (f : A -> option B) (l : list A) :
  (length (omap f l) <= length l)%nat.
Proof.
  induction l as [|x l IH]; cbn [omap list_omap length]; [done |].
  destruct (f x); cbn [length]; lia.
Qed.

End UpdateFromNewStateCalls.


(** X7. [updateFromNewState] returns an error exactly when it has a decoded
    list, the time check is on, and the buildtime does not parse or lies
    more than 24 hours back.  The parse error is returned as it is; a
    document of exactly 24 hours passes: the comparison is strict. *)
Theorem X7_updateFromNewState_error_iff `{E : Externals} (CacheBin : string) (now : Time)
    (s : state) :
  let err := (updateFromNewState CacheBin now s).2 in
  (err <> None
   <-> Data (lastdata s) <> None /\ checktime s = true /\ stale_or_unparsable now s)
  /\ (Data (lastdata s) <> None -> checktime s = true ->
      err = match time_Parse_RFC3339 (Buildtime (Metadata (lastdata s))) with
            | Err e => Some e
            | Ok buildtime =>
                if Z.ltb (buildtime + 24 * Hour) now then Some (StaleFile buildtime) else None
            end).
Proof.
  cbv zeta. split.
  - destruct (updateFromNewState_cases CacheBin now s) as [Hn|[(Hd & Hc & Hs)|[Hd Hf]]].
    + rewrite updateFromNewState_nil by done. cbn [snd]. split; [done | by intros [? _]].
    + destruct (updateFromNewState_stale CacheBin now s Hd Hc Hs) as [err ->]. cbn [snd].
      split; [done | by intros _].
    + rewrite updateFromNewState_past_guards by done. cbn [snd].
      split; [done |]. intros (_ & Hc & Hs). destruct Hf as [Hf|Hf]; [congruence | done].
  - intros Hd Hc. unfold updateFromNewState.
    destruct (Data (lastdata s)) as [d|]; [|done]. rewrite Hc.
    destruct (time_Parse_RFC3339 (Buildtime (Metadata (lastdata s)))) as [buildtime|e];
      [|done].
    unfold After, Add. replace (Hour * 24) with (24 * Hour) by lia.
    destruct (buildtime + 24 * Hour <? now); [done |].
    destruct (match slurm s with
              | Some sl => let '(kept, _) := FilterOnVRPs sl (Some d) in
                           append kept (AssertVRPs sl)
              | None => Some d
              end) as [post|];
      by destruct (processData _) as [[[vrps count] c4] c6].
Qed.

(** The sample document built at 60 s, read with the time check on: exactly
    24 hours later it is installed, one nanosecond after that it is
    refused. *)
Lemma X7_updateFromNewState_error_iff_witness :
  let s := (updateFile (E := Sample.externals) "cache" 5 6 (Sample.fetched [1; 1; 7])
              (initial_state false true true)).1.1 in
  (updateFromNewState (E := Sample.externals) "cache" (60 * Second + 24 * Hour) s).2 = None
  /\ (updateFromNewState (E := Sample.externals) "cache" (60 * Second + 24 * Hour + 1) s).2
     = Some (StaleFile (60 * Second)).
Proof.
  intros s.
  assert (Hd : Data (lastdata s) <> None) by (vm_compute; discriminate).
  assert (Hc : checktime s = true) by reflexivity.
  split.
  - rewrite (proj2 (X7_updateFromNewState_error_iff (E := Sample.externals) "cache"
                      (60 * Second + 24 * Hour) s) Hd Hc).
    vm_compute. reflexivity.
  - rewrite (proj2 (X7_updateFromNewState_error_iff (E := Sample.externals) "cache"
                      (60 * Second + 24 * Hour + 1) s) Hd Hc).
    vm_compute. reflexivity.
Defined.

Section UpdateFromNewStateExported.
Context `{E : Externals}.

Lemma updateFromNewState_frame (CacheBin : string) (now : Time) (s : state) :
  (updateFromNewState CacheBin now s).1.1
  = set_exported s (exported (updateFromNewState CacheBin now s).1.1).
Proof.
  destruct (updateFromNewState_cases CacheBin now s) as [Hn|[(Hd & Hc & Hs)|[Hd Hf]]].
  - rewrite updateFromNewState_nil by done. by rewrite set_exported_eta.
  - destruct (updateFromNewState_stale CacheBin now s Hd Hc Hs) as [err ->].
    by rewrite set_exported_eta.
  - by rewrite updateFromNewState_past_guards by done.
Qed.

(** What was exported before does not steer the call. *)
Lemma updateFromNewState_set_exported (CacheBin : string) (now : Time) (s : state)
    (x : VRPList) :
  updateFromNewState CacheBin now (set_exported s x)
  = (set_exported (updateFromNewState CacheBin now s).1.1
       (if existsb installs (updateFromNewState CacheBin now s).1.2
        then exported (updateFromNewState CacheBin now s).1.1 else x),
     (updateFromNewState CacheBin now s).1.2,
     (updateFromNewState CacheBin now s).2).
Proof.
  unfold updateFromNewState.
  cbn [set_exported lastdata checktime slurm sendNotifs metricsEvent lastchange lastts].
  destruct (Data (lastdata s)) as [d|]; [|done].
  destruct (if checktime s
            then match time_Parse_RFC3339 (Buildtime (Metadata (lastdata s))) with
                 | Ok buildtime =>
                     if After now (Add buildtime (Hour * 24))
                     then Some (StaleFile buildtime) else None
                 | Err err => Some err
                 end
            else None); [done |].
  destruct (match slurm s with
            | Some sl => let '(kept, _) := FilterOnVRPs sl (Some d) in
                         append kept (AssertVRPs sl)
            | None => Some d
            end) as [post|];
    by destruct (processData _) as [[[vrps count] c4] c6].
Qed.

End UpdateFromNewStateExported.

(** X8. [updateFromNewState] reads nothing of what it exported: its calls
    and its result are the same whatever [exported] held, and a second call
    at the same time repeats the first, with the same VRP set handed to the
    server again and the same value exported. *)
Theorem X8_updateFromNewState_repeats `{E : Externals} (CacheBin : string) (now : Time)
    (s : state) (x : VRPList) :
  let r := updateFromNewState CacheBin now s in
  (updateFromNewState CacheBin now (set_exported s x)).1.2 = r.1.2
  /\ (updateFromNewState CacheBin now (set_exported s x)).2 = r.2
  /\ updateFromNewState CacheBin now r.1.1 = r.
Proof.
  cbv zeta. rewrite updateFromNewState_set_exported. split_and!; [done | done |].
  rewrite (updateFromNewState_frame CacheBin now s) at 1.
  rewrite updateFromNewState_set_exported.
  destruct (updateFromNewState CacheBin now s) as [[s' evs] err]. cbn [fst snd].
  destruct (existsb installs evs); by rewrite set_exported_eta.
Qed.

(** X9. What the server is given comes from what is exported: every VRP of
    an [AddVRPs] call is the reading of an entry of the exported list, in the
    order of that list, so the exported [counts], which is the length of the
    exported list, is at least the number of VRPs handed to the server.  The
    exported list also holds the entries [processData] refused. *)
Theorem X9_installed_from_exported `{E : Externals} (CacheBin : string) (now : Time)
    (s : state) (vrps : list VRP) :
  AddVRPs vrps ∈ (updateFromNewState CacheBin now s).1.2 ->
  let x := exporter (updateFromNewState CacheBin now s).1.1 in
  vrps `sublist_of` omap ingest (elems (Data x))
  /\ (forall vrp, vrp ∈ vrps -> exists v, v ∈ elems (Data x) /\ ingest v = Some vrp)
  /\ Counts (Metadata x) = len (Data x)
  /\ Z.of_nat (length vrps) <= Counts (Metadata x).
Proof.
  destruct (updateFromNewState_cases CacheBin now s) as [Hn|[(Hd & Hc & Hs)|[Hd Hf]]].
  - rewrite updateFromNewState_nil by done. by intros ?%elem_of_nil.
  - destruct (updateFromNewState_stale CacheBin now s Hd Hc Hs) as [err ->].
    by intros ?%elem_of_nil.
  - rewrite updateFromNewState_past_guards by done. cbn [fst snd exporter exported set_exported].
    intros [Hv|Hin]%elem_of_cons.
    + injection Hv as ->. cbv zeta. cbn [Data Metadata Counts].
      assert (Hsub : (processData (elems (post_slurm s))).1.1.1
                     `sublist_of` omap ingest (elems (post_slurm s))).
      { rewrite processData_first_by_key. apply first_by_key_sublist. }
      split_and!; [done | | done |].
      * intros vrp Hvrp. apply (elem_of_sublist _ _ _ Hvrp) in Hsub.
        apply list_elem_of_omap in Hsub as (v & Hv & Hing). by exists v.
      * apply sublist_length in Hsub.
        pose proof (length_omap_le ingest (elems (post_slurm s))).
        unfold len, processData in *. cbn [fst snd] in *. lia.
    + apply list_elem_of_In in Hin.
      pose proof (notify_metrics_no_install CacheBin s) as Hno.
      assert (Hex : existsb installs
                      ((if sendNotifs s then [NotifyClientsLatest] else [])
                       ++ install_metrics CacheBin s) = true).
      { apply existsb_exists. by exists (AddVRPs vrps). }
      congruence.
Qed.

(** The sample document with entry 7 twice and entry 8, installed without
    SLURM: two VRPs reach the server, the exported count is three. *)
Lemma X9_installed_from_exported_witness :
  let s := (updateFile (E := Sample.externals) "cache" 5 6 (Sample.fetched [1; 1; 7; 7; 8])
              (initial_state false true false)).1.1 in
  let r := updateFromNewState (E := Sample.externals) "cache" 7 s in
  exists vrps,
    r.1.2 = [AddVRPs vrps; NotifyClientsLatest]
    /\ length vrps = 2%nat
    /\ Counts (Metadata (exporter r.1.1)) = 3
    /\ vrps `sublist_of` omap (ingest (E := Sample.externals)) (elems (Data (exporter r.1.1))).
Proof.
  intros s r.
  assert (Hev : exists vrps, r.1.2 = [AddVRPs vrps; NotifyClientsLatest]
                             /\ length vrps = 2%nat).
  { eexists. split; vm_compute; reflexivity. }
  destruct Hev as (vrps & Hev & Hlen).
  assert (Hcount : Counts (Metadata (exporter r.1.1)) = 3) by (vm_compute; reflexivity).
  exists vrps. split_and!; [exact Hev | exact Hlen | exact Hcount |].
  apply (X9_installed_from_exported (E := Sample.externals) "cache" 7 s vrps).
  fold r. rewrite Hev. apply elem_of_cons. by left.
Defined.

(** ** updateFile and updateSlurm across calls *)

Section FetchFacts.
Context `{E : Externals}.

(** The comparison of [updateFile] is an equality of sums. *)
Lemma identical_iff (h : option (list Z)) (hsum : list Z) :
  match h with
  | Some h => bytes_Compare h hsum =? 0
  | None => false
  end = bool_decide (h = Some hsum).
Proof.
  destruct h as [h|]; [|done].
  destruct (Z.eqb_spec (bytes_Compare h hsum) 0) as [Heq|Hne].
  - apply bytes_Compare_eq in Heq as ->. by rewrite bool_decide_eq_true_2.
  - rewrite bool_decide_eq_false_2; [done |]. intros [= ->]. by apply Hne, bytes_Compare_eq.
Qed.

(** [updateFile], by the three tests it makes after a fetch that worked. *)
Lemma updateFile_fetched (file : string) (now1 now2 : Time) (fetched : FetchResult)
    (s : state) :
  fetch_err fetched = None ->
  updateFile file now1 now2 fetched s
  = let hsum := newSHA256 (fetch_data fetched) in
    let evs := fetch_metrics file fetched (set_lastts s now1) in
    if bool_decide (lasthash s = Some hsum)
    then (set_lastts s now1, evs, (false, Some (IdenticalFile file)))
    else match (decodeJSON (fetch_data fetched)).2 with
         | Some err => (set_lastts s now1, evs, (false, Some err))
         | None => (set_last (set_lastts s now1) hsum now2 (decodeJSON (fetch_data fetched)).1,
                    evs, (true, None))
         end.
Proof.
  intros Hfetch. unfold updateFile. rewrite Hfetch. cbv zeta.
  rewrite identical_iff. cbn [lasthash set_lastts].
  destruct (bool_decide (lasthash s = Some (newSHA256 (fetch_data fetched)))); [done |].
  by destruct (decodeJSON (fetch_data fetched)) as [vrplistjson [err|]].
Qed.

End FetchFacts.

(** X10. [updateFile] remembers the sum of the last body it decoded, and of
    no other.  When a call reported an update, the next call that fetches
    the same body ends with [IdenticalFile] and changes [lastts] only.  When
    a call failed on a fetched body that was not the remembered one, the body
    did not decode, its sum was not stored, and the next call with the same
    body decodes it again and fails in the same way. *)
Theorem X10_updateFile_same_body `{E : Externals} (file : string) (now1 now2 now3 now4 : Time)
    (fetched : FetchResult) (s : state) :
  fetch_err fetched = None ->
  let r1 := updateFile file now1 now2 fetched s in
  let r2 := updateFile file now3 now4 fetched r1.1.1 in
  (r1.2.1 = true ->
   r2.2 = (false, Some (IdenticalFile file)) /\ r2.1.1 = set_lastts r1.1.1 now3)
  /\ (r1.2.1 = false -> lasthash s <> Some (newSHA256 (fetch_data fetched)) ->
      lasthash r2.1.1 = lasthash s
      /\ r2.2 = r1.2
      /\ exists err, (decodeJSON (fetch_data fetched)).2 = Some err
                     /\ r1.2 = (false, Some err)).
Proof.
  intros Hfetch. cbv zeta. rewrite (updateFile_fetched file now1 now2) by done. cbv zeta.
  destruct (bool_decide_reflect (lasthash s = Some (newSHA256 (fetch_data fetched))))
    as [Hsame|Hdiff].
  { cbn [fst snd]. split; [done |]. by intros _ []. }
  destruct (decodeJSON (fetch_data fetched)).2 as [err|] eqn:Hdec; cbn [fst snd].
  - split; [done |]. intros _ _.
    rewrite (updateFile_fetched file now3 now4) by done. cbv zeta.
    cbn [lasthash set_lastts]. rewrite bool_decide_eq_false_2 by done.
    rewrite Hdec. cbn [fst snd lasthash set_lastts]. split_and!; [done | done |].
    by exists err.
  - split; [|done]. intros _.
    rewrite (updateFile_fetched file now3 now4) by done. cbv zeta.
    cbn [lasthash set_last]. by rewrite bool_decide_eq_true_2.
Qed.

(** The sample document fetched twice, and a body of one byte, which does
    not decode, fetched twice. *)
Lemma X10_updateFile_same_body_witness :
  let s := initial_state (E := Sample.externals) true true true in
  let good := updateFile (E := Sample.externals) "cache" 5 6 (Sample.fetched [1; 1; 7]) s in
  let bad := updateFile (E := Sample.externals) "cache" 5 6 (Sample.fetched [1]) s in
  (updateFile (E := Sample.externals) "cache" 8 9 (Sample.fetched [1; 1; 7]) good.1.1).2
  = (false, Some (IdenticalFile "cache"))
  /\ (updateFile (E := Sample.externals) "cache" 8 9 (Sample.fetched [1]) bad.1.1).2 = bad.2
  /\ bad.2 = (false, Some (LibError "unexpected end of JSON input")).
Proof.
  intros s good bad.
  destruct (X10_updateFile_same_body (E := Sample.externals) "cache" 5 6 8 9
              (Sample.fetched [1; 1; 7]) s eq_refl) as [Hgood _].
  destruct (X10_updateFile_same_body (E := Sample.externals) "cache" 5 6 8 9
              (Sample.fetched [1]) s eq_refl) as [_ Hbad].
  destruct Hgood as [Hident _]; [reflexivity |].
  destruct Hbad as (_ & Hagain & _); [reflexivity | discriminate |].
  split_and!; [exact Hident | exact Hagain | reflexivity].
Defined.

(** X11. [updateSlurm] reports an update exactly when the fetch and the
    decoding both worked, and then the policy is the decoded one; when it
    reports none the state is as before, so a policy that was loaded stays
    in force.  It writes no field but [slurm], and it compares nothing with
    the past: what it returns does not depend on the state, so the same body
    fetched again is an update again. *)
Theorem X11_updateSlurm_result `{E : Externals} (file : string) (fetched : FetchResult)
    (s : state) :
  let '(s', evs, (updated, err)) := updateSlurm file fetched s in
  s' = set_slurm s (slurm s')
  /\ (updated = true <-> err = None)
  /\ (updated = true
      <-> fetch_err fetched = None
          /\ exists sl, DecodeJSONSlurm (fetch_data fetched) = Ok sl /\ slurm s' = Some sl)
  /\ (updated = false -> s' = s)
  /\ (forall s0, (updateSlurm file fetched s0).2 = (updated, err)).
Proof.
  assert (Heta : s = set_slurm s (slurm s)) by (by destruct s).
  unfold updateSlurm.
  destruct (fetch_err fetched) as [e|].
  { split_and!; [done | done | | done | done]. split; [done | by intros [? _]]. }
  destruct (DecodeJSONSlurm (fetch_data fetched)) as [sl|e].
  - split_and!; [done | done | | done | done]. split; [|done]. intros _. split; [done |].
    by exists sl.
  - split_and!; [done | done | | done | done]. split; [done |]. by intros (_ & sl & ? & _).
Qed.

(** ** The refresh loop: when a round reaches the server *)

Section RoundFacts.
Context `{E : Externals}.

(** A round of the loop, by the three calls it makes. *)
Lemma routineUpdate_round_eq (CacheBin file : string) (interval : Z) (slurmFile : string)
    (t : Tick) (s : state) :
  routineUpdate_round CacheBin file interval slurmFile t s
  = let rs := if negb (slurmFile =? "")%string
              then updateSlurm slurmFile (tick_slurm t) s
              else (s, [], (false, None)) in
    let rf := updateFile file (tick_ts t) (tick_change t) (tick_cache t) rs.1.1 in
    let rn := if rf.2.1 || rs.2.1
              then updateFromNewState CacheBin (tick_now t) rf.1.1
              else (rf.1.1, [], None) in
    (rn.1.1,
     {| round_delay := delay interval s; cacheUpdated := rf.2.1;
        round_events := [NewTimer (delay interval s)] ++ rs.1.2 ++ rf.1.2 ++ rn.1.2 |}).
Proof.
  unfold routineUpdate_round. cbv zeta.
  destruct (negb (slurmFile =? "")%string).
  - destruct (updateSlurm slurmFile (tick_slurm t) s) as [[s1 ev1] [updated1 err1]].
    cbn [fst snd].
    destruct (updateFile file (tick_ts t) (tick_change t) (tick_cache t) s1)
      as [[s2 ev2] [updated2 err2]].
    cbn [fst snd]. destruct (updated2 || updated1); [|done].
    by destruct (updateFromNewState CacheBin (tick_now t) s2) as [[s3 ev3] err3].
  - cbn [fst snd].
    destruct (updateFile file (tick_ts t) (tick_change t) (tick_cache t) s)
      as [[s2 ev2] [updated2 err2]].
    cbn [fst snd]. destruct (updated2 || false); [|done].
    by destruct (updateFromNewState CacheBin (tick_now t) s2) as [[s3 ev3] err3].
Qed.

(** A call of [updateFile] that reports no update wrote [lastts] only. *)
Lemma updateFile_quiet (file : string) (now1 now2 : Time) (fetched : FetchResult)
    (s : state) :
  (updateFile file now1 now2 fetched s).2.1 = false ->
  (updateFile file now1 now2 fetched s).1.1 = set_lastts s now1.
Proof.
  unfold updateFile.
  destruct (fetch_err fetched); [done |].
  destruct (match lasthash (set_lastts s now1) with
            | Some h => bytes_Compare h (newSHA256 (fetch_data fetched)) =? 0
            | None => false
            end); [done |].
  by destruct (decodeJSON (fetch_data fetched)) as [vrplistjson [err|]].
Qed.

(** [updateFile] writes the four fields of the cache and no other. *)
Lemma updateFile_frame (file : string) (now1 now2 : Time) (fetched : FetchResult)
    (s : state) :
  let s' := (updateFile file now1 now2 fetched s).1.1 in
  sendNotifs s' = sendNotifs s /\ checktime s' = checktime s
  /\ metricsEvent s' = metricsEvent s /\ useSerial s' = useSerial s
  /\ slurm s' = slurm s /\ exported s' = exported s /\ lastts s' = now1.
Proof.
  unfold updateFile. cbv zeta.
  destruct (fetch_err fetched); [done |].
  destruct (match lasthash (set_lastts s now1) with
            | Some h => bytes_Compare h (newSHA256 (fetch_data fetched)) =? 0
            | None => false
            end); [done |].
  by destruct (decodeJSON (fetch_data fetched)) as [vrplistjson [err|]].
Qed.

(** [updateSlurm] writes [slurm] only, and never clears it. *)
Lemma updateSlurm_writes_slurm (file : string) (fetched : FetchResult) (s : state) :
  let s' := (updateSlurm file fetched s).1.1 in
  s' = set_slurm s (slurm s') /\ (slurm s <> None -> slurm s' <> None)
  /\ ((updateSlurm file fetched s).2.1 = false -> s' = s).
Proof.
  assert (Heta : s = set_slurm s (slurm s)) by (by destruct s).
  unfold updateSlurm. cbv zeta.
  destruct (fetch_err fetched); [done |].
  by destruct (DecodeJSONSlurm (fetch_data fetched)).
Qed.

(** The configuration a round leaves alone. *)
Lemma routineUpdate_round_frame (CacheBin file : string) (interval : Z) (slurmFile : string)
    (t : Tick) (s : state) :
  let s' := (routineUpdate_round CacheBin file interval slurmFile t s).1 in
  sendNotifs s' = sendNotifs s /\ checktime s' = checktime s
  /\ metricsEvent s' = metricsEvent s /\ useSerial s' = useSerial s
  /\ lastts s' = tick_ts t
  /\ (slurm s <> None -> slurm s' <> None)
  /\ (slurmFile = "" -> slurm s' = slurm s).
Proof.
  rewrite routineUpdate_round_eq. cbv zeta. cbn [fst].
  set (rs := if negb (slurmFile =? "")%string
             then updateSlurm slurmFile (tick_slurm t) s
             else (s, [], (false, None))).
  assert (Hs : rs.1.1 = set_slurm s (slurm rs.1.1)
               /\ (slurm s <> None -> slurm rs.1.1 <> None)
               /\ (slurmFile = "" -> rs.1.1 = s)).
  { unfold rs. destruct (String.eqb_spec slurmFile "") as [->|Hne]; cbn [negb fst].
    - split_and!; [by destruct s | done | done].
    - destruct (updateSlurm_writes_slurm slurmFile (tick_slurm t) s) as (H1 & H2 & _).
      done. }
  destruct Hs as (Hs1 & Hs2 & Hs3).
  destruct (updateFile_frame file (tick_ts t) (tick_change t) (tick_cache t) rs.1.1)
    as (Hf1 & Hf2 & Hf3 & Hf4 & Hf5 & _ & Hf7).
  set (rf := updateFile file (tick_ts t) (tick_change t) (tick_cache t) rs.1.1) in *.
  assert (Hn : forall s3, s3 = (if rf.2.1 || rs.2.1
                                then updateFromNewState CacheBin (tick_now t) rf.1.1
                                else (rf.1.1, [], None)).1.1 ->
               s3 = set_exported rf.1.1 (exported s3)).
  { intros s3 ->. destruct (rf.2.1 || rs.2.1); cbn [fst].
    - apply updateFromNewState_frame.
    - by rewrite set_exported_eta. }
  specialize (Hn _ eq_refl). rewrite Hn. cbn [set_exported sendNotifs checktime metricsEvent
                                              useSerial lastts slurm].
  rewrite Hf1, Hf2, Hf3, Hf4, Hf5, Hf7, Hs1.
  cbn [set_slurm sendNotifs checktime metricsEvent useSerial slurm].
  split_and!; try done.
  intros Hempty. by rewrite (Hs3 Hempty).
Qed.

(** The time check reads the decoded document only. *)
Lemma stale_or_unparsable_lastdata (now : Time) (s s' : state) :
  lastdata s' = lastdata s -> stale_or_unparsable now s' <-> stale_or_unparsable now s.
Proof. unfold stale_or_unparsable. by intros ->. Qed.

End RoundFacts.

(** X12. A round of the refresh loop in which neither the cache nor the
    SLURM file was updated does not run [updateFromNewState]: no call reaches
    the server, and the state is as before but for [lastts], the time of the
    attempt. *)
Theorem X12_round_without_update `{E : Externals} (CacheBin file : string) (interval : Z)
    (slurmFile : string) (t : Tick) (s : state) :
  let r := routineUpdate_round CacheBin file interval slurmFile t s in
  cacheUpdated r.2 = false ->
  slurmFile = "" \/ (updateSlurm slurmFile (tick_slurm t) s).2.1 = false ->
  existsb calls_server (round_events r.2) = false
  /\ r.1 = set_lastts s (tick_ts t).
Proof.
  cbv zeta. rewrite routineUpdate_round_eq. cbv zeta. cbn [fst snd cacheUpdated round_events].
  intros Hcache Hslurm.
  set (rs := if negb (slurmFile =? "")%string
             then updateSlurm slurmFile (tick_slurm t) s
             else (s, [], (false, None))) in *.
  assert (Hs : rs.1.1 = s /\ rs.2.1 = false /\ existsb calls_server rs.1.2 = false).
  { unfold rs. destruct (String.eqb_spec slurmFile "") as [->|Hne]; cbn [negb fst snd];
      [done |].
    destruct Hslurm as [?|Hfalse]; [done |].
    destruct (updateSlurm_writes_slurm slurmFile (tick_slurm t) s) as (_ & _ & Hsame).
    destruct (updateSlurm_frame slurmFile (tick_slurm t) s) as (Hev & _).
    split_and!; [by apply Hsame | done | done]. }
  destruct Hs as (Hs1 & Hs2 & Hs3). rewrite Hs1 in *. rewrite Hs2, Hcache. cbn [orb fst snd].
  destruct (updateFile_not_updated file (tick_ts t) (tick_change t) (tick_cache t) s)
    as (Hev & _).
  split.
  - rewrite !existsb_app, Hs3, Hev. done.
  - by apply updateFile_quiet.
Qed.

(** The sample document fetched again in the next round, with no SLURM
    file: the round sets its timer and the refresh metrics, and no more. *)
Lemma X12_round_without_update_witness :
  let s := (run_startup (E := Sample.externals) "cache" "" (Sample.tick [1; 1; 7] 100)
              (initial_state false true false)).1.1 in
  let r := routineUpdate_round (E := Sample.externals) "cache" "cache" 600 ""
             (Sample.tick [1; 1; 7] 700) s in
  existsb calls_server (round_events r.2) = false
  /\ lastts r.1 = 700 /\ lastchange r.1 = 100.
Proof.
  intros s r.
  destruct (X12_round_without_update (E := Sample.externals) "cache" "cache" 600 ""
              (Sample.tick [1; 1; 7] 700) s) as [Hev Hst].
  - reflexivity.
  - by left.
  - fold r in Hev, Hst. split; [exact Hev |]. rewrite Hst. split; reflexivity.
Defined.

(** X13. With a SLURM file to refresh, a round that fetches and decodes it
    runs [updateFromNewState] although the cache is unchanged: with a decoded
    document that passes the time check, the round hands the server the
    document under the fresh policy again, notifies the clients when
    [sendNotifs] is set, and exports that list. *)
Theorem X13_slurm_update_reinstalls `{E : Externals} (CacheBin file : string) (interval : Z)
    (slurmFile : string) (t : Tick) (s : state) (sl : SlurmConfig) :
  slurmFile <> "" ->
  fetch_err (tick_slurm t) = None ->
  DecodeJSONSlurm (fetch_data (tick_slurm t)) = Ok sl ->
  Data (lastdata s) <> None ->
  checktime s = false \/ ~ stale_or_unparsable (tick_now t) s ->
  let r := routineUpdate_round CacheBin file interval slurmFile t s in
  cacheUpdated r.2 = false ->
  let post := append (FilterOnVRPs sl (Data (lastdata s))).1 (AssertVRPs sl) in
  (exists pre rest,
     round_events r.2
     = pre ++ AddVRPs (processData (elems post)).1.1.1
           :: (if sendNotifs s then [NotifyClientsLatest] else []) ++ rest
     /\ existsb calls_server pre = false /\ existsb calls_server rest = false)
  /\ Data (exported r.1) = post
  /\ slurm r.1 = Some sl.
Proof.
  intros Hfile Hfetch Hdecode Hdata Hfresh. cbv zeta.
  rewrite routineUpdate_round_eq. cbv zeta. cbn [fst snd cacheUpdated round_events].
  destruct (String.eqb_spec slurmFile "") as [?|_]; [done |]. cbn [negb].
  assert (Hs : updateSlurm slurmFile (tick_slurm t) s
               = (set_slurm s (Some sl), fetch_metrics slurmFile (tick_slurm t) s,
                  (true, None))).
  { unfold updateSlurm. by rewrite Hfetch, Hdecode. }
  rewrite Hs. cbn [fst snd]. intros Hcache.
  rewrite (updateFile_quiet _ _ _ _ _ Hcache). rewrite Hcache. cbn [orb].
  destruct (updateFile_not_updated file (tick_ts t) (tick_change t) (tick_cache t)
              (set_slurm s (Some sl))) as (Hev & _).
  set (s2 := set_lastts (set_slurm s (Some sl)) (tick_ts t)).
  rewrite (updateFromNewState_past_guards CacheBin (tick_now t) s2); [|done |].
  - cbn [fst snd exported set_exported Data].
    split_and!; [| done | done].
    exists ([NewTimer (delay interval s)] ++ fetch_metrics slurmFile (tick_slurm t) s
            ++ (updateFile file (tick_ts t) (tick_change t) (tick_cache t)
                  (set_slurm s (Some sl))).1.2),
           (install_metrics CacheBin s2).
    split_and!.
    + by rewrite <- !app_assoc.
    + rewrite !existsb_app, fetch_metrics_no_server_call, Hev. done.
    + apply install_metrics_no_server_call.
  - destruct Hfresh as [Hoff|Hfresh]; [by left | right].
    by rewrite (stale_or_unparsable_lastdata (tick_now t) s s2).
Qed.

(** A state with the sample document installed; the next round fetches the
    same document and a SLURM file: the two VRPs are handed to the server
    again. *)
Lemma X13_slurm_update_reinstalls_witness :
  let s := (run_startup (E := Sample.externals) "cache" "" (Sample.tick [1; 1; 7; 8] 100)
              (initial_state false true false)).1.1 in
  let r := routineUpdate_round (E := Sample.externals) "cache" "cache" 600 "slurm"
             (Sample.tick [1; 1; 7; 8] 700) s in
  existsb installs (round_events r.2) = true
  /\ exists pre rest vrps,
       round_events r.2 = pre ++ AddVRPs vrps :: [NotifyClientsLatest] ++ rest
       /\ length vrps = 2%nat.
Proof.
  intros s r. split; [vm_compute; reflexivity |].
  destruct (X13_slurm_update_reinstalls (E := Sample.externals) "cache" "cache" 600 "slurm"
              (Sample.tick [1; 1; 7; 8] 700) s {| Sample.drop := []; Sample.add := [] |})
    as ((pre & rest & Hev & _) & _).
  - discriminate.
  - reflexivity.
  - reflexivity.
  - vm_compute. discriminate.
  - by left.
  - reflexivity.
  - exists pre, rest. eexists. split; [exact Hev |]. vm_compute. reflexivity.
Defined.

(** X14. The refresh loop makes one round for every tick and never touches
    the configuration of the state: [sendNotifs], [checktime], the metrics
    handle and [useSerial] are as at the start after any number of rounds.
    A SLURM policy that was loaded is never dropped, and without a SLURM
    file to refresh the policy stays the one the loop started with. *)
Theorem X14_routineUpdate_keeps_configuration `{E : Externals} (CacheBin file : string)
    (interval : Z) (slurmFile : string) (ticks : list Tick) (s : state) :
  let r := routineUpdate CacheBin file interval slurmFile ticks s in
  length r.2 = length ticks
  /\ sendNotifs r.1 = sendNotifs s /\ checktime r.1 = checktime s
  /\ metricsEvent r.1 = metricsEvent s /\ useSerial r.1 = useSerial s
  /\ (slurm s <> None -> slurm r.1 <> None)
  /\ (slurmFile = "" -> slurm r.1 = slurm s).
Proof.
  cbv zeta. revert s. induction ticks as [|t ticks IH]; intros s; cbn [routineUpdate].
  - done.
  - destruct (routineUpdate_round_frame CacheBin file interval slurmFile t s)
      as (H1 & H2 & H3 & H4 & _ & H6 & H7).
    destruct (routineUpdate_round CacheBin file interval slurmFile t s) as [s' r0].
    specialize (IH s').
    destruct (routineUpdate CacheBin file interval slurmFile ticks s') as [s'' rs].
    cbn [fst snd length] in *.
    destruct IH as (I0 & I1 & I2 & I3 & I4 & I6 & I7).
    rewrite I0, I1, I2, I3, I4, H1, H2, H3, H4.
    split_and!; try done.
    + intros Hs. by apply I6, H6.
    + intros Hempty. by rewrite (I7 Hempty), (H7 Hempty).
Qed.

(** ** The first synchronisation *)

Section StartupFacts.
Context `{E : Externals}.

(** The VRP set of an install is the processed list after SLURM. *)
Lemma updateFromNewState_installed (CacheBin : string) (now : Time) (s : state)
    (vrps : list VRP) :
  AddVRPs vrps ∈ (updateFromNewState CacheBin now s).1.2 ->
  Data (lastdata s) <> None
  /\ vrps = (processData (elems (post_slurm s))).1.1.1.
Proof.
  destruct (updateFromNewState_cases CacheBin now s) as [Hn|[(Hd & Hc & Hs)|[Hd Hf]]].
  - rewrite updateFromNewState_nil by done. by intros ?%elem_of_nil.
  - destruct (updateFromNewState_stale CacheBin now s Hd Hc Hs) as [err ->].
    by intros ?%elem_of_nil.
  - rewrite updateFromNewState_past_guards by done. cbn [fst snd].
    intros [Hv|Hin]%elem_of_cons; [by injection Hv as -> |].
    apply list_elem_of_In in Hin.
    pose proof (notify_metrics_no_install CacheBin s) as Hno.
    assert (Hex : existsb installs
                    ((if sendNotifs s then [NotifyClientsLatest] else [])
                     ++ install_metrics CacheBin s) = true).
    { apply existsb_exists. by exists (AddVRPs vrps). }
    congruence.
Qed.

Lemma no_install_not_elem (evs : list Event) (vrps : list VRP) :
  existsb installs evs = false -> AddVRPs vrps ∉ evs.
Proof.
  intros Hno Hin%list_elem_of_In.
  assert (Hex : existsb installs evs = true) by (apply existsb_exists; by exists (AddVRPs vrps)).
  congruence.
Qed.

Lemma updateFile_lastdata (file : string) (now1 now2 : Time) (fetched : FetchResult)
    (s : state) :
  lastdata (updateFile file now1 now2 fetched s).1.1
  = if (updateFile file now1 now2 fetched s).2.1
    then (decodeJSON (fetch_data fetched)).1 else lastdata s.
Proof.
  unfold updateFile.
  destruct (fetch_err fetched); [done |].
  destruct (match lasthash (set_lastts s now1) with
            | Some h => bytes_Compare h (newSHA256 (fetch_data fetched)) =? 0
            | None => false
            end); [done |].
  by destruct (decodeJSON (fetch_data fetched)) as [vrplistjson [err|]].
Qed.

End StartupFacts.

(** X15. The first synchronisation of [run] installs the first document
    under the SLURM policy fetched just before: a document that is fetched
    and decoded, has a list and passes the time check is handed to the
    server in any case.  When the SLURM file is fetched and decoded, the VRP
    set is the document filtered by that policy, followed by its assertions.
    A SLURM file that cannot be fetched or decoded does not hold the install
    back: the document is then installed as it is, as it is without a SLURM
    file.  No other VRP set is installed. *)
Theorem X15_startup_slurm `{E : Externals} (CacheBin Slurm : string) (t : Tick)
    (me SendNotifs TimeCheck : bool) :
  let doc := (decodeJSON (fetch_data (tick_cache t))).1 in
  fetch_err (tick_cache t) = None ->
  (decodeJSON (fetch_data (tick_cache t))).2 = None ->
  Data doc <> None ->
  TimeCheck = false
  \/ (exists buildtime, time_Parse_RFC3339 (Buildtime (Metadata doc)) = Ok buildtime
                        /\ tick_now t <= buildtime + 24 * Hour) ->
  let r := run_startup CacheBin Slurm t (initial_state me SendNotifs TimeCheck) in
  let plain := (processData (elems (Data doc))).1.1.1 in
  let under sl :=
    (processData (elems (append (FilterOnVRPs sl (Data doc)).1 (AssertVRPs sl)))).1.1.1 in
  r.1.2 = true
  /\ lastdata r.1.1 = doc
  /\ (forall sl, Slurm <> "" -> fetch_err (tick_slurm t) = None ->
        DecodeJSONSlurm (fetch_data (tick_slurm t)) = Ok sl ->
        AddVRPs (under sl) ∈ r.2 /\ slurm r.1.1 = Some sl
        /\ forall vrps, AddVRPs vrps ∈ r.2 -> vrps = under sl)
  /\ (Slurm = ""
      \/ fetch_err (tick_slurm t) <> None
      \/ (exists e, DecodeJSONSlurm (fetch_data (tick_slurm t)) = Err e) ->
      AddVRPs plain ∈ r.2 /\ slurm r.1.1 = None
      /\ forall vrps, AddVRPs vrps ∈ r.2 -> vrps = plain).
Proof.
  cbv zeta. intros Hfetch Hdec Hdata Hfresh. unfold run_startup.
  set (s0 := initial_state me SendNotifs TimeCheck).
  pose proof (updateFile_fetched CacheBin (tick_ts t) (tick_change t) (tick_cache t) s0
                Hfetch) as Hfile.
  cbv zeta in Hfile. rewrite Hdec in Hfile. cbn [lasthash s0 initial_state] in Hfile.
  rewrite bool_decide_eq_false_2 in Hfile by done.
  pose proof (updateFile_no_install CacheBin (tick_ts t) (tick_change t) (tick_cache t) s0)
    as Hno1.
  rewrite Hfile in *. cbn [fst snd] in Hno1.
  set (s1 := set_last (set_lastts s0 (tick_ts t)) (newSHA256 (fetch_data (tick_cache t)))
               (tick_change t) (decodeJSON (fetch_data (tick_cache t))).1) in *.
  set (ev1 := fetch_metrics CacheBin (tick_cache t) (set_lastts s0 (tick_ts t))) in *.
  set (rs := if negb (Slurm =? "")%string
             then let '(s', ev, _) := updateSlurm Slurm (tick_slurm t) s1 in (s', ev)
             else (s1, [])).
  assert (Hrs : lastdata rs.1 = lastdata s1 /\ checktime rs.1 = checktime s1
                /\ existsb installs rs.2 = false
                /\ (forall sl, Slurm <> "" -> fetch_err (tick_slurm t) = None ->
                      DecodeJSONSlurm (fetch_data (tick_slurm t)) = Ok sl ->
                      slurm rs.1 = Some sl)
                /\ (Slurm = ""
                    \/ fetch_err (tick_slurm t) <> None
                    \/ (exists e, DecodeJSONSlurm (fetch_data (tick_slurm t)) = Err e) ->
                    slurm rs.1 = None)).
  { unfold rs. destruct (String.eqb_spec Slurm "") as [->|Hne]; cbn [negb fst snd].
    - split_and!; [done | done | done | done | by intros _].
    - pose proof (updateSlurm_no_install Slurm (tick_slurm t) s1) as Hno.
      revert Hno. unfold updateSlurm.
      destruct (fetch_err (tick_slurm t)) as [e|]; cbn [fst snd].
      + intros _. split_and!; [done | done | done | done | by intros _].
      + destruct (DecodeJSONSlurm (fetch_data (tick_slurm t))) as [sl|e]; cbn [fst snd].
        * intros Hno. split_and!; [done | done | done | by intros ? _ _ [= ->] |].
          intros [?|[?|[e ?]]]; done.
        * intros Hno. split_and!; [done | done | done | done | by intros _]. }
  destruct rs as [s2 ev2]. cbn [fst snd] in Hrs.
  destruct Hrs as (Hd2 & Hc2 & Hno2 & Hok & Hfail).
  assert (Hdata2 : Data (lastdata s2) <> None) by (by rewrite Hd2).
  assert (Hfresh2 : checktime s2 = false \/ ~ stale_or_unparsable (tick_now t) s2).
  { destruct Hfresh as [->|(buildtime & Hparse & Hnow)]; [left; by rewrite Hc2 | right].
    unfold stale_or_unparsable. rewrite Hd2. cbn [lastdata s1 set_last].
    rewrite Hparse. lia. }
  pose proof (updateFromNewState_installed CacheBin (tick_now t) s2) as Honly.
  rewrite (updateFromNewState_past_guards CacheBin (tick_now t) s2 Hdata2 Hfresh2) in *.
  cbn [fst snd lastdata slurm set_exported] in *.
  assert (Hinstall : AddVRPs (processData (elems (post_slurm s2))).1.1.1
                     ∈ ev1 ++ ev2
                       ++ AddVRPs (processData (elems (post_slurm s2))).1.1.1
                          :: (if sendNotifs s2 then [NotifyClientsLatest] else [])
                          ++ install_metrics CacheBin s2).
  { rewrite !elem_of_app. right. right. by left. }
  assert (Hunique : forall vrps,
            AddVRPs vrps
            ∈ ev1 ++ ev2
              ++ AddVRPs (processData (elems (post_slurm s2))).1.1.1
                 :: (if sendNotifs s2 then [NotifyClientsLatest] else [])
                 ++ install_metrics CacheBin s2 ->
            vrps = (processData (elems (post_slurm s2))).1.1.1).
  { intros vrps [Hin|[Hin|Hin]%elem_of_app]%elem_of_app.
    - by apply no_install_not_elem in Hin.
    - by apply no_install_not_elem in Hin.
    - by apply Honly in Hin as [_ ->]. }
  revert Hinstall Hunique. unfold post_slurm. rewrite Hd2. cbn [lastdata s1 set_last].
  intros Hinstall Hunique.
  split_and!; [done | done | |].
  - intros sl H1 H2 H3. rewrite (Hok sl H1 H2 H3) in *. done.
  - intros H. rewrite (Hfail H) in *. done.
Qed.

(** The sample document with entries 7 and 8 at start-up.  With a SLURM
    document that drops the prefix of entry 7, entry 8 alone is installed;
    with a SLURM file that cannot be fetched, both entries are. *)
Lemma X15_startup_slurm_witness :
  let failed := {| fetch_data := []; fetch_code := 404; fetch_lastrefresh := false;
                   fetch_err := Some (LibError "404 Not Found") |} in
  let tick slurm := {| tick_slurm := slurm; tick_cache := Sample.fetched [1; 1; 7; 8];
                       tick_ts := 100; tick_change := 100; tick_now := 100 |} in
  let start slurm := run_startup (E := Sample.externals_wide) "cache" "slurm" (tick slurm)
                       (initial_state false true false) in
  let v7 := {| VRP_Prefix := {| net.IP_ := [10; 0; 7; 0]; net.Mask := [255; 255; 255; 0] |};
               VRP_ASN := 1; MaxLen := 24 |} in
  let v8 := {| VRP_Prefix := {| net.IP_ := [10; 0; 8; 0]; net.Mask := [255; 255; 255; 0] |};
               VRP_ASN := 1; MaxLen := 24 |} in
  AddVRPs [v8] ∈ (start (Sample.fetched [7])).2
  /\ AddVRPs [v7; v8] ∈ (start failed).2.
Proof.
  intros failed tick start v7 v8. split.
  - destruct (X15_startup_slurm (E := Sample.externals_wide) "cache" "slurm"
                (tick (Sample.fetched [7])) false true false)
      as (_ & _ & Hok & _); [reflexivity | reflexivity | discriminate | by left |].
    destruct (Hok {| Sample.drop := ["10.0.7.0/24"]; Sample.add := [] |})
      as (Hin & _); [discriminate | reflexivity | reflexivity |].
    exact Hin.
  - destruct (X15_startup_slurm (E := Sample.externals_wide) "cache" "slurm"
                (tick failed) false true false)
      as (_ & _ & _ & Hplain); [reflexivity | reflexivity | discriminate | by left |].
    destruct Hplain as (Hin & _); [right; left; discriminate |].
    exact Hin.
Defined.

Section LoopPolicy.
Context `{E : Externals}.

(** Without a SLURM file the loop leaves the policy alone. *)
Lemma routineUpdate_no_slurm_file (CacheBin file : string) (interval : Z)
    (ticks : list Tick) (s : state) :
  slurm (routineUpdate CacheBin file interval "" ticks s).1 = slurm s.
Proof.
  revert s. induction ticks as [|t ticks IH]; intros s; cbn [routineUpdate]; [done |].
  destruct (routineUpdate_round_frame CacheBin file interval "" t s)
    as (_ & _ & _ & _ & _ & _ & Hslurm).
  destruct (routineUpdate_round CacheBin file interval "" t s) as [s' r0].
  specialize (IH s').
  destruct (routineUpdate CacheBin file interval "" ticks s') as [s'' rs].
  cbn [fst snd] in *. by rewrite IH, Hslurm.
Qed.

End LoopPolicy.

(** X16. With [slurm.refresh] off, [run] reads the SLURM file once: the
    policy in force after any number of rounds of the refresh loop is the
    one the first synchronisation left, and the calls of the first
    synchronisation are those of [run_startup] whatever the loop does
    afterwards. *)
Theorem X16_slurm_refresh_off `{E : Externals} (CacheBin Slurm : string)
    (RefreshInterval : Z) (me SendNotifs TimeCheck : bool) (t0 : Tick) (ticks : list Tick) :
  let startup := run_startup CacheBin Slurm t0 (initial_state me SendNotifs TimeCheck) in
  let r := run_refresh CacheBin Slurm false RefreshInterval me SendNotifs TimeCheck t0 ticks in
  slurm r.1.1.1 = slurm startup.1.1
  /\ r.1.2 = startup.2
  /\ r.2 = (routineUpdate CacheBin CacheBin RefreshInterval "" ticks startup.1.1).2.
Proof.
  cbv zeta. unfold run_refresh. cbn [negb].
  destruct (run_startup CacheBin Slurm t0 (initial_state me SendNotifs TimeCheck))
    as [[s updated] evs].
  cbn [fst snd].
  pose proof (routineUpdate_no_slurm_file CacheBin CacheBin RefreshInterval ticks s) as Hslurm.
  destruct (routineUpdate CacheBin CacheBin RefreshInterval "" ticks s) as [s' rounds].
  done.
Qed.

(** ** SSH password authentication and the server configuration *)

(** X17. The password callback grants access exactly when the user name is
    the configured one and the supplied bytes are those of the password,
    and refuses with one and the same error otherwise.  The password is the
    flag, or the environment variable when the flag is blank; with both
    blank the configured user is let in with the empty password. *)
Theorem X17_password_callback (SSHAuthUser SSHAuthPassword getenv user : string)
    (suppliedPassword : list Z) :
  let password := ssh_password SSHAuthPassword getenv in
  let answer := PasswordCallback SSHAuthUser password user suppliedPassword in
  (answer = Ok granted
   <-> user = SSHAuthUser /\ suppliedPassword = bytes_of_string password)
  /\ (answer = Ok granted \/ answer = Err (errors_New "Wrong user or password"))
  /\ (SSHAuthPassword <> "" -> password = SSHAuthPassword)
  /\ (SSHAuthPassword = "" -> password = getenv)
  /\ (SSHAuthPassword = "" -> getenv = "" ->
      PasswordCallback SSHAuthUser password SSHAuthUser [] = Ok granted).
Proof.
  cbv zeta. unfold PasswordCallback, bytes_Equal, ssh_password.
  split_and!.
  - destruct (String.eqb_spec user SSHAuthUser) as [->|Hne]; cbn [negb orb].
    + destruct (bool_decide_reflect
                  (suppliedPassword
                   = bytes_of_string (if (SSHAuthPassword =? "")%string
                                      then getenv else SSHAuthPassword)));
        cbn [negb]; split; try done. by intros [_ ?].
    + split; [done | by intros [? _]].
  - destruct (negb (user =? SSHAuthUser)%string || _); [by right | by left].
  - intros Hflag. by destruct (String.eqb_spec SSHAuthPassword "").
  - by intros ->.
  - intros -> ->. rewrite String.eqb_refl. cbn [negb orb].
    by rewrite bool_decide_eq_true_2.
Qed.

(** X18. The server configuration [run] builds from the flags: the protocol
    version is looked up in [protoverToLib], and a [protocol] flag other
    than 0 or 1 gives version byte 0; the three timers are the flags taken
    modulo 2^32, so a flag in range is passed on as it is and no other is;
    [KeepDifference] is 3 and the session id is the flag. *)
Theorem X18_server_configuration (PROTOCOL_VERSION_0 PROTOCOL_VERSION_1 : Z)
    (RTRVersion SessionID : Z) (verbose : bool) (RefreshRTR RetryRTR ExpireRTR : Z) :
  let c := sc PROTOCOL_VERSION_0 PROTOCOL_VERSION_1 RTRVersion SessionID verbose
             RefreshRTR RetryRTR ExpireRTR in
  ProtocolVersion c
  = (if RTRVersion =? 0 then PROTOCOL_VERSION_0
     else if RTRVersion =? 1 then PROTOCOL_VERSION_1 else 0)
  /\ KeepDifference c = 3 /\ SessId c = SessionID
  /\ (RefreshInterval c = RefreshRTR <-> 0 <= RefreshRTR < 2 ^ 32)
  /\ (RetryInterval c = RetryRTR <-> 0 <= RetryRTR < 2 ^ 32)
  /\ (ExpireInterval c = ExpireRTR <-> 0 <= ExpireRTR < 2 ^ 32)
  /\ (0 <= RefreshInterval c < 2 ^ 32 /\ (RefreshInterval c - RefreshRTR) mod 2 ^ 32 = 0).
Proof.
  cbv zeta. unfold sc, map_index, protoverToLib, uint32.
  cbn [ProtocolVersion KeepDifference SessId RefreshInterval RetryInterval ExpireInterval].
  assert (Hwrap : forall n, n mod 4294967296 = n <-> 0 <= n < 2 ^ 32).
  { intros n. change (2 ^ 32) with 4294967296. split.
    - intros <-. apply Z.mod_pos_bound. lia.
    - intros Hn. by apply Z.mod_small. }
  repeat apply conj; [| done | done | apply Hwrap.. | | |].
  - destruct (Z.eqb_spec RTRVersion 0) as [->|H0].
    + by rewrite lookup_insert_eq.
    + rewrite lookup_insert_ne by done.
      destruct (Z.eqb_spec RTRVersion 1) as [->|H1].
      * by rewrite lookup_insert_eq.
      * by rewrite lookup_insert_ne, lookup_empty by done.
  - apply Z.mod_pos_bound. lia.
  - change (2 ^ 32) with 4294967296. apply Z.mod_pos_bound. lia.
  - change (2 ^ 32) with 4294967296.
    rewrite Zminus_mod, Z.mod_mod, Z.sub_diag by lia. done.
Qed.

(** ** The authorized keys as a text of lines *)

Lemma has_char_app (c : ascii) (a b : string) :
  has_char c (a ++ b)%string = has_char c a || has_char c b.
Proof.
  induction a as [|x a IH]; [done |].
  change (has_char c (String x (a ++ b)%string) = has_char c (String x a) || has_char c b).
  cbn [has_char]. by rewrite IH, orb_assoc.
Qed.

Lemma Split_not_nil (s : string) (sep : ascii) : Split s sep <> [].
Proof.
  destruct s as [|c s]; cbn [Split]; [done |].
  destruct (Ascii.eqb c sep); [done |]. by destruct (Split s sep).
Qed.

(** A string without the separator is one field. *)
Lemma Split_single (s : string) (sep : ascii) :
  has_char sep s = false -> Split s sep = [s].
Proof.
  induction s as [|c s IH]; cbn [has_char Split]; [done |].
  intros [Hc Hs]%orb_false_iff. rewrite Hc, (IH Hs). done.
Qed.

(** [Split] cuts at every separator. *)
Lemma Split_app_sep (a b : string) (sep : ascii) :
  Split (a ++ String sep b)%string sep = Split a sep ++ Split b sep.
Proof.
  induction a as [|c a IH].
  - change (Split (String sep b) sep = [""] ++ Split b sep).
    cbn [Split]. by rewrite Ascii.eqb_refl.
  - change (Split (String c (a ++ String sep b)%string) sep
            = Split (String c a) sep ++ Split b sep).
    cbn [Split]. rewrite IH. destruct (Ascii.eqb c sep); [done |].
    pose proof (Split_not_nil a sep). by destruct (Split a sep).
Qed.

(** Splitting what [Join] made of fields without the separator gives the
    fields back. *)
Lemma Split_Join (l : list string) (sep : ascii) :
  l <> [] -> Forall (fun s => has_char sep s = false) l ->
  Split (Join l (String sep "")) sep = l.
Proof.
  unfold Join. intros Hne Hall. induction Hall as [|x l Hx Hl IH]; [done |].
  destruct l as [|y l].
  - by apply Split_single.
  - change (String.concat (String sep "") (x :: y :: l))
      with (x ++ String sep (String.concat (String sep "") (y :: l)))%string.
    rewrite Split_app_sep, (Split_single x sep Hx), IH by done. done.
Qed.

(** The base64 alphabet has no line feed. *)
Lemma b64_not_newline (n : Z) : Ascii.eqb (b64 n) (ascii_of_nat 10) = false.
Proof.
  unfold b64.
  assert (Hall : forallb (fun c => negb (Ascii.eqb c (ascii_of_nat 10))) encodeStd = true)
    by (vm_compute; reflexivity).
  rewrite forallb_forall in Hall.
  assert (Hidx : (Z.to_nat (Z.land n 63) < length encodeStd)%nat).
  { change 63 with (Z.ones 6). rewrite Z.land_ones by lia.
    pose proof (Z.mod_pos_bound n (2 ^ 6) ltac:(lia)).
    change (length encodeStd) with 64%nat. change (2 ^ 6) with 64 in *. lia. }
  specialize (Hall _ (nth_In encodeStd "A"%char Hidx)).
  by apply negb_true_iff in Hall.
Qed.

Lemma EncodeToString_single_line (src : list Z) : single_line (EncodeToString src).
Proof.
  unfold single_line.
  assert (Hgen : forall (n : nat) (src : list Z), (length src <= n)%nat ->
                 has_char (ascii_of_nat 10) (EncodeToString src) = false).
  { clear src. induction n as [|n IH]; intros src Hlen.
    - destruct src; [done | cbn [length] in Hlen; lia].
    - destruct src as [|a [|b [|c rest]]]; cbn [EncodeToString has_char]; cbv zeta.
      + done.
      + by rewrite !b64_not_newline.
      + by rewrite !b64_not_newline.
      + rewrite !b64_not_newline. cbn [orb]. apply IH. cbn [length] in Hlen. lia. }
  by apply (Hgen (length src)).
Qed.

(** X19. A key listed in the authorized keys is accepted: when the text
    read from the file or the environment is made of lines, one of which is
    the type of the key, a space, the unpadded base64 of the key and any
    rest of the line, [strings.Split] gives these lines back and the
    callback, with the bypass off, grants access, wherever the line stands
    in the text. *)
Theorem X19_listed_key_accepted (lines1 lines2 : list string) (comment : string)
    (key : PublicKey) :
  Forall single_line (lines1 ++ lines2) ->
  single_line (Type_ key) ->
  single_line comment ->
  let line := (Type_ key ++ " " ++ EncodeToString (Marshal key) ++ comment)%string in
  let sshClientKeysToDecode := Join (lines1 ++ line :: lines2) newline in
  let sshClientKeys := Split sshClientKeysToDecode (ascii_of_nat 10) in
  sshClientKeys = lines1 ++ line :: lines2
  /\ PublicKeyCallback false sshClientKeys key = Ok granted.
Proof.
  intros Hlines Htype Hcomment line text keys.
  assert (Hline : single_line line).
  { unfold single_line, line in *.
    rewrite !has_char_app, Htype, Hcomment, (EncodeToString_single_line (Marshal key)).
    reflexivity. }
  assert (Hkeys : keys = lines1 ++ line :: lines2).
  { unfold keys, text, newline. apply Split_Join; [by destruct lines1 |].
    apply Forall_app in Hlines as [H1 H2]. apply Forall_app. split; [done |].
    by apply Forall_cons. }
  split; [done |].
  unfold PublicKeyCallback. cbn [negb].
  assert (Hfound : noKeys_after (Type_ key ++ " " ++ EncodeToString (Marshal key))%string keys
                   = true).
  { apply noKeys_after_spec. exists line. split_and!.
    - rewrite Hkeys. apply elem_of_app. right. by left.
    - unfold line. by destruct (Type_ key).
    - exists comment. unfold line. by rewrite !append_assoc. }
  by rewrite Hfound.
Qed.

(** An authorized-keys text of three lines with the key on the second. *)
Lemma X19_listed_key_accepted_witness :
  let key := {| Type_ := "ssh-ed25519"; Marshal := [77; 97; 110] |} in
  let text := ("ssh-rsa QUJD admin" ++ newline
               ++ "ssh-ed25519 TWFu router@example" ++ newline
               ++ "# end")%string in
  PublicKeyCallback false (Split text (ascii_of_nat 10)) key = Ok granted.
Proof.
  intros key text.
  apply (X19_listed_key_accepted ["ssh-rsa QUJD admin"] ["# end"] " router@example" key).
  - repeat constructor.
  - reflexivity.
  - reflexivity.
Defined.

(** ** The refresh gauge *)

Section RefreshGauge.
Context `{E : Externals}.

Lemma fetch_metrics_refresh (file : string) (fetched : FetchResult) (s : state) :
  fetch_lastrefresh fetched = true ->
  GaugeSet "rpki_refresh" [file] (Z.quot (UnixNano (lastts s)) 1000000000)
  ∈ fetch_metrics file fetched s.
Proof. unfold fetch_metrics. intros ->. apply elem_of_app. left. by left. Qed.

Lemma updateSlurm_events (file : string) (fetched : FetchResult) (s : state) :
  fetch_err fetched = None ->
  (updateSlurm file fetched s).1.2 = fetch_metrics file fetched s
  /\ lastts (updateSlurm file fetched s).1.1 = lastts s.
Proof.
  unfold updateSlurm. intros ->. by destruct (DecodeJSONSlurm (fetch_data fetched)).
Qed.

Lemma updateFile_events (file : string) (now1 now2 : Time) (fetched : FetchResult)
    (s : state) :
  fetch_err fetched = None ->
  (updateFile file now1 now2 fetched s).1.2 = fetch_metrics file fetched (set_lastts s now1).
Proof.
  intros Hfetch. rewrite updateFile_fetched by done. cbv zeta.
  destruct (bool_decide _); [done |].
  by destruct (decodeJSON (fetch_data fetched)).2.
Qed.

End RefreshGauge.

(** X20. The gauge [rpki_refresh] is set from [lastts], and [lastts] is
    written by [updateFile] alone, at the start of each of its calls;
    [updateSlurm] and [updateFromNewState] leave it as it is.  In a round of
    the refresh loop the SLURM file is fetched before the cache: after a
    round whose cache fetch was made at [tick_ts t1], the first call of the
    next round sets the gauge of the SLURM file to the seconds of
    [tick_ts t1], the time of the round before, while the gauge of the cache
    shows the time of the round itself.  In the first synchronisation the
    cache is fetched first and both gauges show the same time.  The seconds
    are those of [UnixNano], which is an [int64]. *)
Theorem X20_refresh_gauge_times `{E : Externals} (CacheBin file : string) (interval : Z)
    (slurmFile : string) (t1 t2 : Tick) (s : state) :
  slurmFile <> "" ->
  fetch_err (tick_slurm t2) = None -> fetch_lastrefresh (tick_slurm t2) = true ->
  fetch_err (tick_cache t2) = None -> fetch_lastrefresh (tick_cache t2) = true ->
  let seconds (ts : Time) := Z.quot (UnixNano ts) 1000000000 in
  let r1 := routineUpdate_round CacheBin file interval slurmFile t1 s in
  let r2 := routineUpdate_round CacheBin file interval slurmFile t2 r1.1 in
  let startup := (run_startup CacheBin slurmFile t2 s).2 in
  ((forall f fetched s0, lastts (updateSlurm f fetched s0).1.1 = lastts s0)
   /\ (forall now s0, lastts (updateFromNewState CacheBin now s0).1.1 = lastts s0)
   /\ (forall f now1 now2 fetched s0, lastts (updateFile f now1 now2 fetched s0).1.1 = now1))
  /\ lastts r1.1 = tick_ts t1
  /\ (exists rest,
        round_events r2.2
        = NewTimer (round_delay r2.2)
            :: GaugeSet "rpki_refresh" [slurmFile] (seconds (tick_ts t1)) :: rest)
  /\ GaugeSet "rpki_refresh" [file] (seconds (tick_ts t2)) ∈ round_events r2.2
  /\ GaugeSet "rpki_refresh" [slurmFile] (seconds (tick_ts t2)) ∈ startup
  /\ GaugeSet "rpki_refresh" [CacheBin] (seconds (tick_ts t2)) ∈ startup.
Proof.
  intros Hfile Hs Hsr Hc Hcr. cbv zeta.
  assert (Hne : negb (slurmFile =? "")%string = true)
    by (by destruct (String.eqb_spec slurmFile "")).
  destruct (routineUpdate_round_frame CacheBin file interval slurmFile t1 s)
    as (_ & _ & _ & _ & Hts1 & _).
  split_and!.
  - intros f fetched s0.
    destruct (updateSlurm_writes_slurm f fetched s0) as (Hframe & _). by rewrite Hframe.
  - intros now s0. by rewrite (updateFromNewState_frame CacheBin now s0).
  - intros f now1 now2 fetched s0.
    by destruct (updateFile_frame f now1 now2 fetched s0) as (_ & _ & _ & _ & _ & _ & Hts).
  - done.
  - rewrite routineUpdate_round_eq. cbv zeta. cbn [snd round_events round_delay]. rewrite Hne.
    destruct (updateSlurm_events slurmFile (tick_slurm t2)
                (routineUpdate_round CacheBin file interval slurmFile t1 s).1 Hs) as [-> _].
    unfold fetch_metrics at 1. rewrite Hsr, Hts1. cbn [app]. by eexists.
  - rewrite routineUpdate_round_eq. cbv zeta. cbn [snd round_events]. rewrite Hne.
    rewrite updateFile_events by done.
    rewrite !elem_of_app. right. right. left.
    by apply (fetch_metrics_refresh file (tick_cache t2) (set_lastts _ (tick_ts t2))).
  - unfold run_startup. rewrite Hne.
    pose proof (updateFile_frame CacheBin (tick_ts t2) (tick_change t2) (tick_cache t2) s)
      as (_ & _ & _ & _ & _ & _ & Hts).
    destruct (updateFile CacheBin (tick_ts t2) (tick_change t2) (tick_cache t2) s)
      as [[s1 ev1] [updated err1]].
    cbn [fst snd] in Hts.
    pose proof (updateSlurm_events slurmFile (tick_slurm t2) s1 Hs) as [Hev _].
    destruct (updateSlurm slurmFile (tick_slurm t2) s1) as [[s2 ev2] res2].
    destruct (updateFromNewState CacheBin (tick_now t2) s2) as [[s3 ev3] err3].
    cbn [fst snd] in *. rewrite Hev, !elem_of_app. right. left. rewrite <- Hts.
    by apply fetch_metrics_refresh.
  - unfold run_startup. rewrite Hne.
    pose proof (updateFile_events CacheBin (tick_ts t2) (tick_change t2) (tick_cache t2) s Hc)
      as Hev.
    destruct (updateFile CacheBin (tick_ts t2) (tick_change t2) (tick_cache t2) s)
      as [[s1 ev1] [updated err1]].
    destruct (updateSlurm slurmFile (tick_slurm t2) s1) as [[s2 ev2] res2].
    destruct (updateFromNewState CacheBin (tick_now t2) s2) as [[s3 ev3] err3].
    cbn [fst snd] in *. rewrite Hev, !elem_of_app. left.
    by apply (fetch_metrics_refresh CacheBin (tick_cache t2) (set_lastts _ (tick_ts t2))).
Qed.

(** Two rounds, 1700000000 and 1700000600 seconds after 1970: in the second
    round the gauge of the SLURM file is set to the time of the first. *)
Lemma X20_refresh_gauge_times_witness :
  let at_unix (secs : Z) : Time := (62135596800 + secs) * Second in
  let s := initial_state (E := Sample.externals) true true false in
  let r1 := routineUpdate_round (E := Sample.externals) "cache" "cache" 600 "slurm"
              (Sample.tick [1; 1; 7] (at_unix 1700000000)) s in
  let round := round_events
                 (routineUpdate_round (E := Sample.externals) "cache" "cache" 600 "slurm"
                    (Sample.tick [1; 1; 7] (at_unix 1700000600)) r1.1).2 in
  (exists timer rest,
     round = timer :: GaugeSet "rpki_refresh" ["slurm"] 1700000000 :: rest)
  /\ GaugeSet "rpki_refresh" ["cache"] 1700000600 ∈ round.
Proof.
  intros at_unix s r1 round.
  destruct (X20_refresh_gauge_times (E := Sample.externals) "cache" "cache" 600 "slurm"
              (Sample.tick [1; 1; 7] (at_unix 1700000000))
              (Sample.tick [1; 1; 7] (at_unix 1700000600)) s)
    as (_ & _ & (rest & Hslurm) & Hcache & _); [discriminate | reflexivity..|].
  split.
  - eexists _, rest. exact Hslurm.
  - exact Hcache.
Defined.

(** ** Every install, from start-up on *)

Section EveryInstall.
Context `{E : Externals}.

(** What [processData] returns has one entry for a key and keeps the bound
    taken on the mask, whatever list it was given. *)
Lemma processData_clean (l : list VRPJson) :
  (forall v p, GetPrefix2 v = Ok p -> well_formed p) ->
  NoDup (vrp_key <$> (processData l).1.1.1)
  /\ forall vrp, vrp ∈ (processData l).1.1.1 -> within_mask (VRP_Prefix vrp) (MaxLen vrp).
Proof.
  intros Hwf. unfold processData. cbn [fst].
  destruct (processed_fold l) as [_ Hnodup Hkept _ _ _].
  split; [done |].
  intros vrp Hin. apply Hkept, list_elem_of_omap in Hin as (v & Hv & Hing).
  unfold ingest in Hing.
  destruct (GetPrefix2 v) as [p|] eqn:Hp; [|done].
  destruct (GetASN2 v) as [asn|]; [|done].
  destruct (isValidPrefixLength p (Length v)) eqn:Hvalid; [|done].
  injection Hing as <-. cbn [VRP_Prefix MaxLen].
  apply isValidPrefixLength_bound; [by apply (Hwf v) | done].
Qed.

(** An install of a round is an install of its [updateFromNewState]. *)
Lemma routineUpdate_round_installed (CacheBin file : string) (interval : Z)
    (slurmFile : string) (t : Tick) (s : state) (vrps : list VRP) :
  AddVRPs vrps ∈ round_events (routineUpdate_round CacheBin file interval slurmFile t s).2 ->
  exists l, vrps = (processData l).1.1.1.
Proof.
  rewrite routineUpdate_round_eq. cbv zeta. cbn [snd round_events].
  set (rs := if negb (slurmFile =? "")%string
             then updateSlurm slurmFile (tick_slurm t) s
             else (s, [], (false, None))).
  assert (Hno1 : existsb installs rs.1.2 = false).
  { unfold rs. destruct (negb (slurmFile =? "")%string); [|done].
    apply updateSlurm_no_install. }
  pose proof (updateFile_no_install file (tick_ts t) (tick_change t) (tick_cache t) rs.1.1)
    as Hno2.
  intros [Hin|[Hin|[Hin|Hin]%elem_of_app]%elem_of_app]%elem_of_app.
  - apply list_elem_of_singleton in Hin. discriminate.
  - by apply no_install_not_elem in Hin.
  - by apply no_install_not_elem in Hin.
  - destruct (_ || _); [|by apply elem_of_nil in Hin].
    apply updateFromNewState_installed in Hin as [_ ->]. by eexists.
Qed.

Lemma routineUpdate_installed (CacheBin file : string) (interval : Z) (slurmFile : string)
    (ticks : list Tick) (s : state) (vrps : list VRP) :
  AddVRPs vrps
  ∈ concat (map round_events (routineUpdate CacheBin file interval slurmFile ticks s).2) ->
  exists l, vrps = (processData l).1.1.1.
Proof.
  revert s. induction ticks as [|t ticks IH]; intros s; cbn [routineUpdate].
  - by intros ?%elem_of_nil.
  - pose proof (routineUpdate_round_installed CacheBin file interval slurmFile t s vrps)
      as Hround.
    destruct (routineUpdate_round CacheBin file interval slurmFile t s) as [s' r0].
    specialize (IH s').
    destruct (routineUpdate CacheBin file interval slurmFile ticks s') as [s'' rs].
    cbn [fst snd map concat] in *.
    intros [Hin|Hin]%elem_of_app; [by apply Hround | by apply IH].
Qed.

Lemma run_startup_installed (CacheBin Slurm : string) (t : Tick) (s : state)
    (vrps : list VRP) :
  AddVRPs vrps ∈ (run_startup CacheBin Slurm t s).2 ->
  exists l, vrps = (processData l).1.1.1.
Proof.
  unfold run_startup.
  pose proof (updateFile_no_install CacheBin (tick_ts t) (tick_change t) (tick_cache t) s)
    as Hno1.
  destruct (updateFile CacheBin (tick_ts t) (tick_change t) (tick_cache t) s)
    as [[s1 ev1] [updated err1]].
  set (rs := if negb (Slurm =? "")%string
             then let '(s', ev, _) := updateSlurm Slurm (tick_slurm t) s1 in (s', ev)
             else (s1, [])).
  assert (Hno2 : existsb installs rs.2 = false).
  { unfold rs. destruct (negb (Slurm =? "")%string); [|done].
    pose proof (updateSlurm_no_install Slurm (tick_slurm t) s1) as Hno.
    by destruct (updateSlurm Slurm (tick_slurm t) s1) as [[s' ev] res]. }
  destruct rs as [s2 ev2].
  pose proof (updateFromNewState_installed CacheBin (tick_now t) s2 vrps) as Hinst.
  destruct (updateFromNewState CacheBin (tick_now t) s2) as [[s3 ev3] err3].
  cbn [fst snd] in *.
  intros [Hin|[Hin|Hin]%elem_of_app]%elem_of_app.
  - by apply no_install_not_elem in Hin.
  - by apply no_install_not_elem in Hin.
  - destruct (Hinst Hin) as [_ ->]. by eexists.
Qed.

End EveryInstall.

(** X21. Every VRP set the server is ever given, in the first
    synchronisation or in any round of the refresh loop, with or without a
    SLURM policy, went through [processData]: provided the prefix parser
    returns masks of four or sixteen bytes, no two of its entries share a
    key, and every entry has 0 < network_length <= max_length <= width of
    its mask (32 for four bytes, 128 for sixteen), which is the width of its
    family when its address and its mask are of one family.  The entries a
    SLURM policy asserts are held to the same bound as the fetched ones. *)
Theorem X21_every_install_is_processed `{E : Externals} (CacheBin Slurm : string)
    (SlurmRefresh : bool) (RefreshInterval : Z) (me SendNotifs TimeCheck : bool)
    (t0 : Tick) (ticks : list Tick) (vrps : list VRP) :
  (forall v p, GetPrefix2 v = Ok p -> well_formed p) ->
  let r := run_refresh CacheBin Slurm SlurmRefresh RefreshInterval me SendNotifs TimeCheck
             t0 ticks in
  AddVRPs vrps ∈ r.1.2 ++ concat (map round_events r.2) ->
  NoDup (vrp_key <$> vrps)
  /\ NoDup vrps
  /\ forall vrp, vrp ∈ vrps ->
       within_mask (VRP_Prefix vrp) (MaxLen vrp)
       /\ (one_family (VRP_Prefix vrp) -> within_bounds (VRP_Prefix vrp) (MaxLen vrp)).
Proof.
  intros Hwf. cbv zeta. unfold run_refresh.
  pose proof (run_startup_installed CacheBin Slurm t0
                (initial_state me SendNotifs TimeCheck) vrps) as Hstart.
  destruct (run_startup CacheBin Slurm t0 (initial_state me SendNotifs TimeCheck))
    as [[s updated] evs].
  pose proof (routineUpdate_installed CacheBin CacheBin RefreshInterval
                (if negb SlurmRefresh then "" else Slurm) ticks s vrps) as Hloop.
  destruct (routineUpdate CacheBin CacheBin RefreshInterval
              (if negb SlurmRefresh then "" else Slurm) ticks s) as [s' rounds].
  cbn [fst snd] in *.
  intros Hin.
  assert (Hl : exists l, vrps = (processData l).1.1.1).
  { apply elem_of_app in Hin as [Hin|Hin]; [by apply Hstart | by apply Hloop]. }
  destruct Hl as [l ->].
  destruct (processData_clean l Hwf) as [Hnodup Hbound].
  split_and!; [done | by apply (NoDup_fmap_1 vrp_key) |].
  intros vrp Hvrp. split; [by apply Hbound |].
  intros Hone. by apply within_mask_one_family, Hbound.
Qed.

(** The sample document with entry 7 twice and entry 8, installed at start-up
    and, changed to entries 8, 8 and 9, in the first round of the loop: both
    installs have two VRPs with two keys. *)
Lemma X21_every_install_is_processed_witness :
  let r := run_refresh (E := Sample.externals) "cache" "" true 600 false true false
             (Sample.tick [1; 1; 7; 7; 8] 100) [Sample.tick [1; 1; 8; 8; 9] 700] in
  exists first second,
    AddVRPs first ∈ r.1.2 /\ AddVRPs second ∈ concat (map round_events r.2)
    /\ length first = 2%nat /\ length second = 2%nat
    /\ NoDup (vrp_key (E := Sample.externals) <$> first)
    /\ NoDup (vrp_key (E := Sample.externals) <$> second).
Proof.
  intros r.
  assert (Hev : exists first second refresh requests timer refresh' requests',
            r.1.2 = [refresh; requests; AddVRPs first; NotifyClientsLatest]
            /\ concat (map round_events r.2)
               = [timer; refresh'; requests'; AddVRPs second; NotifyClientsLatest]
            /\ length first = 2%nat /\ length second = 2%nat).
  { eexists _, _, _, _, _, _, _. split_and!; vm_compute; reflexivity. }
  destruct Hev as (first & second & ? & ? & ? & ? & ? & Hstart & Hloop & Hlen1 & Hlen2).
  assert (Hwf : forall v p, GetPrefix2 (Externals := Sample.externals) v = Ok p ->
                            well_formed p).
  { intros v p. cbn [GetPrefix2 Sample.externals]. unfold Sample.ParseCIDR4.
    repeat case_match; try discriminate. intros [= <-]. by left. }
  assert (Hin1 : AddVRPs first ∈ r.1.2) by (rewrite Hstart; elem_of_list).
  assert (Hin2 : AddVRPs second ∈ concat (map round_events r.2))
    by (rewrite Hloop; elem_of_list).
  exists first, second. split_and!; [done | done | done | done | |].
  - apply (X21_every_install_is_processed (E := Sample.externals) "cache" "" true 600
             false true false (Sample.tick [1; 1; 7; 7; 8] 100)
             [Sample.tick [1; 1; 8; 8; 9] 700] first Hwf).
    apply elem_of_app. by left.
  - apply (X21_every_install_is_processed (E := Sample.externals) "cache" "" true 600
             false true false (Sample.tick [1; 1; 7; 7; 8] 100)
             [Sample.tick [1; 1; 8; 8; 9] 700] second Hwf).
    apply elem_of_app. by right.
Defined.
